(** * OTA firmware staging: upload server and upload client

    A shallow embedding of

      - [tools/ota_server/ota-upload/server.py]   (the upload server),
      - [tools/upload_scripts/deploy_ota.py]       (the PlatformIO upload hook),
      - [tools/upload_scripts/select_upload.py]    (the hook that picks the
        upload method), and
      - [tools/esp_fs_inspector.py]                (the serial file system
        inspector: its response framing, [tail] and [monitor]),

    together with the parts of the Python runtime they lean on
    ([bytes.split], [bytes.find], [bytes.rstrip], [str.strip], the UTF-8
    codec, [hashlib.md5], [json.dumps] / [json.loads]).

    Data is kept the way the interpreter has it: [bytes] is a list of
    [Byte.byte], [str] is a list of Unicode code points, a 32-bit word is a
    [Z] reduced modulo [2^32], the file system is a finite map from paths to
    file contents, and everything else the scripts do to the outside world
    (printing, sleeping, opening sockets, HTTP requests) is recorded in a
    trace of events. *)

From Stdlib Require Import ZArith NArith Lia List Bool Ascii String.
From Stdlib Require Import Strings.Byte.
From Stdlib Require Import DecimalFacts DecimalPos DecimalN.
From stdpp Require Import base option list gmap strings.

Local Open Scope Z_scope.

(* ===================================================================== *)
(** * Python values: [bytes] and [str]                                    *)
(* ===================================================================== *)

(** A Python [bytes] object. *)
Abbreviation bytes := (list byte).

(** A Python [str]: a sequence of code points. *)
Abbreviation str := (list N).

#[global] Instance byte_eq_dec : EqDecision byte := Byte.byte_eq_dec.

(** An ASCII literal read as [str] and as [bytes]. *)
Definition ustr (s : string) : str :=
  map N_of_ascii (list_ascii_of_string s).

Definition bstr (s : string) : bytes :=
  list_byte_of_string s.

Definition byte_val (x : byte) : Z := Z.of_N (Byte.to_N x).

Definition CR : byte := x0d.
Definition LF : byte := x0a.
Definition DASH : byte := x2d.
Definition QUOTE : byte := x22.
Definition CRLF : bytes := [CR; LF].

(** [needle in hay], and [hay.find(needle)] counted from [0]. *)
Fixpoint starts_with {A} `{EqDecision A} (needle hay : list A) : bool :=
  match needle, hay with
  | [], _ => true
  | _ :: _, [] => false
  | x :: needle', y :: hay' => bool_decide (x = y) && starts_with needle' hay'
  end.

Fixpoint find {A} `{EqDecision A} (needle hay : list A) : option nat :=
  if starts_with needle hay then Some 0%nat
  else match hay with
       | [] => None
       | _ :: hay' => S <$> find needle hay'
       end.

Definition contains {A} `{EqDecision A} (needle hay : list A) : bool :=
  bool_decide (is_Some (find needle hay)).

(** [hay.split(sep)] for a non-empty [sep]: the pieces between the
    non-overlapping occurrences of [sep], scanning from the left.  [skip]
    counts the elements of an occurrence that are still to be passed over,
    [cur] holds the piece being collected, last element first. *)
Fixpoint split_from {A} `{EqDecision A} (sep : list A) (skip : nat)
    (cur : list A) (hay : list A) : list (list A) :=
  match hay with
  | [] => [rev cur]
  | x :: hay' =>
      match skip with
      | S skip' => split_from sep skip' cur hay'
      | O =>
          if starts_with sep hay
          then rev cur :: split_from sep (length sep - 1) [] hay'
          else split_from sep 0 (x :: cur) hay'
      end
  end.

Definition split {A} `{EqDecision A} (sep hay : list A) : list (list A) :=
  split_from sep 0 [] hay.

(** [s.rstrip(chars)]: drop from the right every element that is a member
    of [chars]; [chars] is a set of elements, not a suffix. *)
Fixpoint rstrip {A} `{EqDecision A} (chars : list A) (s : list A) : list A :=
  match s with
  | [] => []
  | x :: s' =>
      match rstrip chars s' with
      | [] => if bool_decide (x ∈ chars) then [] else [x]
      | r => x :: r
      end
  end.

(* ===================================================================== *)
(** * [hashlib.md5(data).hexdigest()]                                     *)
(* ===================================================================== *)

Module MD5.

Definition w32 (x : Z) : Z := x mod 2 ^ 32.

Definition rotl (x : Z) (c : Z) : Z :=
  w32 (Z.lor (Z.shiftl x c) (Z.shiftr (w32 x) (32 - c))).

Definition lnot32 (x : Z) : Z := Z.lxor x 0xffffffff.

Definition K : list Z :=
  [ 0xd76aa478; 0xe8c7b756; 0x242070db; 0xc1bdceee;
    0xf57c0faf; 0x4787c62a; 0xa8304613; 0xfd469501;
    0x698098d8; 0x8b44f7af; 0xffff5bb1; 0x895cd7be;
    0x6b901122; 0xfd987193; 0xa679438e; 0x49b40821;
    0xf61e2562; 0xc040b340; 0x265e5a51; 0xe9b6c7aa;
    0xd62f105d; 0x02441453; 0xd8a1e681; 0xe7d3fbc8;
    0x21e1cde6; 0xc33707d6; 0xf4d50d87; 0x455a14ed;
    0xa9e3e905; 0xfcefa3f8; 0x676f02d9; 0x8d2a4c8a;
    0xfffa3942; 0x8771f681; 0x6d9d6122; 0xfde5380c;
    0xa4beea44; 0x4bdecfa9; 0xf6bb4b60; 0xbebfbc70;
    0x289b7ec6; 0xeaa127fa; 0xd4ef3085; 0x04881d05;
    0xd9d4d039; 0xe6db99e5; 0x1fa27cf8; 0xc4ac5665;
    0xf4292244; 0x432aff97; 0xab9423a7; 0xfc93a039;
    0x655b59c3; 0x8f0ccc92; 0xffeff47d; 0x85845dd1;
    0x6fa87e4f; 0xfe2ce6e0; 0xa3014314; 0x4e0811a1;
    0xf7537e82; 0xbd3af235; 0x2ad7d2bb; 0xeb86d391 ].

Definition S_ : list Z :=
  [ 7; 12; 17; 22; 7; 12; 17; 22; 7; 12; 17; 22; 7; 12; 17; 22;
    5; 9; 14; 20; 5; 9; 14; 20; 5; 9; 14; 20; 5; 9; 14; 20;
    4; 11; 16; 23; 4; 11; 16; 23; 4; 11; 16; 23; 4; 11; 16; 23;
    6; 10; 15; 21; 6; 10; 15; 21; 6; 10; 15; 21; 6; 10; 15; 21 ].

Record state := State { sa : Z; sb : Z; sc : Z; sd : Z }.

Definition init : state :=
  State 0x67452301 0xefcdab89 0x98badcfe 0x10325476.

(** Four bytes, least significant first, as one word. *)
Definition le32 (l : list Z) : Z :=
  fold_right (fun x acc => x + 256 * acc) 0 l.

Fixpoint words (n : nat) (l : list Z) : list Z :=
  match n with
  | O => []
  | S n' => le32 (take 4 l) :: words n' (drop 4 l)
  end.

Definition round (M : list Z) (i : nat) (st : state) : state :=
  let '(State A B C D) := st in
  let iz := Z.of_nat i in
  let '(F, g) :=
    if (i <? 16)%nat then
      (Z.lor (Z.land B C) (Z.land (lnot32 B) D), iz)
    else if (i <? 32)%nat then
      (Z.lor (Z.land D B) (Z.land (lnot32 D) C), (5 * iz + 1) mod 16)
    else if (i <? 48)%nat then
      (Z.lxor (Z.lxor B C) D, (3 * iz + 5) mod 16)
    else
      (Z.lxor C (Z.lor B (lnot32 D)), (7 * iz) mod 16) in
  let F' := w32 (F + A + nth i K 0 + nth (Z.to_nat g) M 0) in
  State D (w32 (B + rotl F' (nth i S_ 0))) B C.

Definition compress (st : state) (chunk : list Z) : state :=
  let M := words 16 chunk in
  let st' := fold_left (fun s i => round M i s) (seq 0 64) st in
  State (w32 (sa st + sa st')) (w32 (sb st + sb st'))
        (w32 (sc st + sc st')) (w32 (sd st + sd st')).

Fixpoint chunks (n : nat) (st : state) (l : list Z) : state :=
  match n with
  | O => st
  | S n' => chunks n' (compress st (take 64 l)) (drop 64 l)
  end.

(** [n] as [k] bytes, least significant first. *)
Fixpoint le_bytes (k : nat) (n : Z) : list Z :=
  match k with
  | O => []
  | S k' => n mod 256 :: le_bytes k' (n / 256)
  end.

Definition pad (msg : list Z) : list Z :=
  let len := Z.of_nat (length msg) in
  let zeros := Z.to_nat ((55 - len) mod 64) in
  msg ++ [0x80] ++ repeat 0 zeros ++ le_bytes 8 ((8 * len) mod 2 ^ 64).

Definition digest (data : bytes) : list Z :=
  let p := pad (map byte_val data) in
  let st := chunks (length p / 64) init p in
  le_bytes 4 (sa st) ++ le_bytes 4 (sb st) ++
  le_bytes 4 (sc st) ++ le_bytes 4 (sd st).

Definition hex_digit (d : Z) : N :=
  if d <? 10 then Z.to_N (48 + d) else Z.to_N (87 + d).

Definition hex_byte (x : Z) : str := [hex_digit (x / 16); hex_digit (x mod 16)].

Definition hexdigest (data : bytes) : str :=
  concat (map hex_byte (digest data)).

End MD5.

(* ===================================================================== *)
(** * Exceptions                                                          *)
(* ===================================================================== *)

(** A computation that either returns or raises. *)
Inductive result (E A : Type) : Type :=
  | Ok (a : A)
  | Raise (e : E).
Arguments Ok {E A} a.
Arguments Raise {E A} e.

#[global] Instance result_ret {E} : MRet (result E) := fun _ a => Ok a.
#[global] Instance result_bind {E} : MBind (result E) :=
  fun _ _ f m => match m with Ok a => f a | Raise e => Raise e end.

(** [o] if it is there, the exception [e] otherwise. *)
Definition or_raise {E A} (e : E) (o : option A) : result E A :=
  match o with Some a => Ok a | None => Raise e end.

(* ===================================================================== *)
(** * The UTF-8 codec ([bytes.decode()], [str.encode()])                  *)
(* ===================================================================== *)

Module UTF8.

Definition byte_of_Z (x : Z) : byte :=
  default x00 (Byte.of_N (Z.to_N (x mod 256))).

Definition between (lo x hi : Z) : bool := (lo <=? x) && (x <=? hi).

(** The strict decoder: shortest forms only, no surrogates, nothing above
    U+10FFFF (the well-formed sequences of the Unicode standard, table 3-7).
    [None] stands for [UnicodeDecodeError]. *)
Fixpoint decode (l : bytes) : option str :=
  match l with
  | [] => Some []
  | b0 :: l1 =>
      let x0 := byte_val b0 in
      if x0 <? 0x80 then (Z.to_N x0 ::.) <$> decode l1
      else if between 0xc2 x0 0xdf then
        match l1 with
        | b1 :: l2 =>
            let x1 := byte_val b1 in
            if between 0x80 x1 0xbf
            then (Z.to_N ((x0 - 0xc0) * 64 + (x1 - 0x80)) ::.) <$> decode l2
            else None
        | _ => None
        end
      else if between 0xe0 x0 0xef then
        match l1 with
        | b1 :: b2 :: l3 =>
            let x1 := byte_val b1 in
            let x2 := byte_val b2 in
            let lo := if x0 =? 0xe0 then 0xa0 else 0x80 in
            let hi := if x0 =? 0xed then 0x9f else 0xbf in
            if between lo x1 hi && between 0x80 x2 0xbf
            then (Z.to_N ((x0 - 0xe0) * 4096 + (x1 - 0x80) * 64 + (x2 - 0x80)) ::.)
                   <$> decode l3
            else None
        | _ => None
        end
      else if between 0xf0 x0 0xf4 then
        match l1 with
        | b1 :: b2 :: b3 :: l4 =>
            let x1 := byte_val b1 in
            let x2 := byte_val b2 in
            let x3 := byte_val b3 in
            let lo := if x0 =? 0xf0 then 0x90 else 0x80 in
            let hi := if x0 =? 0xf4 then 0x8f else 0xbf in
            if between lo x1 hi && between 0x80 x2 0xbf && between 0x80 x3 0xbf
            then (Z.to_N ((x0 - 0xf0) * 262144 + (x1 - 0x80) * 4096
                          + (x2 - 0x80) * 64 + (x3 - 0x80)) ::.)
                   <$> decode l4
            else None
        | _ => None
        end
      else None
  end.

(** One code point; [None] stands for [UnicodeEncodeError] (a surrogate). *)
Definition encode_char (c : N) : option bytes :=
  let x := Z.of_N c in
  if x <? 0x80 then Some [byte_of_Z x]
  else if x <? 0x800 then
    Some [byte_of_Z (0xc0 + x / 64); byte_of_Z (0x80 + x mod 64)]
  else if between 0xd800 x 0xdfff then None
  else if x <? 0x10000 then
    Some [byte_of_Z (0xe0 + x / 4096); byte_of_Z (0x80 + (x / 64) mod 64);
          byte_of_Z (0x80 + x mod 64)]
  else if x <? 0x110000 then
    Some [byte_of_Z (0xf0 + x / 262144); byte_of_Z (0x80 + (x / 4096) mod 64);
          byte_of_Z (0x80 + (x / 64) mod 64); byte_of_Z (0x80 + x mod 64)]
  else None.

Fixpoint encode (s : str) : option bytes :=
  match s with
  | [] => Some []
  | c :: s' =>
      match encode_char c, encode s' with
      | Some bs, Some rest => Some (bs ++ rest)
      | _, _ => None
      end
  end.

End UTF8.

(* ===================================================================== *)
(** * [json.dumps] and [json.loads]                                       *)
(* ===================================================================== *)

(** The documents the two programs write are flat objects whose values are
    strings and integers; [jdict] is such an object, in insertion order. *)
Inductive jval : Type :=
  | JStr (s : str)
  | JInt (n : Z).

Abbreviation jdict := (list (str * jval)).

#[global] Instance jval_eq_dec : EqDecision jval.
Proof. solve_decision. Defined.

(** [d[key]] for the dict built from a list of pairs: the last pair with
    that key wins. *)
Fixpoint dict_get (key : str) (d : jdict) : option jval :=
  match d with
  | [] => None
  | (k, v) :: d' =>
      match dict_get key d' with
      | Some v' => Some v'
      | None => if bool_decide (k = key) then Some v else None
      end
  end.

Module Json.

Local Open Scope N_scope.

(** ** Writing *)

Definition hex_digit (d : N) : N := if d <? 10 then 48 + d else 87 + d.

(** ['{0:04x}'.format(n)] *)
Definition hex4 (n : N) : str :=
  [hex_digit (n / 4096 mod 16); hex_digit (n / 256 mod 16);
   hex_digit (n / 16 mod 16); hex_digit (n mod 16)].

Definition BACKSLASH : N := 92.
Definition DQUOTE : N := 34.

(** [ensure_ascii] escaping of one code point: the short escapes, the
    printable ASCII range as it is, everything else as [\uXXXX], with a
    surrogate pair above the basic plane. *)
Definition escape_char (c : N) : str :=
  if c =? 34 then [BACKSLASH; 34]
  else if c =? 92 then [BACKSLASH; 92]
  else if c =? 10 then [BACKSLASH; 110]
  else if c =? 13 then [BACKSLASH; 114]
  else if c =? 9 then [BACKSLASH; 116]
  else if c =? 8 then [BACKSLASH; 98]
  else if c =? 12 then [BACKSLASH; 102]
  else if (32 <=? c) && (c <=? 126) then [c]
  else if c <? 0x10000 then [BACKSLASH; 117] ++ hex4 c
  else
    let n := c - 0x10000 in
    let s1 := N.lor 0xd800 (N.land (N.shiftr n 10) 0x3ff) in
    let s2 := N.lor 0xdc00 (N.land n 0x3ff) in
    [BACKSLASH; 117] ++ hex4 s1 ++ [BACKSLASH; 117] ++ hex4 s2.

Definition escape (s : str) : str := concat (map escape_char s).

Definition dump_str (s : str) : str := [DQUOTE] ++ escape s ++ [DQUOTE].

(** Decimal digits, most significant first. *)
Fixpoint uint_digits (d : Decimal.uint) : str :=
  match d with
  | Decimal.Nil => []
  | Decimal.D0 d => 48 :: uint_digits d
  | Decimal.D1 d => 49 :: uint_digits d
  | Decimal.D2 d => 50 :: uint_digits d
  | Decimal.D3 d => 51 :: uint_digits d
  | Decimal.D4 d => 52 :: uint_digits d
  | Decimal.D5 d => 53 :: uint_digits d
  | Decimal.D6 d => 54 :: uint_digits d
  | Decimal.D7 d => 55 :: uint_digits d
  | Decimal.D8 d => 56 :: uint_digits d
  | Decimal.D9 d => 57 :: uint_digits d
  end.

(** [str(n)] of an [int]. *)
Definition dump_int (n : Z) : str :=
  match n with
  | Zneg p => 45 :: uint_digits (N.to_uint (Npos p))
  | _ => uint_digits (N.to_uint (Z.to_N n))
  end.

Definition dump_val (v : jval) : str :=
  match v with
  | JStr s => dump_str s
  | JInt n => dump_int n
  end.

Definition NEWLINE : N := 10.
Definition SPACE : N := 32.

(** One member on its own line, indented by [indent] spaces. *)
Definition dump_member (indent : nat) (kv : str * jval) : str :=
  [NEWLINE] ++ repeat SPACE indent ++ dump_str kv.1 ++ [58; SPACE] ++ dump_val kv.2.

Fixpoint dump_members (indent : nat) (d : jdict) : str :=
  match d with
  | [] => []
  | [kv] => dump_member indent kv
  | kv :: d' => dump_member indent kv ++ [44] ++ dump_members indent d'
  end.

(** [json.dumps(d, indent=indent)] *)
Definition dumps_indent (indent : nat) (d : jdict) : str :=
  match d with
  | [] => [123; 125]
  | _ => [123] ++ dump_members indent d ++ [NEWLINE; 125]
  end.

(** [json.dumps(d)]: members separated by [", "], no line breaks. *)
Fixpoint dump_members_flat (d : jdict) : str :=
  match d with
  | [] => []
  | [kv] => dump_str kv.1 ++ [58; SPACE] ++ dump_val kv.2
  | kv :: d' =>
      dump_str kv.1 ++ [58; SPACE] ++ dump_val kv.2 ++ [44; SPACE] ++ dump_members_flat d'
  end.

Definition dumps (d : jdict) : str := [123] ++ dump_members_flat d ++ [125].

(** ** Reading *)

Definition is_ws (c : N) : bool :=
  (c =? 32) || (c =? 9) || (c =? 10) || (c =? 13).

Fixpoint skip_ws (s : str) : str :=
  match s with
  | [] => []
  | c :: s' => if is_ws c then skip_ws s' else s
  end.

Definition hex_val (c : N) : option N :=
  if (48 <=? c) && (c <=? 57) then Some (c - 48)
  else if (97 <=? c) && (c <=? 102) then Some (c - 87)
  else if (65 <=? c) && (c <=? 70) then Some (c - 55)
  else None.

Definition decode_uXXXX (h1 h2 h3 h4 : N) : option N :=
  a ← hex_val h1; b ← hex_val h2; c ← hex_val h3; d ← hex_val h4;
  Some (4096 * a + 256 * b + 16 * c + d).

(** The character a one-letter escape stands for. *)
Definition unescape (e : N) : option N :=
  if e =? 34 then Some 34
  else if e =? 92 then Some 92
  else if e =? 47 then Some 47
  else if e =? 98 then Some 8
  else if e =? 102 then Some 12
  else if e =? 110 then Some 10
  else if e =? 114 then Some 13
  else if e =? 116 then Some 9
  else None.

Definition push (c : N) (r : option (str * str)) : option (str * str) :=
  '(s, rest) ← r; Some (c :: s, rest).

(** The decoder's [scanstring], started after the opening quote: the
    string's content and what follows the closing quote.  A high surrogate
    escape directly followed by a low surrogate escape is read as the one
    code point the pair encodes; control characters are refused
    ([strict] is on). *)
Fixpoint scanstring (s : str) : option (str * str) :=
  match s with
  | [] => None
  | c :: s1 =>
      if c =? 34 then Some ([], s1)
      else if c =? 92 then
        match s1 with
        | [] => None
        | e :: s2 =>
            if e =? 117 then
              match s2 with
              | h1 :: h2 :: h3 :: h4 :: s3 =>
                  match decode_uXXXX h1 h2 h3 h4 with
                  | None => None
                  | Some uni =>
                      if (0xd800 <=? uni) && (uni <=? 0xdbff) then
                        match s3 with
                        | b1 :: b2 :: l1 :: l2 :: l3 :: l4 :: s4 =>
                            if (b1 =? 92) && (b2 =? 117) then
                              match decode_uXXXX l1 l2 l3 l4 with
                              | None => None
                              | Some uni2 =>
                                  if (0xdc00 <=? uni2) && (uni2 <=? 0xdfff)
                                  then push (0x10000 +
                                               N.lor (N.shiftl (uni - 0xd800) 10)
                                                     (uni2 - 0xdc00))
                                            (scanstring s4)
                                  else push uni (scanstring s3)
                              end
                            else push uni (scanstring s3)
                        | _ => push uni (scanstring s3)
                        end
                      else push uni (scanstring s3)
                  end
              | _ => None
              end
            else
              match unescape e with
              | Some c' => push c' (scanstring s2)
              | None => None
              end
        end
      else if c <? 32 then None
      else push c (scanstring s1)
  end.

Definition is_digit (c : N) : bool := (48 <=? c) && (c <=? 57).

Definition cons_digit (c : N) (d : Decimal.uint) : Decimal.uint :=
  match c - 48 with
  | 0 => Decimal.D0 d | 1 => Decimal.D1 d | 2 => Decimal.D2 d
  | 3 => Decimal.D3 d | 4 => Decimal.D4 d | 5 => Decimal.D5 d
  | 6 => Decimal.D6 d | 7 => Decimal.D7 d | 8 => Decimal.D8 d
  | _ => Decimal.D9 d
  end.

Fixpoint scan_digits (s : str) : Decimal.uint * str :=
  match s with
  | [] => (Decimal.Nil, [])
  | c :: s' =>
      if is_digit c
      then let '(d, rest) := scan_digits s' in (cons_digit c d, rest)
      else (Decimal.Nil, s)
  end.

(** The integer part of a number: [0], or a non-zero digit and the digits
    after it. *)
Definition scan_nat (s : str) : option (N * str) :=
  match s with
  | [] => None
  | c :: s' =>
      if c =? 48 then Some (0, s')
      else if is_digit c
      then let '(d, rest) := scan_digits s in Some (N.of_uint d, rest)
      else None
  end.

Definition scan_int (s : str) : option (Z * str) :=
  match s with
  | [] => None
  | c :: s' =>
      if c =? 45
      then '(n, rest) ← scan_nat s'; Some (Z.opp (Z.of_N n), rest)
      else '(n, rest) ← scan_nat s; Some (Z.of_N n, rest)
  end.

(** A member's value.  Anything but a string or an integer (a nested
    container, a float, [true], [false], [null]) is outside the fragment and
    gives [None], like a malformed document. *)
Definition scan_value (s : str) : option (jval * str) :=
  match s with
  | [] => None
  | c :: s' =>
      if c =? 34
      then '(v, rest) ← scanstring s'; Some (JStr v, rest)
      else '(n, rest) ← scan_int s; Some (JInt n, rest)
  end.

(** The members of an object, started at the opening quote of a key, up to
    and including the closing brace.  Every member takes at least one
    character, so the length of the text is enough fuel. *)
Fixpoint scan_members (fuel : nat) (s : str) : option (jdict * str) :=
  match fuel with
  | O => None
  | S fuel' =>
      match s with
      | [] => None
      | q :: s1 =>
          if q =? 34 then
            '(key, s2) ← scanstring s1;
            match skip_ws s2 with
            | [] => None
            | c :: s3 =>
                if c =? 58 then
                  '(v, s4) ← scan_value (skip_ws s3);
                  match skip_ws s4 with
                  | [] => None
                  | d :: s5 =>
                      if d =? 125 then Some ([(key, v)], s5)
                      else if d =? 44 then
                        '(more, s6) ← scan_members fuel' (skip_ws s5);
                        Some ((key, v) :: more, s6)
                      else None
                  end
                else None
            end
          else None
      end
  end.

Definition scan_object (s : str) : option (jdict * str) :=
  match s with
  | [] => None
  | c :: s1 =>
      if c =? 123 then
        match skip_ws s1 with
        | [] => None
        | c2 :: s2 =>
            if c2 =? 125 then Some ([], s2)
            else scan_members (length s1) (skip_ws s1)
        end
      else None
  end.

(** [json.loads(s)] of a document that is a flat object: the members in
    document order; [None] stands for [JSONDecodeError] (and for documents
    outside the fragment). *)
Definition loads (s : str) : option jdict :=
  '(d, rest) ← scan_object (skip_ws s);
  match skip_ws rest with
  | [] => Some d
  | _ => None
  end.

End Json.

(* ===================================================================== *)
(** * The firmware manifest                                               *)
(* ===================================================================== *)

(** The file system: the regular files, by path. *)
Abbreviation filesystem := (gmap str bytes).

Record manifest := Manifest {
  m_version : str;
  m_file : str;
  m_md5 : str;
  m_size : Z;
  m_board : str;
  m_timestamp : str;
}.

(** The manifest as the dict literal both programs build, key by key. *)
Definition manifest_dict (m : manifest) : jdict :=
  [ (ustr "version", JStr (m_version m));
    (ustr "file", JStr (m_file m));
    (ustr "md5", JStr (m_md5 m));
    (ustr "size", JInt (m_size m));
    (ustr "board", JStr (m_board m));
    (ustr "timestamp", JStr (m_timestamp m)) ].

(** Text written to a file opened in text mode. *)
Definition text_bytes (text : str) : option bytes := UTF8.encode text.

(** What a reader of [manifest.json] gets: the file decoded and parsed. *)
Definition read_manifest (fs : filesystem) (path : str) : option jdict :=
  data ← fs !! path; text ← UTF8.decode data; Json.loads text.

(* ===================================================================== *)
(** * server.py                                                           *)
(* ===================================================================== *)

Module Server.

(** The exceptions the handler's [try] block can see. *)
Inductive exn : Type :=
  | IndexError          (* no "boundary=" in the Content-Type *)
  | ValueError          (* a Content-Length that is no integer *)
  | UnicodeDecodeError  (* a text field that is not UTF-8 *)
  | UnicodeEncodeError. (* text that has no UTF-8 encoding *)

(** [self.headers.get("Content-Length", 0)] as [int()] sees it. *)
Inductive length_header : Type :=
  | LengthMissing
  | LengthInt (n : Z)
  | LengthInvalid.

Record request := Request {
  path : str;
  content_type : option str;
  content_length : length_header;
  rfile : bytes;
}.

(** The body of a reply: a JSON object, or [{"error": str(e)}] for the
    exception [e]. *)
Inductive payload : Type :=
  | JsonObject (d : jdict)
  | ErrorOf (e : exn).

Record response := Response { code : Z; body : payload }.

(** What the handler prints. *)
Inductive log_line : Type :=
  | LogOk (version : str) (size : nat)   (* [OK] v<version> - <size> bytes *)
  | LogErr (e : exn).                    (* [ERR] <e> *)

(** [rfile.read(n)] *)
Definition read (n : Z) (stream : bytes) : bytes :=
  if n <? 0 then stream else take (Z.to_nat n) stream.

(** [content_type.split("boundary=")[1].encode()] *)
Definition boundary_of (content_type : str) : result exn bytes :=
  piece ← or_raise IndexError (split (ustr "boundary=") content_type !! 1%nat);
  or_raise UnicodeEncodeError (UTF8.encode piece).

(** [b'name="<field>"'] *)
Definition name_tag (field : string) : bytes :=
  bstr "name=" ++ [QUOTE] ++ bstr field ++ [QUOTE].

(** The argument of [rstrip]: [b"\r\n--"]. *)
Definition STRIP : bytes := [CR; LF; DASH; DASH].

(** [idx = part.find(b"\r\n\r\n")] and, when [idx > 0],
    [part[idx + 4:].rstrip(b"\r\n--")]. *)
Definition part_payload (part : bytes) : option bytes :=
  match find (CRLF ++ CRLF) part with
  | Some idx =>
      if (0 <? idx)%nat then Some (rstrip STRIP (drop (idx + 4) part)) else None
  | None => None
  end.

Record parsed := Parsed {
  firmware_data : option bytes;
  form_data : gmap string str;
}.

(** The inner loop's body for one of the text fields. *)
Definition scan_field (part : bytes) (field : string) (st : parsed)
    : result exn parsed :=
  if contains (name_tag field) part then
    match part_payload part with
    | Some raw =>
        text ← or_raise UnicodeDecodeError (UTF8.decode raw);
        Ok (Parsed (firmware_data st) (<[field := text]> (form_data st)))
    | None => Ok st
    end
  else Ok st.

(** The outer loop's body. *)
Definition scan_part (st : parsed) (part : bytes) : result exn parsed :=
  if contains (name_tag "firmware") part then
    match part_payload part with
    | Some raw => Ok (Parsed (Some raw) (form_data st))
    | None => Ok st
    end
  else
    st1 ← scan_field part "version" st;
    scan_field part "board" st1.

Fixpoint scan_parts (parts : list bytes) (st : parsed) : result exn parsed :=
  match parts with
  | [] => Ok st
  | part :: parts' => st' ← scan_part st part; scan_parts parts' st'
  end.

(** Everything up to the test of [firmware_data]. *)
Definition parse (req : request) : result exn parsed :=
  let content_type := default [] (content_type req) in
  n ← match content_length req with
      | LengthMissing => Ok 0
      | LengthInt n => Ok n
      | LengthInvalid => Raise ValueError
      end;
  boundary ← boundary_of content_type;
  let body := read n (rfile req) in
  let parts := split (bstr "--" ++ boundary) body in
  scan_parts parts (Parsed None ∅).

Definition not_found : response :=
  Response 404 (JsonObject [(ustr "error", JStr (ustr "not found"))]).

Definition no_firmware : response :=
  Response 400 (JsonObject [(ustr "error", JStr (ustr "no firmware"))]).

Definition uploaded (md5 : str) (size : nat) : response :=
  Response 200 (JsonObject [(ustr "status", JStr (ustr "ok"));
                      (ustr "md5", JStr md5);
                      (ustr "size", JInt (Z.of_nat size))]).

Definition do_GET (req : request) : response :=
  if bool_decide (path req = ustr "/health")
  then Response 200 (JsonObject [(ustr "status", JStr (ustr "ok"))])
  else not_found.

(** The state a request leaves behind and what it answers. *)
Record outcome := Outcome {
  files : filesystem;
  reply : response;
  printed : list log_line;
}.

Section Handler.

(** The module's globals: the staging directory, and the clock read by
    [datetime.utcnow().isoformat()]. *)
Variable FIRMWARE_DIR : str.
Variable now : str.

Definition firmware_bin : str := FIRMWARE_DIR ++ ustr "/firmware.bin".
Definition manifest_json : str := FIRMWARE_DIR ++ ustr "/manifest.json".

Definition make_manifest (st : parsed) (data : bytes) : manifest :=
  {| m_version := default (ustr "0.0.0") (form_data st !! "version");
     m_file := ustr "firmware.bin";
     m_md5 := MD5.hexdigest data;
     m_size := Z.of_nat (length data);
     m_board := default (ustr "unknown") (form_data st !! "board");
     m_timestamp := now ++ ustr "Z" |}.

(** The part of the [try] block after a non-empty [firmware_data]: the two
    writes, in the order the handler makes them.  The first write stays on
    disk when the second raises. *)
Definition store (st : parsed) (data : bytes) (fs : filesystem) : outcome :=
  let m := make_manifest st data in
  let fs1 := <[firmware_bin := data]> fs in
  match text_bytes (Json.dumps_indent 2 (manifest_dict m)) with
  | Some text =>
      Outcome (<[manifest_json := text]> fs1)
              (uploaded (m_md5 m) (length data))
              [LogOk (m_version m) (length data)]
  | None =>
      Outcome fs1 (Response 500 (ErrorOf UnicodeEncodeError))
              [LogErr UnicodeEncodeError]
  end.

Definition do_POST (req : request) (fs : filesystem) : outcome :=
  if negb (bool_decide (path req = ustr "/upload")) then
    Outcome fs not_found []
  else
    match parse req with
    | Raise e => Outcome fs (Response 500 (ErrorOf e)) [LogErr e]
    | Ok st =>
        match firmware_data st with
        | None | Some [] => Outcome fs no_firmware []
        | Some data => store st data fs
        end
    end.

End Handler.

End Server.

(* ===================================================================== *)
(** * server.py: sending a reply                                          *)
(* ===================================================================== *)

Module Reply.
Import Server.

(** What goes out on the connection: the status of [send_response], the
    headers given to [send_header], and the bytes written to [wfile]. *)
Record http_response := HttpResponse {
  status : Z;
  headers : list (string * str);
  wfile : bytes;
}.

(** [self._json(code, data)] *)
Definition _json (code : Z) (data : jdict) : result exn http_response :=
  body ← or_raise UnicodeEncodeError (UTF8.encode (Json.dumps data));
  Ok {| status := code;
        headers := [("Content-Type", ustr "application/json");
                    ("Content-Length", Json.dump_int (Z.of_nat (length body)))];
        wfile := body |}.

Section Sending.

(** [str(e)], the text of an exception. *)
Variable message : exn → str.

(** The dict a reply is made of. *)
Definition reply_dict (p : payload) : jdict :=
  match p with
  | JsonObject d => d
  | ErrorOf e => [(ustr "error", JStr (message e))]
  end.

Definition send (r : response) : result exn http_response :=
  _json (code r) (reply_dict (body r)).

End Sending.

End Reply.

(* ===================================================================== *)
(** * deploy_ota.py                                                       *)
(* ===================================================================== *)

Module Client.

(** ** The build environment *)

(** The SCons environment PlatformIO hands to the hook, and the process
    environment behind [os.getenv]. *)
Record build_env := BuildEnv {
  BUILD_DIR : str;                      (* env.subst("$BUILD_DIR") *)
  PROJECT_DIR : option str;             (* env.get("PROJECT_DIR", ...) *)
  BOARD : option str;                   (* env.get("BOARD", ...) *)
  BUILD_FLAGS : option (list str);      (* env.get("BUILD_FLAGS", ...) *)
  project_options : gmap string str;    (* env.GetProjectOption(name, ...) *)
}.

Abbreviation environ := (gmap string str).

(** [a or b] on strings: [a] unless it is empty. *)
Definition str_or (a b : str) : str :=
  match a with [] => b | _ => a end.

(** [env.GetProjectOption(name, default)] *)
Definition GetProjectOption (env : build_env) (name : string) (dflt : str) : str :=
  default dflt (project_options env !! name).

(** [os.getenv(name, default)] *)
Definition getenv (os_environ : environ) (name : string) (dflt : str) : str :=
  default dflt (os_environ !! name).

(** [Path(dir) / name] *)
Definition joinpath (dir name : str) : str := dir ++ ustr "/" ++ name.

(** ** [get_firmware_version] *)

(** The regular expression of [get_firmware_version]: the literal
    FIRMWARE_VERSION, one or more characters of the class SEP (an equals
    sign, a backslash or a double quote), an optional double quote, and the
    group: one or more characters of the class of digits and the dot. *)
Module Re.

Local Open Scope N_scope.

(** The class SEP. *)
Definition is_sep (c : N) : bool := (c =? 61) || (c =? 92) || (c =? 34).

(** The class of the group: a digit or a dot. *)
Definition is_version_char (c : N) : bool :=
  ((48 <=? c) && (c <=? 57)) || (c =? 46).

Fixpoint take_while (p : N → bool) (s : str) : str :=
  match s with
  | [] => []
  | c :: s' => if p c then c :: take_while p s' else []
  end.

Fixpoint drop_while (p : N → bool) (s : str) : str :=
  match s with
  | [] => []
  | c :: s' => if p c then drop_while p s' else s
  end.

(** A match that starts at the head of [s], as its group 1.  The greedy
    repetition of SEP takes the whole run of separator characters; giving
    some of them back cannot help, because the optional quote and the group
    would then face a separator character, which only the optional quote
    accepts and only once.  So the optional quote never consumes anything,
    and the group is the longest run of digits and dots that follows the
    separators. *)
Definition match_here (s : str) : option str :=
  if starts_with (ustr "FIRMWARE_VERSION") s then
    let s1 := drop 16 s in
    match take_while is_sep s1 with
    | [] => None
    | _ =>
        match take_while is_version_char (drop_while is_sep s1) with
        | [] => None
        | v => Some v
        end
    end
  else None.

(** [re.search(pattern, s)]: the match at the leftmost position that has
    one. *)
Fixpoint search (s : str) : option str :=
  match match_here s with
  | Some v => Some v
  | None =>
      match s with
      | [] => None
      | _ :: s' => search s'
      end
  end.

End Re.

(** The loop over the build flags. *)
Fixpoint version_from_flags (flags : list str) : option str :=
  match flags with
  | [] => None
  | flag :: flags' =>
      if contains (ustr "FIRMWARE_VERSION") flag then
        match Re.search flag with
        | Some v => Some v
        | None => version_from_flags flags'
        end
      else version_from_flags flags'
  end.

Definition get_firmware_version (env : build_env) : str :=
  match project_options env !! "custom_firmware_version" with
  | Some (c :: v) => c :: v
  | _ =>
      match version_from_flags (default [] (BUILD_FLAGS env)) with
      | Some v => v
      | None => ustr "0.0.0"
      end
  end.

(** ** The outside world *)

(** The exceptions an upload attempt can raise, by the [except] clause that
    catches them.  The clauses are tried in this order, so an exception that
    is both a timeout and a connection error (a connect timeout) counts as a
    timeout. *)
Inductive exn : Type :=
  | RequestsTimeout           (* requests.exceptions.Timeout *)
  | RequestsConnectionError   (* requests.exceptions.ConnectionError *)
  | OtherException.           (* any other Exception *)

(** What [requests.post] does on one attempt. *)
Inductive post_result : Type :=
  | Replied (status_code : Z) (text : str)
  | Raised (e : exn).

(** How the socket probe ends: the URL does not even parse (its port is no
    number), the connection is made, or it is refused. *)
Inductive probe_result : Type :=
  | Unparsed
  | Connected
  | Refused.

(** The network as the client meets it: whether the [requests] import
    worked, how the socket probe ends, whether the health request goes
    through (the status code, when it does), and the result of each POST. *)
Record network := Network {
  HAS_REQUESTS : bool;
  socket_probe : probe_result;
  health_status : option Z;
  post : nat → post_result;   (* by attempt number, from 1 *)
}.

(** The multipart form of one POST. *)
Record upload_form := UploadForm {
  form_firmware : bytes;
  form_version : str;
  form_md5 : str;
  form_size : str;
  form_board : str;
}.

Inductive log_line : Type :=
  | LogNoRequests | LogInstallRequests
  | LogUploading (url : str) | LogPython
  | LogTestingConnection (url : str)
  | LogSocketOk | LogSocketFailed
  | LogHealth (status : Z) | LogHealthFailed
  | LogAttempt (attempt max_retries : nat)
  | LogUploadOk (version : str) (size : Z)
  | LogUploadFailed (status : Z)
  | LogResponse (text : str)
  | LogRetrying
  | LogTimeout (attempt : nat)
  | LogConnectionError (attempt : nat)
  | LogError
  | LogFailedAfter (max_retries : nat)
  | LogMakeSureDocker
  | LogFirmwareNotFound (path : str)
  | LogBanner
  | LogMode (flash_method : str)
  | LogVersion (version : str)
  | LogBoard (board : str)
  | LogSize (size : Z)
  | LogMd5 (md5 : str)
  | LogNoServerUrl.

(** What the script does to the outside world, in order. *)
Inductive event : Type :=
  | Print (line : log_line)
  | Sleep (seconds : Z)
  | SocketConnect (url : str) (timeout : Z)   (* to urlparse(url)'s host and port *)
  | HttpGet (url : str) (timeout : Z)
  | HttpPost (url : str) (form : upload_form) (timeout : Z).


Definition is_post (e : event) : bool :=
  match e with HttpPost _ _ _ => true | _ => false end.

Definition is_sleep (e : event) : bool :=
  match e with Sleep _ => true | _ => false end.

(** ** [str.strip()] and [str.lower()] *)

(** The code points [str.isspace] holds for. *)
Definition is_space (c : N) : bool :=
  ((9 <=? c) && (c <=? 13) || (28 <=? c) && (c <=? 32) || (c =? 0x85)
   || (c =? 0xa0) || (c =? 0x1680) || (0x2000 <=? c) && (c <=? 0x200a)
   || (c =? 0x2028) || (c =? 0x2029) || (c =? 0x202f) || (c =? 0x205f)
   || (c =? 0x3000))%N.

Definition strip (s : str) : str :=
  rev (Re.drop_while is_space (rev (Re.drop_while is_space s))).

(** Lower case of one code point, as far as ASCII is involved: the ASCII
    capitals, and the two code points outside ASCII whose lower case has an
    ASCII letter in it (U+0130 and the Kelvin sign).  Every other code point
    outside ASCII is left as it is: its lower case has no ASCII character,
    so a comparison of the result with an ASCII literal comes out the
    same. *)
Definition lower_char (c : N) : str :=
  (if (65 <=? c) && (c <=? 90) then [c + 32]
   else if c =? 0x130 then [105; 0x307]
   else if c =? 0x212a then [107]
   else [c])%N.

Definition lower (s : str) : str := concat (map lower_char s).

(** ** [post_firmware_to_server] *)

Definition max_retries : nat := 3.
Definition timeout : Z := 120.

(** [s.rsplit(sep, 1)[0]]: what stands before the last [sep], all of [s]
    when there is none. *)
Fixpoint before_last (sep : N) (s : str) : option str :=
  match s with
  | [] => None
  | c :: s' =>
      match before_last sep s' with
      | Some r => Some (c :: r)
      | None => if (c =? sep)%N then Some [] else None
      end
  end.

Definition health_url (server_url : str) : str :=
  default server_url (before_last 47 server_url) ++ ustr "/health".

(** The two connection tests.  Both sit in a [try] of their own that
    catches every exception, so neither failure stops the upload. *)
Definition test_connection (net : network) (server_url : str) : list event :=
  match socket_probe net with
  | Unparsed => [Print LogSocketFailed]
  | Connected =>
      [Print (LogTestingConnection server_url); SocketConnect server_url 5;
       Print LogSocketOk]
  | Refused =>
      [Print (LogTestingConnection server_url); SocketConnect server_url 5;
       Print LogSocketFailed]
  end
  ++ [HttpGet (health_url server_url) 10;
      Print (match health_status net with
             | Some status => LogHealth status
             | None => LogHealthFailed
             end)].

Definition form_of (data : bytes) (m : manifest) : upload_form :=
  {| form_firmware := data;
     form_version := m_version m;
     form_md5 := m_md5 m;
     form_size := Json.dump_int (m_size m);
     form_board := m_board m |}.

(** [status in (200, 201)] *)
Definition is_success (status : Z) : bool := (status =? 200) || (status =? 201).

(** [evs] happened, then [k] ran. *)
Definition after (evs : list event) (k : bool * list event) : bool * list event :=
  (k.1, evs ++ k.2).

Section Posting.

Variable net : network.
Variable fs : filesystem.
Variable firmware_path : str.
Variable m : manifest.
Variable server_url : str.

(** The [for attempt in range(1, max_retries + 1)] loop over the attempt
    numbers still to come, and the lines after it.  [continue] and falling
    out of an [except] clause both go on with the next attempt number. *)
Fixpoint upload_loop (attempts : list nat) : bool * list event :=
  match attempts with
  | [] => (false, [Print (LogFailedAfter max_retries); Print LogMakeSureDocker])
  | attempt :: rest =>
      match fs !! firmware_path with
      | None =>
          (* read_bytes raises: the last except clause *)
          (false, [Print (LogAttempt attempt max_retries); Print LogError])
      | Some data =>
          let sent := [Print (LogAttempt attempt max_retries);
                       HttpPost server_url (form_of data m) timeout] in
          match post net attempt with
          | Replied status text =>
              if is_success status then
                (true, sent ++ [Print (LogUploadOk (m_version m) (m_size m))])
              else
                let failed := sent ++ [Print (LogUploadFailed status);
                                       Print (LogResponse (take 200 text))] in
                if (attempt <? max_retries)%nat
                then after (failed ++ [Print LogRetrying]) (upload_loop rest)
                else (false, failed)
          | Raised RequestsTimeout =>
              let caught := sent ++ [Print (LogTimeout attempt)] in
              if (attempt <? max_retries)%nat
              then after (caught ++ [Print LogRetrying]) (upload_loop rest)
              else after caught (upload_loop rest)
          | Raised RequestsConnectionError =>
              let caught := sent ++ [Print (LogConnectionError attempt)] in
              if (attempt <? max_retries)%nat
              then after (caught ++ [Sleep 2; Print LogRetrying]) (upload_loop rest)
              else after caught (upload_loop rest)
          | Raised OtherException =>
              (false, sent ++ [Print LogError])
          end
      end
  end.

Definition post_firmware_to_server : bool * list event :=
  if negb (HAS_REQUESTS net) then
    (false, [Print LogNoRequests; Print LogInstallRequests])
  else
    after ([Print (LogUploading server_url); Print LogPython]
           ++ test_connection net server_url)
          (upload_loop (seq 1 max_retries)).

End Posting.

(** ** [deploy_firmware] *)

(** How a call ends: it returns, or an exception leaves it. *)
Inductive completion : Type :=
  | Returned
  | Propagated.   (* UnicodeEncodeError out of write_text *)

Record run := Run {
  files : filesystem;
  trace : list event;
  ending : completion;
}.

Definition flash_method (env : build_env) (os_environ : environ) : str :=
  lower (strip (getenv os_environ "FLASH_METHOD"
                  (str_or (GetProjectOption env "flash_method" (ustr "serial"))
                          (ustr "serial")))).

(** The upload target: the project option, and the environment variable
    when the project option is missing or empty. *)
Definition resolve_server_url (env : build_env) (os_environ : environ) : str :=
  str_or (GetProjectOption env "ota_server_url" [])
         (getenv os_environ "OTA_SERVER_URL" []).

Definition firmware_path (env : build_env) : str :=
  joinpath (BUILD_DIR env) (ustr "firmware.bin").

Definition deploy_dir (env : build_env) : str :=
  joinpath (joinpath (default (ustr ".") (PROJECT_DIR env)) (ustr "ota"))
           (ustr "firmware").

Definition dest_firmware (env : build_env) : str :=
  joinpath (deploy_dir env) (ustr "firmware.bin").

Definition manifest_path (env : build_env) : str :=
  joinpath (deploy_dir env) (ustr "manifest.json").

Definition make_manifest (env : build_env) (now : str) (data : bytes) : manifest :=
  {| m_version := get_firmware_version env;
     m_file := ustr "firmware.bin";
     m_md5 := MD5.hexdigest data;
     m_size := Z.of_nat (length data);
     m_board := default (ustr "unknown") (BOARD env);
     m_timestamp := now ++ ustr "Z" |}.

(** The hook itself.  [now] is [datetime.utcnow().isoformat()].  The disk
    is taken to do what it is asked: the staging directory can be made and
    written (making directories leaves the map of regular files as it is),
    and the copy goes to another file than the build output, which it
    leaves as it is. *)
Definition deploy_firmware (net : network) (env : build_env)
    (os_environ : environ) (now : str) (fs : filesystem) : run :=
  match fs !! firmware_path env with
  | None => Run fs [Print (LogFirmwareNotFound (firmware_path env))] Returned
  | Some data =>
      let method := flash_method env os_environ in
      let m := make_manifest env now data in
      let fs1 := <[dest_firmware env := data]> fs in
      let shown := [Print LogBanner; Print (LogMode method); Print LogBanner;
                    Print (LogVersion (m_version m)); Print (LogBoard (m_board m));
                    Print (LogSize (m_size m)); Print (LogMd5 (m_md5 m))] in
      match text_bytes (Json.dumps_indent 2 (manifest_dict m)) with
      | None => Run fs1 shown Propagated
      | Some text =>
          let fs2 := <[manifest_path env := text]> fs1 in
          let upload :=
            if bool_decide (method = ustr "ota") then
              match resolve_server_url env os_environ with
              | [] => [Print LogNoServerUrl]
              | server_url =>
                  (post_firmware_to_server net fs2 (firmware_path env) m server_url).2
              end
            else [] in
          Run fs2 (shown ++ upload ++ [Print LogBanner]) Returned
      end
  end.

End Client.

(* ===================================================================== *)
(** * select_upload.py                                                    *)
(* ===================================================================== *)

Module SelectUpload.
Import Client.

(** [str(value).strip().lower()] *)
Definition normalize (value : str) : str := lower (strip value).

Inductive log_line : Type :=
  | LogOta        (* [upload] method=ota (upload disabled, ...) *)
  | LogSerial     (* [upload] method=serial *)
  | LogUnknown.   (* [upload] unknown flash_method='<method>', using default *)

(** What the script does to the build: [env.Replace(KEY=value)], and what
    it prints. *)
Inductive action : Type :=
  | Replace (key : string) (value : str)
  | Say (line : log_line).

Definition method (env : build_env) (os_environ : environ) : str :=
  normalize (getenv os_environ "FLASH_METHOD"
               (str_or (GetProjectOption env "flash_method" (ustr "serial"))
                       (ustr "serial"))).

(** The body of the script. *)
Definition select_upload (env : build_env) (os_environ : environ) : list action :=
  let method := method env os_environ in
  if bool_decide (method = ustr "ota") then
    [Replace "UPLOAD_PROTOCOL" (ustr "custom");
     Replace "UPLOADCMD" (ustr "echo 'OTA mode: upload disabled, use deploy_ota.py'");
     Say LogOta]
  else if bool_decide (method ∈ [ustr "serial"; ustr "uart"; ustr "usb"]) then
    [Say LogSerial]
  else [Say LogUnknown].

End SelectUpload.

(* ===================================================================== *)
(** * esp_fs_inspector.py                                                 *)
(* ===================================================================== *)

Module Inspector.
Import Client.

Definition COMMAND_PREFIX : str := ustr "FS_CMD:".
Definition RESPONSE_PREFIX : str := ustr "FS_RESP:".
Definition RESPONSE_END : str := ustr "FS_END".

Definition NL : str := [10%N].

(** [sep.join(pieces)] *)
Fixpoint join (sep : str) (pieces : list str) : str :=
  match pieces with
  | [] => []
  | [piece] => piece
  | piece :: rest => piece ++ sep ++ join sep rest
  end.

(** ** [send_command] *)

(** The loop that waits for the response.  [incoming] holds what
    [readline] returns, decoded, while the timeout has not run out; the
    loop ends with the response when the end marker comes after a response
    line, and without one when the time is up. *)
Fixpoint read_response (incoming : list str) (response_lines : list str)
    (found_response : bool) : option str :=
  match incoming with
  | [] => None
  | raw :: rest =>
      let line := strip raw in
      if starts_with RESPONSE_PREFIX line then
        read_response rest
          (response_lines ++ [drop (length RESPONSE_PREFIX) line]) true
      else if bool_decide (line = RESPONSE_END) && found_response then
        Some (join NL response_lines)
      else read_response rest response_lines found_response
  end.

(** [send_command]: [None] without an open port, else the response. *)
Definition send_command (is_open : bool) (incoming : list str) : option str :=
  if is_open then read_response incoming [] false else None.

(** [if response:], the test every caller makes: a response that is there
    and not empty. *)
Definition truthy (response : option str) : bool :=
  match response with
  | Some (_ :: _) => true
  | _ => false
  end.

(** ** [tail_file] *)

(** [all_lines[-lines:]] *)
Definition last_lines (lines : Z) (all_lines : list str) : list str :=
  let n := Z.of_nat (length all_lines) in
  let start := (if (- lines <? 0)%Z then Z.max (n - lines) 0 else Z.min (- lines) n)%Z in
  drop (Z.to_nat start) all_lines.

(** The text [tail_file] prints between the two rules. *)
Definition tail_text (content : str) (lines : Z) : str :=
  join NL (last_lines lines (split NL content)).

(** ** [monitor] *)

(** What [print] writes: the text, and a line break unless [end=''] is
    given. *)
Inductive printed : Type :=
  | PrintLine (text : str)
  | PrintRaw (text : str).

Definition written (p : printed) : str :=
  match p with
  | PrintLine text => text ++ NL
  | PrintRaw text => text
  end.

(** The loop of [monitor] over the contents its polls read, up to the
    interrupt. *)
Fixpoint monitor_loop (polls : list (option str)) (last_content : str)
    : list printed :=
  match polls with
  | [] => []
  | poll :: rest =>
      match poll with
      | Some (c :: content') =>
          let content := c :: content' in
          if bool_decide (content = last_content) then monitor_loop rest last_content
          else
            match last_content with
            | [] => PrintLine content :: monitor_loop rest content
            | _ =>
                match drop (length last_content) content with
                | [] => monitor_loop rest content
                | new_lines => PrintRaw new_lines :: monitor_loop rest content
                end
            end
      | _ => monitor_loop rest last_content
      end
  end.

End Inspector.

(* ===================================================================== *)
(** * The vocabulary of the statements                                    *)
(* ===================================================================== *)

(** Text made of ASCII characters only. *)
Definition ascii_text (s : str) : Prop := Forall (λ c, (c < 128)%N) s.

(** A code point that stands for a character: in range and no surrogate.
    Text that was decoded from a file or typed into a configuration is made
    of these. *)
Definition scalar (c : N) : Prop :=
  (c < 0xd800 ∨ 0xe000 ≤ c < 0x110000)%N.

Definition scalar_text (s : str) : Prop := Forall scalar s.

(** ** The upload loop *)

Module UploadLoop.
Import Client.

(** The attempt numbers the loop still has to go through when it stands at
    attempt [k]. *)
Definition attempts_from (k : nat) : list nat := seq k (S max_retries - k).

(** The number of POST requests in a trace. *)
Definition posts (tr : list event) : nat := length (filter is_post tr).

(** An attempt that fails the way the retry policy expects: a timeout, a
    connection error, or a reply outside the 2xx range. *)
Definition fails (r : post_result) : Prop :=
  match r with
  | Replied status _ => ¬ (200 ≤ status ≤ 299)
  | Raised RequestsTimeout | Raised RequestsConnectionError => True
  | Raised OtherException => False
  end.

(** An attempt after which the loop goes on while attempts remain. *)
Definition retried (r : post_result) : Prop :=
  match r with
  | Replied status _ => is_success status = false
  | Raised RequestsTimeout | Raised RequestsConnectionError => True
  | Raised OtherException => False
  end.

(** What attempt [k] puts on the trace before the reply is looked at. *)
Definition sent (server_url : str) (data : bytes) (m : manifest) (k : nat)
    : list event :=
  [Print (LogAttempt k max_retries); HttpPost server_url (form_of data m) timeout].

(** The lines after the loop. *)
Definition exhausted : list event :=
  [Print (LogFailedAfter max_retries); Print LogMakeSureDocker].

End UploadLoop.

(** ** The upload hook *)

Module Deploy.
Import Client.

(** The URL a POST goes to. *)
Definition post_url (e : event) : option str :=
  match e with HttpPost url _ _ => Some url | _ => None end.


End Deploy.

(** ** The firmware version *)

Module Version.
Import Client.




End Version.

(** ** Requests and their parts *)

Module Upload.
Import Server.

(** The [multipart/form-data] encoding the client's HTTP library gives the
    form: the text fields first, then the file, each after a boundary line,
    and the closing boundary line. *)
Definition disposition (name : string) : bytes :=
  bstr "Content-Disposition: form-data; name=" ++ [QUOTE] ++ bstr name ++ [QUOTE].

(** What stands between the boundary line that opens a part and the next
    boundary line: the line break, the headers, the blank line, the value,
    and the line break that closes the part. *)
Definition text_piece (name : string) (value : bytes) : bytes :=
  CRLF ++ disposition name ++ CRLF ++ CRLF ++ value ++ CRLF.

Definition file_headers (name filename : string) : bytes :=
  CRLF ++ disposition name ++ bstr "; filename=" ++ [QUOTE] ++ bstr filename ++ [QUOTE]
  ++ CRLF ++ bstr "Content-Type: application/octet-stream".

Definition file_piece (name filename : string) (data : bytes) : bytes :=
  file_headers name filename ++ CRLF ++ CRLF ++ data ++ CRLF.

Definition text_part (boundary : bytes) (name : string) (value : bytes) : bytes :=
  bstr "--" ++ boundary ++ text_piece name value.

Definition file_part (boundary : bytes) (name filename : string) (data : bytes)
    : bytes :=
  bstr "--" ++ boundary ++ file_piece name filename data.

Definition closing (boundary : bytes) : bytes :=
  bstr "--" ++ boundary ++ bstr "--" ++ CRLF.

Definition multipart (boundary : bytes) (fields : list (string * bytes))
    (firmware : option bytes) : bytes :=
  concat (map (λ kv, text_part boundary kv.1 kv.2) fields)
  ++ match firmware with
     | Some data => file_part boundary "firmware" "firmware.bin" data
     | None => []
     end
  ++ closing boundary.

(** A POST to [/upload] with such a body; [boundary] is ASCII. *)
Definition upload_request (boundary : string) (fields : list (string * bytes))
    (firmware : option bytes) : request :=
  let body := multipart (bstr boundary) fields firmware in
  {| path := ustr "/upload";
     content_type := Some (ustr "multipart/form-data; boundary=" ++ ustr boundary);
     content_length := LengthInt (Z.of_nat (length body));
     rfile := body |}.

(** The pieces the handler cuts the body of [req] into. *)
Definition body_parts (req : request) (boundary : bytes) : list bytes :=
  let n := match content_length req with LengthInt n => n | _ => 0 end in
  split (bstr "--" ++ boundary) (read n (rfile req)).






End Upload.

(** ** JSON text *)

Module JsonText.
Import Json.
Local Open Scope N_scope.

(** [s] does not go on with a digit. *)
Definition no_digit_ahead (s : str) : Prop :=
  match s with [] => True | c :: _ => is_digit c = false end.

(** Every key and every string value of the dict is text. *)
Definition scalar_dict (d : jdict) : Prop :=
  Forall (λ kv, scalar_text kv.1 ∧ ∀ s, kv.2 = JStr s → scalar_text s) d.

(** After a member: the closing brace ends the object, a comma leads to the
    next member. *)
Definition after_member (fuel : nat) (kv : str * jval) (tail : str)
    : option (jdict * str) :=
  match skip_ws tail with
  | [] => None
  | d :: s5 =>
      if d =? 125 then Some ([kv], s5)
      else if d =? 44 then
        '(more, s6) ← scan_members fuel (skip_ws s5);
        Some (kv :: more, s6)
      else None
  end.

End JsonText.

(** ** The traffic of an upload *)

Module Traffic.
Import Client.

(** The number of pauses in a trace. *)
Definition sleeps (tr : list event) : nat := length (filter is_sleep tr).

(** Attempt [k] is the one the server accepts: it is answered with 200 or
    201, and every attempt from [first] up to it was retried. *)
Definition accepted (net : network) (first k : nat) : Prop :=
  ∃ status text,
    post net k = Replied status text ∧ is_success status = true
    ∧ ∀ j, (first ≤ j < k)%nat → UploadLoop.retried (post net j).

End Traffic.

(** ** Spelling *)

Module Spelling.
Import Client.

(** [v] is [s] with white space around it. *)
Definition padded (s v : str) : Prop :=
  ∃ pre post, v = pre ++ s ++ post
    ∧ Forall (λ c, is_space c = true) pre ∧ Forall (λ c, is_space c = true) post.

(** [c] is the letter [x] in either case; the Kelvin sign counts as a
    capital K. *)
Definition folds (c x : N) : Prop :=
  (c = x ∨ (65 ≤ c ≤ 90 ∧ c + 32 = x) ∨ (c = 0x212a ∧ x = 107))%N.

(** [s] spells [word], letter by letter, in any mix of cases. *)
Definition spells (word s : str) : Prop := Forall2 folds s word.

(** A word of small ASCII letters. *)
Definition small_letters (word : str) : Prop :=
  Forall (λ x, (97 ≤ x ≤ 122)%N) word.

End Spelling.

(** ** What is stored *)

Module Stored.
Import Server.

(** [data] does not end in a byte that [rstrip] takes. *)
Definition stripped (data : bytes) : Prop := ∀ x, last data = Some x → x ∉ STRIP.

(** What every state of the scan satisfies: a firmware payload is stripped,
    and the text fields are text. *)
Definition tidy (st : parsed) : Prop :=
  (∀ data, firmware_data st = Some data → stripped data)
  ∧ map_Forall (λ _ text, scalar_text text) (form_data st).

End Stored.

(** ** The parts of a form *)

Module Form.
Import Server Upload.

(** The line that separates the parts of a body. *)
Definition separator (boundary : bytes) : bytes := bstr "--" ++ boundary.

(** The fields the client sends with the firmware, in the order of its
    dict. *)
Definition client_fields (version md5 size board : bytes) : list (string * bytes) :=
  [("version", version); ("md5", md5); ("size", size); ("board", board)].

(** What stands between the separators of the client's body. *)
Definition pieces (fields : list (string * bytes)) (data : bytes) : list bytes :=
  map (λ kv, text_piece kv.1 kv.2) fields
  ++ [file_piece "firmware" "firmware.bin" data].

(** The separator does not occur in [piece], nor does one begin in [piece]
    and run into the separator that follows it. *)
Definition delimited (boundary piece : bytes) : Prop :=
  find (separator boundary) (piece ++ separator boundary) = Some (length piece).

(** A boundary that is not empty and does not begin with a carriage
    return, so that the line after the last part ends the body. *)
Definition plain_boundary (boundary : bytes) : Prop :=
  match boundary with
  | [] => False
  | b :: _ => b ≠ CR
  end.

(** A value without a double quote in it. *)
Definition unquoted (value : bytes) : Prop := QUOTE ∉ value.

(** The state of the scan after a form with these two text fields and this
    firmware payload. *)
Definition scanned (version board : str) (payload : bytes) : parsed :=
  Parsed (Some payload) (<["board" := board]> (<["version" := version]> ∅)).

End Form.

(** ** Lines on the serial port *)

Module Serial.
Import Client Inspector.

(** A response line as the device sends it. *)
Definition frame (payload : str) : str := RESPONSE_PREFIX ++ payload ++ NL.

(** Text that does not end in white space. *)
Definition trimmed (s : str) : Prop := ∀ c, last s = Some c → is_space c = false.

(** A line that is neither a response line nor the end marker. *)
Definition noise (raw : str) : Prop :=
  starts_with RESPONSE_PREFIX (strip raw) = false ∧ strip raw ≠ RESPONSE_END.

(** What the polls of a file read while it only grows: [Some a] is a poll
    that finds [a] appended, [None] one that fails. *)
Fixpoint grow (content : str) (appended : list (option str)) : list (option str) :=
  match appended with
  | [] => []
  | None :: rest => None :: grow content rest
  | Some a :: rest => Some (content ++ a) :: grow (content ++ a) rest
  end.

(** Everything that was appended, in order. *)
Definition all_appended (appended : list (option str)) : str :=
  concat (omap id appended).

End Serial.

(* ===================================================================== *)
(** * Concrete inputs                                                     *)
(* ===================================================================== *)

Module Runs.
Import Client UploadLoop Deploy Version Server Upload.

(** ** The client side *)

Definition firmware : bytes := bstr "firmware image".
Definition build_dir : str := ustr ".pio/build/esp32".
Definition built : str := ustr ".pio/build/esp32/firmware.bin".
Definition disk : filesystem := {[ built := firmware ]}.
Definition clock : str := ustr "2024-05-01T12:00:00".
Definition project_url : str := ustr "http://192.168.1.10:8081/upload".
Definition environ_url : str := ustr "http://192.168.1.20:8081/upload".

Definition staged : manifest :=
  {| m_version := ustr "1.2.3"; m_file := ustr "firmware.bin";
     m_md5 := MD5.hexdigest firmware; m_size := 14;
     m_board := ustr "esp32dev"; m_timestamp := ustr "2024-05-01T12:00:00Z" |}.

(** Two timeouts, then the server answers. *)
Definition flaky : network :=
  {| HAS_REQUESTS := true; socket_probe := Connected; health_status := Some 200;
     post := λ k, if (k <? 3)%nat then Raised RequestsTimeout
                  else Replied 200 (ustr "ok") |}.

(** Nobody listens. *)
Definition down : network :=
  {| HAS_REQUESTS := true; socket_probe := Refused; health_status := None;
     post := λ _, Raised RequestsConnectionError |}.

(** The request fails in a way the loop does not expect. *)
Definition broken : network :=
  {| HAS_REQUESTS := true; socket_probe := Connected; health_status := Some 200;
     post := λ _, Raised OtherException |}.

(** The server answers every time, with the given status. *)
Definition answering (status : Z) : network :=
  {| HAS_REQUESTS := true; socket_probe := Connected; health_status := Some 200;
     post := λ _, Replied status (ustr "reply") |}.

(** A project with nothing configured. *)
Definition plain : build_env :=
  {| BUILD_DIR := build_dir; PROJECT_DIR := Some (ustr "."); BOARD := Some (ustr "esp32dev");
     BUILD_FLAGS := Some []; project_options := ∅ |}.

(** A project that sets the version by a build flag. *)
Definition flagged : build_env :=
  {| BUILD_DIR := build_dir; PROJECT_DIR := Some (ustr "."); BOARD := Some (ustr "esp32dev");
     BUILD_FLAGS := Some [ustr "-Wall"; ustr "-DFIRMWARE_VERSION=1.2.3"];
     project_options := ∅ |}.

(** A project that sets the version option and uploads over the air. *)
Definition over_the_air : build_env :=
  {| BUILD_DIR := build_dir; PROJECT_DIR := Some (ustr "."); BOARD := Some (ustr "esp32dev");
     BUILD_FLAGS := Some [ustr "-DFIRMWARE_VERSION=1.2.3"];
     project_options := {[ "custom_firmware_version" := ustr "2.0.0";
                           "flash_method" := ustr "ota";
                           "ota_server_url" := project_url ]} |}.

Definition with_environ_url : environ := {[ "OTA_SERVER_URL" := environ_url ]}.

(** ** The server side *)

Definition staging_dir : str := ustr "/firmware".

(** A firmware image whose last byte is a line feed. *)
Definition image_with_newline : bytes := bstr "ab" ++ [LF].

Definition upload_with_newline : request :=
  upload_request "XYZ"
    [("version", bstr "1.2.3"); ("md5", bstr "daa8075d6ac5ff8d0c6d4650adb4ef29");
     ("size", bstr "3"); ("board", bstr "esp32dev")]
    (Some image_with_newline).



(** What was staged before. *)
Definition staged_before : filesystem :=
  {[ firmware_bin staging_dir := bstr "old image";
     manifest_json staging_dir := bstr "{}" ]}.

End Runs.

(** ** More requests *)

Module Cases.
Import Server Upload Runs.

(** A POST to [/upload] that is no form at all. *)
Definition upload_as_json : request :=
  {| path := ustr "/upload"; content_type := Some (ustr "application/json");
     content_length := LengthInt 2; rfile := bstr "{}" |}.

(** The upload of the image, sent without a [Content-Length]. *)
Definition upload_without_length : request :=
  {| path := ustr "/upload"; content_type := content_type upload_with_newline;
     content_length := LengthMissing; rfile := rfile upload_with_newline |}.

(** A second image, uploaded later. *)
Definition later : str := ustr "2024-05-02T08:30:00".

Definition second_upload : request :=
  upload_request "XYZ" [("version", bstr "1.2.4"); ("board", bstr "esp32dev")]
    (Some (bstr "second image")).

End Cases.

(** ** The client's form *)

Module Forms.
Import Server Upload Runs Form.

(** The form the client sends for the image of [Runs.disk]. *)
Definition image_fields : list (string * bytes) :=
  client_fields (bstr "1.2.3") (bstr "dc6f9e808a395298c3b395c9b972586f")
                (bstr "14") (bstr "esp32dev").

Definition image_upload : request := upload_request "XYZ" image_fields (Some firmware).

(** The image alone, without any text field. *)
Definition bare_upload : request := upload_request "XYZ" [] (Some firmware).

End Forms.

(** ** On the serial port *)

Module Sessions.
Import Inspector Serial.

(** The answer to [LIST /]. *)
Definition listing : list str := [ustr "/config.json 120"; ustr "/logs/device.log 2048"].

(** A log file of three lines, without a line break at its end. *)
Definition log_file : str := ustr "boot" ++ NL ++ ustr "wifi up" ++ NL ++ ustr "ready".

(** A log that grows while it is watched. *)
Definition growth : list (option str) :=
  [Some (ustr "wifi up" ++ NL); None; Some []; Some (ustr "ready" ++ NL)].

End Sessions.

(** ** A form with two images *)

Module Duplicates.
Import Server Upload Runs.



End Duplicates.

(* ===================================================================== *)
(** * The library functions on known inputs                               *)
(* ===================================================================== *)

(** The digests of RFC 1321, and one message longer than a block. *)
Example md5_of_nothing :
  MD5.hexdigest [] = ustr "d41d8cd98f00b204e9800998ecf8427e".
Proof. by vm_compute. Qed.

Example md5_of_abc :
  MD5.hexdigest (bstr "abc") = ustr "900150983cd24fb0d6963f7d28e17f72".
Proof. by vm_compute. Qed.

Example md5_of_seventy_bytes :
  MD5.hexdigest (repeat "a"%byte 70) = ustr "0f5c6c4e740bfcc08c3c26ccb2673d46".
Proof. by vm_compute. Qed.

(** [split] cuts at every occurrence and keeps the empty pieces; [rstrip]
    takes a set of bytes. *)
Example split_keeps_empty_pieces :
  split (bstr "--") (bstr "--a----b--") = [[]; bstr "a"; []; bstr "b"; []].
Proof. by vm_compute. Qed.

Example rstrip_takes_a_set :
  rstrip Server.STRIP (bstr "a-b--" ++ [LF; CR; DASH; LF]) = bstr "a-b".
Proof. by vm_compute. Qed.

(** The codec refuses what is not UTF-8 and reads the rest. *)
Example decode_euro : UTF8.decode [xe2; x82; xac] = Some [0x20ac%N].
Proof. by vm_compute. Qed.

Example decode_overlong : UTF8.decode [xc0; x80] = None.
Proof. by vm_compute. Qed.

Example decode_surrogate : UTF8.decode [xed; xa0; x80] = None.
Proof. by vm_compute. Qed.

(** The version expression on the flags a project would have: plain, with
    escaped quotes, and with a suffix that is no part of the number. *)
Example search_plain_flag :
  Client.Re.search (ustr "-DFIRMWARE_VERSION=1.2.3") = Some (ustr "1.2.3").
Proof. by vm_compute. Qed.

Example search_quoted_flag :
  Client.Re.search (ustr "-DFIRMWARE_VERSION=" ++ [92; 34]%N ++ ustr "1.2.3"
                    ++ [92; 34]%N)
  = Some (ustr "1.2.3").
Proof. by vm_compute. Qed.

Example search_suffixed_flag :
  Client.Re.search (ustr "-DFIRMWARE_VERSION=1.2.3-beta") = Some (ustr "1.2.3").
Proof. by vm_compute. Qed.

Example search_without_value :
  Client.Re.search (ustr "-DFIRMWARE_VERSION=beta") = None.
Proof. by vm_compute. Qed.

(** [json.dumps] escapes everything outside printable ASCII. *)
Example dumps_escapes :
  Json.dumps [(ustr "k", JStr [233; 10; 0x1f600]%N)]
  = ustr "{" ++ [34]%N ++ ustr "k" ++ [34]%N ++ ustr ": " ++ [34]%N
    ++ [92]%N ++ ustr "u00e9" ++ [92]%N ++ ustr "n"
    ++ [92]%N ++ ustr "ud83d" ++ [92]%N ++ ustr "ude00" ++ [34]%N ++ ustr "}".
Proof. by vm_compute. Qed.

(* ===================================================================== *)
(** * The upload loop: retries and failures                               *)
(* ===================================================================== *)

Module LoopFacts.
Import Client UploadLoop.

Section Loop.

Context (net : network) (fs : filesystem) (firmware_path : str)
        (m : manifest) (server_url : str).

Local Abbreviation loop := (upload_loop net fs firmware_path m server_url).
Local Abbreviation upload := (post_firmware_to_server net fs firmware_path m server_url).

Lemma attempts_from_next k :
  (1 ≤ k ≤ max_retries)%nat → attempts_from k = k :: attempts_from (S k).
Proof.
  unfold attempts_from, max_retries. intros [H1 H2].
  destruct k as [|[|[|[|k]]]]; try lia; reflexivity.
Qed.

Lemma attempts_from_last : attempts_from max_retries = [max_retries].
Proof. reflexivity. Qed.

Lemma posts_app (tr1 tr2 : list event) : posts (tr1 ++ tr2) = (posts tr1 + posts tr2)%nat.
Proof. unfold posts. by rewrite filter_app, length_app. Qed.

Lemma upload_runs_loop :
  HAS_REQUESTS net = true →
  upload = after ([Print (LogUploading server_url); Print LogPython]
                  ++ test_connection net server_url)
                 (loop (attempts_from 1)).
Proof. intros H. unfold post_firmware_to_server. by rewrite H. Qed.

(** *** One turn of the loop, case by case *)

Lemma loop_unreadable k rest :
  fs !! firmware_path = None →
  loop (k :: rest) = (false, [Print (LogAttempt k max_retries); Print LogError]).
Proof. intros Hfile. cbn [upload_loop]. by rewrite Hfile. Qed.

Lemma loop_success k rest data status text :
  fs !! firmware_path = Some data →
  post net k = Replied status text →
  is_success status = true →
  loop (k :: rest)
  = (true, sent server_url data m k ++ [Print (LogUploadOk (m_version m) (m_size m))]).
Proof. intros Hfile Hpost Hok. cbn [upload_loop]. by rewrite Hfile, Hpost, Hok. Qed.

Lemma loop_status_retry k rest data status text :
  fs !! firmware_path = Some data →
  post net k = Replied status text →
  is_success status = false →
  (k < max_retries)%nat →
  loop (k :: rest)
  = after (sent server_url data m k
           ++ [Print (LogUploadFailed status); Print (LogResponse (take 200 text));
               Print LogRetrying])
          (loop rest).
Proof.
  intros Hfile Hpost Hok Hk%Nat.ltb_lt. cbn [upload_loop].
  rewrite Hfile, Hpost, Hok, Hk. unfold sent. by rewrite <- !app_assoc.
Qed.

Lemma loop_status_last k rest data status text :
  fs !! firmware_path = Some data →
  post net k = Replied status text →
  is_success status = false →
  ¬ (k < max_retries)%nat →
  loop (k :: rest)
  = (false, sent server_url data m k
            ++ [Print (LogUploadFailed status); Print (LogResponse (take 200 text))]).
Proof.
  intros Hfile Hpost Hok Hk%Nat.ltb_nlt. cbn [upload_loop].
  by rewrite Hfile, Hpost, Hok, Hk.
Qed.

Lemma loop_timeout_retry k rest data :
  fs !! firmware_path = Some data →
  post net k = Raised RequestsTimeout →
  (k < max_retries)%nat →
  loop (k :: rest)
  = after (sent server_url data m k ++ [Print (LogTimeout k); Print LogRetrying])
          (loop rest).
Proof.
  intros Hfile Hpost Hk%Nat.ltb_lt. cbn [upload_loop].
  rewrite Hfile, Hpost, Hk. unfold sent. by rewrite <- !app_assoc.
Qed.

Lemma loop_timeout_last k rest data :
  fs !! firmware_path = Some data →
  post net k = Raised RequestsTimeout →
  ¬ (k < max_retries)%nat →
  loop (k :: rest)
  = after (sent server_url data m k ++ [Print (LogTimeout k)]) (loop rest).
Proof.
  intros Hfile Hpost Hk%Nat.ltb_nlt. cbn [upload_loop].
  by rewrite Hfile, Hpost, Hk.
Qed.

Lemma loop_connection_retry k rest data :
  fs !! firmware_path = Some data →
  post net k = Raised RequestsConnectionError →
  (k < max_retries)%nat →
  loop (k :: rest)
  = after (sent server_url data m k
           ++ [Print (LogConnectionError k); Sleep 2; Print LogRetrying])
          (loop rest).
Proof.
  intros Hfile Hpost Hk%Nat.ltb_lt. cbn [upload_loop].
  rewrite Hfile, Hpost, Hk. unfold sent. by rewrite <- !app_assoc.
Qed.

Lemma loop_connection_last k rest data :
  fs !! firmware_path = Some data →
  post net k = Raised RequestsConnectionError →
  ¬ (k < max_retries)%nat →
  loop (k :: rest)
  = after (sent server_url data m k ++ [Print (LogConnectionError k)]) (loop rest).
Proof.
  intros Hfile Hpost Hk%Nat.ltb_nlt. cbn [upload_loop].
  by rewrite Hfile, Hpost, Hk.
Qed.

Lemma loop_other_exception k rest data :
  fs !! firmware_path = Some data →
  post net k = Raised OtherException →
  loop (k :: rest) = (false, sent server_url data m k ++ [Print LogError]).
Proof. intros Hfile Hpost. cbn [upload_loop]. by rewrite Hfile, Hpost. Qed.

Lemma loop_done : loop [] = (false, exhausted).
Proof. reflexivity. Qed.

Lemma is_success_iff status : is_success status = true ↔ status = 200 ∨ status = 201.
Proof. unfold is_success. rewrite orb_true_iff, !Z.eqb_eq. tauto. Qed.

Lemma fails_not_success status text : fails (Replied status text) → is_success status = false.
Proof.
  cbn. intros H. apply not_true_is_false. rewrite is_success_iff. lia.
Qed.

(** *** From turns to runs *)

(** Every turn with a readable firmware file opens with its POST. *)
Lemma loop_starts_with_post k rest data :
  fs !! firmware_path = Some data →
  ∃ ok tl, loop (k :: rest) = (ok, sent server_url data m k ++ tl).
Proof.
  intros Hfile. cbn [upload_loop]. rewrite Hfile. unfold after, sent.
  destruct (post net k) as [status text|[]];
    repeat match goal with |- context [if ?c then _ else _] => destruct c end;
    cbn [fst snd]; rewrite <- ?app_assoc; eauto.
Qed.

Lemma fails_retried r : fails r → retried r.
Proof. destruct r as [status text|[]]; cbn; [apply (fails_not_success _ text)|done..]. Qed.

Lemma loop_retried_step k rest data :
  fs !! firmware_path = Some data →
  retried (post net k) →
  (k < max_retries)%nat →
  ∃ evs, loop (k :: rest) = after evs (loop rest) ∧ posts evs = 1%nat.
Proof.
  intros Hfile Hr Hk.
  destruct (post net k) as [status text|[]] eqn:Hpost; cbn in Hr; [| | |done].
  - erewrite loop_status_retry by eauto. eauto.
  - erewrite loop_timeout_retry by eauto. eauto.
  - erewrite loop_connection_retry by eauto. eauto.
Qed.

Lemma after_after evs1 evs2 r : after evs1 (after evs2 r) = after (evs1 ++ evs2) r.
Proof. unfold after. cbn. by rewrite app_assoc. Qed.

(** The loop stands at attempt [k] once the attempts before it were all
    retried; [k - 1] POSTs were made by then. *)
Lemma reach k data :
  HAS_REQUESTS net = true →
  fs !! firmware_path = Some data →
  (1 ≤ k ≤ max_retries)%nat →
  (∀ j, (1 ≤ j < k)%nat → retried (post net j)) →
  ∃ evs, upload = after evs (loop (attempts_from k)) ∧ posts evs = (k - 1)%nat.
Proof.
  intros Hreq Hfile Hk Hbefore. rewrite upload_runs_loop by done.
  induction k as [|k IH]; [lia|].
  destruct (decide (k = 0%nat)) as [->|Hk0].
  { eexists. split; [reflexivity|].
    unfold test_connection. by destruct (socket_probe net), (health_status net). }
  destruct IH as (evs & -> & Hposts); [lia| intros j Hj; apply Hbefore; lia |].
  rewrite attempts_from_next by lia.
  destruct (loop_retried_step k (attempts_from (S k)) data) as (evs' & -> & Hposts');
    [done | apply Hbefore; lia | lia |].
  rewrite after_after. eexists. split; [reflexivity|].
  rewrite posts_app. lia.
Qed.

End Loop.

End LoopFacts.

Section RetryClaims.
Import Client UploadLoop LoopFacts.

Context (net : network) (fs : filesystem) (firmware_path : str)
        (m : manifest) (server_url : str).

Local Abbreviation loop := (upload_loop net fs firmware_path m server_url).
Local Abbreviation upload := (post_firmware_to_server net fs firmware_path m server_url).

(** C2.  When the first two POSTs raise a timeout and the third is answered
    with status 200, [post_firmware_to_server] returns [True] and has made
    exactly three POSTs.  When all three attempts fail (a timeout, a
    connection error, or a status outside 200..299) it returns [False]: a
    value comes back, no exception leaves the function; with [requests]
    installed and the firmware file readable that is again after three
    POSTs. *)
Theorem retry_policy :
  (∀ data text,
     HAS_REQUESTS net = true →
     fs !! firmware_path = Some data →
     post net 1 = Raised RequestsTimeout →
     post net 2 = Raised RequestsTimeout →
     post net 3 = Replied 200 text →
     ∃ tr, upload = (true, tr) ∧ posts tr = 3%nat)
  ∧
  ((∀ k, (1 ≤ k ≤ 3)%nat → fails (post net k)) →
   ∃ tr, upload = (false, tr)
         ∧ (HAS_REQUESTS net = true → is_Some (fs !! firmware_path) →
            posts tr = 3%nat)).
Proof.
  split.
  - intros data text Hreq Hfile H1 H2 H3.
    destruct (reach net fs firmware_path m server_url max_retries data)
      as (evs & -> & Hposts); [done | done | unfold max_retries; lia | |].
    { intros j Hj. unfold max_retries in Hj.
      assert (j = 1 ∨ j = 2)%nat as [-> | ->] by lia.
      - by rewrite H1.
      - by rewrite H2. }
    rewrite attempts_from_last.
    erewrite loop_success by (try eassumption; reflexivity).
    eexists. split; [reflexivity|]. cbn [snd].
    rewrite posts_app, Hposts. reflexivity.
  - intros Hfail.
    destruct (HAS_REQUESTS net) eqn:Hreq.
    2:{ eexists. split; [unfold post_firmware_to_server; rewrite Hreq; reflexivity|].
        intros [=]. }
    destruct (fs !! firmware_path) as [data|] eqn:Hfile.
    2:{ rewrite upload_runs_loop by done.
        rewrite attempts_from_next by (unfold max_retries; lia).
        rewrite loop_unreadable by done.
        eexists. split; [reflexivity|]. intros _ [? [=]]. }
    destruct (reach net fs firmware_path m server_url max_retries data)
      as (evs & -> & Hposts); [done | done | unfold max_retries; lia | |].
    { intros j Hj. unfold max_retries in Hj. apply fails_retried, Hfail. lia. }
    rewrite attempts_from_last.
    assert (¬ (max_retries < max_retries)%nat) as Hlast by lia.
    pose proof (Hfail max_retries ltac:(unfold max_retries; lia)) as H3.
    destruct (post net max_retries) as [status text|[]] eqn:Hpost; cbn in H3; [| | |done].
    + apply (fails_not_success _ text) in H3.
      erewrite loop_status_last by eauto.
      eexists. split; [reflexivity|]. intros _ _. cbn [snd].
      rewrite posts_app, Hposts. reflexivity.
    + erewrite loop_timeout_last by eauto.
      eexists. split; [reflexivity|]. intros _ _. cbn [snd].
      rewrite posts_app, Hposts. reflexivity.
    + erewrite loop_connection_last by eauto.
      eexists. split; [reflexivity|]. intros _ _. cbn [snd].
      rewrite posts_app, Hposts. reflexivity.
Qed.

(** C3.  At attempt [k] of the upload loop:
    - a timeout is followed at once by the POST of attempt [k + 1] (only
      the two log lines stand between the two POSTs, no sleep) while
      [k < max_retries], and by the lines after the loop when [k] was the
      last attempt;
    - a connection error is followed by a sleep of two seconds and then the
      POST of attempt [k + 1] while [k < max_retries], and by the lines
      after the loop, without a sleep, when [k] was the last attempt;
    - any other exception ends the loop on the spot with [False]: nothing
      follows its log line, and the whole function returns [False] with
      exactly [k] POSTs made. *)
Theorem exception_policy (data : bytes) (k : nat) :
  fs !! firmware_path = Some data →
  (1 ≤ k ≤ max_retries)%nat →
  (post net k = Raised RequestsTimeout →
     ((k < max_retries)%nat →
        ∃ ok tl, loop (attempts_from k)
                 = (ok, sent server_url data m k
                        ++ [Print (LogTimeout k); Print LogRetrying]
                        ++ sent server_url data m (S k) ++ tl))
     ∧ (k = max_retries →
        loop (attempts_from k)
        = (false, sent server_url data m k ++ [Print (LogTimeout k)] ++ exhausted)))
  ∧ (post net k = Raised RequestsConnectionError →
     ((k < max_retries)%nat →
        ∃ ok tl, loop (attempts_from k)
                 = (ok, sent server_url data m k
                        ++ [Print (LogConnectionError k); Sleep 2; Print LogRetrying]
                        ++ sent server_url data m (S k) ++ tl))
     ∧ (k = max_retries →
        loop (attempts_from k)
        = (false, sent server_url data m k ++ [Print (LogConnectionError k)]
                  ++ exhausted)))
  ∧ (post net k = Raised OtherException →
     loop (attempts_from k) = (false, sent server_url data m k ++ [Print LogError])
     ∧ (HAS_REQUESTS net = true →
        (∀ j, (1 ≤ j < k)%nat → retried (post net j)) →
        ∃ tr, upload = (false, tr) ∧ posts tr = k)).
Proof.
  intros Hfile Hk. repeat split.
  - intros Hlt. rewrite attempts_from_next by lia.
    erewrite loop_timeout_retry by eauto.
    rewrite attempts_from_next by lia.
    destruct (loop_starts_with_post net fs firmware_path m server_url
                (S k) (attempts_from (S (S k))) data Hfile) as (ok & tl & ->).
    exists ok, tl. unfold after. cbn [fst snd]. by rewrite <- !app_assoc.
  - intros ->. rewrite attempts_from_last.
    erewrite loop_timeout_last by (eauto; lia).
    rewrite loop_done. unfold after. cbn [fst snd]. by rewrite <- !app_assoc.
  - intros Hlt. rewrite attempts_from_next by lia.
    erewrite loop_connection_retry by eauto.
    rewrite attempts_from_next by lia.
    destruct (loop_starts_with_post net fs firmware_path m server_url
                (S k) (attempts_from (S (S k))) data Hfile) as (ok & tl & ->).
    exists ok, tl. unfold after. cbn [fst snd]. by rewrite <- !app_assoc.
  - intros ->. rewrite attempts_from_last.
    erewrite loop_connection_last by (eauto; lia).
    rewrite loop_done. unfold after. cbn [fst snd]. by rewrite <- !app_assoc.
  - rewrite attempts_from_next by lia.
    by erewrite loop_other_exception by eauto.
  - intros Hreq Hbefore.
    destruct (reach net fs firmware_path m server_url k data)
      as (evs & -> & Hposts); [done..|].
    rewrite attempts_from_next by lia.
    erewrite loop_other_exception by eauto.
    eexists. split; [reflexivity|]. cbn [snd].
    rewrite posts_app, Hposts.
    assert (posts (sent server_url data m k ++ [Print LogError]) = 1%nat) as ->
      by reflexivity.
    lia.
Qed.

(** C6.  An attempt answered with a status code counts as a success exactly
    for 200 and 201: then the loop returns [True] at once.  With any other
    status the attempt has failed; the next attempt's POST follows while
    [k < max_retries], and after the last attempt the loop, and with it the
    whole function, returns [False]. *)
Theorem success_is_200_or_201 (data : bytes) (k : nat) (status : Z) (text : str) :
  fs !! firmware_path = Some data →
  (1 ≤ k ≤ max_retries)%nat →
  post net k = Replied status text →
  (is_success status = true ↔ status = 200 ∨ status = 201)
  ∧ (status = 200 ∨ status = 201 →
     loop (attempts_from k)
     = (true, sent server_url data m k
              ++ [Print (LogUploadOk (m_version m) (m_size m))]))
  ∧ (status ≠ 200 → status ≠ 201 →
     ((k < max_retries)%nat →
        ∃ ok tl, loop (attempts_from k)
                 = (ok, sent server_url data m k
                        ++ [Print (LogUploadFailed status);
                            Print (LogResponse (take 200 text)); Print LogRetrying]
                        ++ sent server_url data m (S k) ++ tl))
     ∧ (k = max_retries →
        loop (attempts_from k)
        = (false, sent server_url data m k
                  ++ [Print (LogUploadFailed status);
                      Print (LogResponse (take 200 text))])
        ∧ (HAS_REQUESTS net = true →
           (∀ j, (1 ≤ j < k)%nat → retried (post net j)) →
           upload.1 = false))).
Proof.
  intros Hfile Hk Hpost.
  pose proof (attempts_from_next k Hk) as Hfrom.
  split; [apply is_success_iff|]. split.
  - intros Hok%is_success_iff. rewrite Hfrom.
    by erewrite loop_success by eauto.
  - intros H200 H201.
    assert (is_success status = false) as Hno.
    { apply not_true_is_false. rewrite is_success_iff. tauto. }
    split; [|split].
    + intros Hlt. rewrite Hfrom.
      erewrite loop_status_retry by eauto.
      rewrite attempts_from_next by lia.
      destruct (loop_starts_with_post net fs firmware_path m server_url
                  (S k) (attempts_from (S (S k))) data Hfile) as (ok & tl & ->).
      exists ok, tl. unfold after. cbn [fst snd]. by rewrite <- !app_assoc.
    + subst k. rewrite attempts_from_last.
      by erewrite loop_status_last by (eauto; lia).
    + intros Hreq Hbefore.
      destruct (reach net fs firmware_path m server_url k data)
        as (evs & -> & Hposts); [done..|].
      subst k. rewrite attempts_from_last.
      by erewrite loop_status_last by (eauto; lia).
Qed.

End RetryClaims.

(* ===================================================================== *)
(** * ASCII text and the codec                                            *)
(* ===================================================================== *)

Lemma byte_val_of_Z x : 0 ≤ x < 256 → byte_val (UTF8.byte_of_Z x) = x.
Proof.
  intros Hx. unfold byte_val, UTF8.byte_of_Z.
  rewrite Z.mod_small by lia.
  destruct (Byte.of_N (Z.to_N x)) as [y|] eqn:Hy.
  - apply Byte.to_of_N in Hy. cbn. lia.
  - apply Byte.of_N_None_iff in Hy. lia.
Qed.

(** ASCII text is encoded one byte per character, and decoding those bytes
    gives the text back. *)
Lemma encode_ascii s :
  ascii_text s →
  ∃ data, UTF8.encode s = Some data ∧ UTF8.decode data = Some s
          ∧ length data = length s.
Proof.
  induction 1 as [|c s Hc Hs (data & Henc & Hdec & Hlen)].
  - by exists [].
  - exists (UTF8.byte_of_Z (Z.of_N c) :: data).
    cbn [UTF8.encode]. rewrite Henc. unfold UTF8.encode_char.
    assert ((Z.of_N c <? 128) = true) as -> by (apply Z.ltb_lt; lia).
    split; [done|]. split; [|cbn; lia].
    cbn [UTF8.decode]. rewrite byte_val_of_Z by lia.
    assert ((Z.of_N c <? 128) = true) as -> by (apply Z.ltb_lt; lia).
    rewrite Hdec. cbn. by rewrite N2Z.id.
Qed.


(* ===================================================================== *)
(** * JSON: what is written is ASCII, and reads back as it was            *)
(* ===================================================================== *)

Module JsonFacts.
Import Json.

Local Open Scope N_scope.

(** Turn the boolean tests of the goal and the context into arithmetic. *)
Ltac tests :=
  repeat match goal with
    | H : (_ && _) = true |- _ => apply andb_true_iff in H; destruct H
    | H : (_ && _) = false |- _ => apply andb_false_iff in H
    | H : (_ || _) = true |- _ => apply orb_true_iff in H
    | H : (_ || _) = false |- _ => apply orb_false_iff in H; destruct H
    | H : (_ =? _) = true |- _ => apply N.eqb_eq in H
    | H : (_ =? _) = false |- _ => apply N.eqb_neq in H
    | H : (_ <? _) = true |- _ => apply N.ltb_lt in H
    | H : (_ <? _) = false |- _ => apply N.ltb_ge in H
    | H : (_ <=? _) = true |- _ => apply N.leb_le in H
    | H : (_ <=? _) = false |- _ => apply N.leb_gt in H
    end.

Lemma hex_digit_range d :
  d < 16 → 48 ≤ hex_digit d ≤ 57 ∨ 97 ≤ hex_digit d ≤ 102.
Proof. unfold hex_digit. intros Hd. destruct (d <? 10) eqn:E; tests; lia. Qed.

Lemma hex4_ascii n : ascii_text (hex4 n).
Proof.
  unfold hex4, ascii_text.
  repeat constructor;
    match goal with
    | |- hex_digit ?d < 128 =>
        pose proof (hex_digit_range d ltac:(apply N.mod_lt; lia)); lia
    end.
Qed.

Lemma escape_char_ascii c : ascii_text (escape_char c).
Proof.
  unfold escape_char, BACKSLASH.
  repeat match goal with
    | |- context [if ?t then _ else _] => destruct t eqn:?
    end;
    tests;
    repeat (apply hex4_ascii || apply Forall_app_2 || apply Forall_cons_2
            || apply Forall_nil_2);
    lia.
Qed.

Lemma escape_ascii s : ascii_text (escape s).
Proof.
  unfold escape. induction s as [|c s IH]; cbn [map concat]; [constructor|].
  apply Forall_app_2; [apply escape_char_ascii | apply IH].
Qed.

Lemma dump_str_ascii s : ascii_text (dump_str s).
Proof.
  unfold dump_str, DQUOTE.
  repeat (apply escape_ascii || apply Forall_app_2 || apply Forall_cons_2
          || apply Forall_nil_2); lia.
Qed.

Lemma uint_digits_ascii d : ascii_text (uint_digits d).
Proof. induction d; cbn [uint_digits]; constructor; (lia || done). Qed.

Lemma dump_int_ascii n : ascii_text (dump_int n).
Proof.
  destruct n; cbn [dump_int]; try apply uint_digits_ascii.
  constructor; [lia | apply uint_digits_ascii].
Qed.

Lemma dump_val_ascii v : ascii_text (dump_val v).
Proof. destruct v; [apply dump_str_ascii | apply dump_int_ascii]. Qed.

Lemma spaces_ascii n : ascii_text (repeat SPACE n).
Proof. induction n; cbn; constructor; (done || unfold SPACE; lia). Qed.

Lemma dump_member_ascii n kv : ascii_text (dump_member n kv).
Proof.
  unfold dump_member, NEWLINE, SPACE.
  repeat (apply dump_str_ascii || apply dump_val_ascii || apply (spaces_ascii n)
          || apply Forall_app_2 || apply Forall_cons_2 || apply Forall_nil_2);
    lia.
Qed.

Lemma dump_members_ascii n d : ascii_text (dump_members n d).
Proof.
  induction d as [|kv [|kv' d] IH]; [constructor | apply dump_member_ascii |].
  change (ascii_text (dump_member n kv ++ [44] ++ dump_members n (kv' :: d))).
  repeat (apply dump_member_ascii || apply IH || apply Forall_app_2
          || apply Forall_cons_2 || apply Forall_nil_2); lia.
Qed.

Lemma dumps_indent_ascii n d : ascii_text (dumps_indent n d).
Proof.
  destruct d as [|kv d]; cbn [dumps_indent]; unfold NEWLINE.
  - repeat constructor; lia.
  - repeat (apply dump_members_ascii || apply Forall_app_2
            || apply Forall_cons_2 || apply Forall_nil_2); lia.
Qed.

End JsonFacts.

(** Text written by [json.dumps] always has an encoding. *)
Lemma text_bytes_dumps n d :
  ∃ data, text_bytes (Json.dumps_indent n d) = Some data
          ∧ UTF8.decode data = Some (Json.dumps_indent n d).
Proof.
  destruct (encode_ascii _ (JsonFacts.dumps_indent_ascii n d)) as (data & ? & ? & _).
  by exists data.
Qed.

(* ===================================================================== *)
(** * The upload hook: staging, and where the upload goes                 *)
(* ===================================================================== *)

Module DeployFacts.
Import Client Deploy.




(** Go through the events of a literal part of a trace. *)
Ltac event_cases He e :=
  repeat (apply elem_of_app in He as [He|He] || apply elem_of_cons in He as [He|He]);
  try (apply elem_of_nil in He; contradiction);
  try (subst e; discriminate).

(** Every POST of the upload loop goes to the URL the function was given. *)
Lemma upload_loop_posts_to net fs path m server_url attempts e url :
  e ∈ (upload_loop net fs path m server_url attempts).2 →
  post_url e = Some url → url = server_url.
Proof.
  revert e. induction attempts as [|k rest IH]; intros e.
  - cbn. intros He Hu. event_cases He e.
  - cbn [upload_loop]. destruct (fs !! path) as [data|].
    2:{ cbn. intros He Hu. event_cases He e. }
    destruct (post net k) as [status text|[]];
      repeat match goal with |- context [if ?c then _ else _] => destruct c end;
      unfold after; cbn [fst snd]; intros He Hu;
      repeat (apply elem_of_app in He as [He|He] || apply elem_of_cons in He as [He|He]);
      try (apply elem_of_nil in He; contradiction);
      try (subst e; cbn in Hu; congruence);
      eauto.
Qed.

Lemma upload_posts_to net fs path m server_url e url :
  e ∈ (post_firmware_to_server net fs path m server_url).2 →
  post_url e = Some url → url = server_url.
Proof.
  unfold post_firmware_to_server. destruct (HAS_REQUESTS net); cbn [negb].
  - unfold after. cbn [fst snd]. intros He Hu.
    apply elem_of_app in He as [He|He]; [|by eapply upload_loop_posts_to].
    unfold test_connection in He.
    destruct (socket_probe net); event_cases He e.
  - cbn. intros He Hu. event_cases He e.
Qed.

End DeployFacts.

Section DeployClaims.
Import Client Deploy DeployFacts.

Context (net : network) (env : build_env) (os_environ : environ)
        (now : str) (fs : filesystem).

(** C10.  When the built firmware is not at [$BUILD_DIR/firmware.bin],
    [deploy_firmware] prints that one line and returns: the file system is
    what it was (no staging copy, no manifest), the trace holds nothing but
    the log line (no network event), and no exception leaves the call. *)
Theorem missing_firmware_returns_early :
  fs !! firmware_path env = None →
  deploy_firmware net env os_environ now fs
  = Run fs [Print (LogFirmwareNotFound (firmware_path env))] Returned.
Proof. intros Hfile. unfold deploy_firmware. by rewrite Hfile. Qed.


(** C5, as the code has it.  The [ota_server_url] project option comes
    first: when it is set to a non-empty URL the upload goes there, whatever
    [OTA_SERVER_URL] says; the environment variable is only used when the
    project option is missing or empty.  Every POST of a run goes to the
    URL resolved this way. *)
Theorem project_url_comes_first :
  (∀ url, project_options env !! "ota_server_url" = Some url → url ≠ [] →
          resolve_server_url env os_environ = url)
  ∧ (project_options env !! "ota_server_url" = None
     ∨ project_options env !! "ota_server_url" = Some [] →
     resolve_server_url env os_environ = default [] (os_environ !! "OTA_SERVER_URL"))
  ∧ (∀ e url, e ∈ trace (deploy_firmware net env os_environ now fs) →
              post_url e = Some url →
              url = resolve_server_url env os_environ).
Proof.
  split; [|split].
  - intros url Hopt Hne. unfold resolve_server_url, GetProjectOption.
    rewrite Hopt. by destruct url.
  - intros [Hopt|Hopt]; unfold resolve_server_url, GetProjectOption, getenv;
      by rewrite Hopt.
  - intros e url. unfold deploy_firmware.
    destruct (fs !! firmware_path env) as [data|]; cbn [trace].
    2:{ intros He Hu. event_cases He e. }
    destruct (text_bytes _) as [text|]; cbn [trace]; intros He Hu.
    2:{ event_cases He e. }
    apply elem_of_app in He as [He|He]; [event_cases He e|].
    apply elem_of_app in He as [He|He]; [|event_cases He e].
    destruct (bool_decide _); [|by apply elem_of_nil in He].
    destruct (resolve_server_url env os_environ) as [|c url'] eqn:Hurl.
    { event_cases He e. }
    by eapply upload_posts_to.
Qed.

End DeployClaims.

(* ===================================================================== *)
(** * The firmware version                                                *)
(* ===================================================================== *)

Module VersionFacts.
Import Client Version.

Lemma starts_with_app {A} `{EqDecision A} (l rest : list A) :
  starts_with l (l ++ rest) = true.
Proof.
  induction l as [|x l IH]; [done|].
  cbn. by rewrite bool_decide_eq_true_2, IH.
Qed.

Lemma find_starts_with {A} `{EqDecision A} (needle hay : list A) :
  starts_with needle hay = true → find needle hay = Some 0%nat.
Proof. intros H0. destruct hay; cbn; by rewrite H0. Qed.



Lemma drop_while_app p v rest :
  Forall (λ c, p c = true) v →
  match rest with [] => True | c :: _ => p c = false end →
  Re.drop_while p (v ++ rest) = rest.
Proof.
  induction 1 as [|c v Hc Hv IH]; intros Hrest.
  - destruct rest as [|c rest]; [done|]. cbn. by rewrite Hrest.
  - cbn. rewrite Hc. by rewrite IH.
Qed.








End VersionFacts.

Section VersionClaims.
Import Client Version VersionFacts.

Context (env : build_env).


End VersionClaims.

(* ===================================================================== *)
(** * The server: what an upload leaves on disk                           *)
(* ===================================================================== *)

Module UploadFacts.
Import Server Upload.







(** ** The payload of the firmware part *)

Lemma starts_with_length {A} `{EqDecision A} (needle hay : list A) :
  starts_with needle hay = true → (length needle ≤ length hay)%nat.
Proof.
  revert hay. induction needle as [|x needle IH]; intros [|y hay] H0; cbn in *;
    try lia; try discriminate.
  apply andb_true_iff in H0 as [_ H0]. apply IH in H0. lia.
Qed.

Lemma starts_with_app_l {A} `{EqDecision A} (needle hay rest : list A) :
  (length needle ≤ length hay)%nat →
  starts_with needle (hay ++ rest) = starts_with needle hay.
Proof.
  revert hay. induction needle as [|x needle IH]; intros [|y hay] Hlen; cbn in *;
    try lia; try done.
  rewrite IH by lia. done.
Qed.

Lemma find_bound {A} `{EqDecision A} (needle hay : list A) i :
  find needle hay = Some i → (i + length needle ≤ length hay)%nat.
Proof.
  revert i. induction hay as [|y hay IH]; intros i; cbn [find].
  - destruct (starts_with needle []) eqn:E; [|done].
    intros [= <-]. by apply starts_with_length in E.
  - destruct (starts_with needle (y :: hay)) eqn:E.
    + intros [= <-]. by apply starts_with_length in E.
    + destruct (find needle hay) as [j|]; [|done].
      intros [= <-]. specialize (IH j eq_refl). cbn. lia.
Qed.

(** An occurrence found in a prefix is the first one of the whole. *)
Lemma find_app {A} `{EqDecision A} (needle hay rest : list A) i :
  find needle hay = Some i → find needle (hay ++ rest) = Some i.
Proof.
  revert i. induction hay as [|y hay IH]; intros i Hi.
  - pose proof (find_bound _ _ _ Hi) as Hb. cbn in Hb.
    destruct needle; [|cbn in Hb; lia]. cbn in Hi. injection Hi as <-.
    by destruct rest.
  - pose proof (find_bound _ _ _ Hi) as Hb.
    cbn [find] in Hi. cbn [app find].
    destruct (starts_with needle (y :: hay)) eqn:E.
    + injection Hi as <-.
      change (y :: hay ++ rest) with ((y :: hay) ++ rest).
      rewrite starts_with_app_l, E by (by apply starts_with_length). done.
    + destruct (find needle hay) as [j|] eqn:Hj; [|done].
      injection Hi as <-.
      change (y :: hay ++ rest) with ((y :: hay) ++ rest).
      rewrite starts_with_app_l, E by (cbn in *; lia).
      by rewrite (IH j).
Qed.

Lemma rstrip_nil_iff {A} `{EqDecision A} (chars s : list A) :
  rstrip chars s = [] ↔ Forall (λ x, x ∈ chars) s.
Proof.
  induction s as [|x s IH]; cbn [rstrip]; [by split|].
  destruct (rstrip chars s) as [|y r] eqn:E.
  - case_bool_decide as Hx.
    + split; [|done]. intros _. constructor; [done|]. by apply IH.
    + split; [done|]. intros Hs. by inversion Hs.
  - split; [done|]. intros Hs. inversion Hs as [|?? _ Hs']. subst.
    by apply IH in Hs'.
Qed.

(** Bytes of the set at the end of [s ++ t] go, and the stripping goes on
    into [s]. *)
Lemma rstrip_app_stripped {A} `{EqDecision A} (chars s t : list A) :
  Forall (λ x, x ∈ chars) t → rstrip chars (s ++ t) = rstrip chars s.
Proof.
  intros Ht. induction s as [|x s IH]; cbn [app rstrip].
  - by apply rstrip_nil_iff.
  - by rewrite IH.
Qed.

(** [rstrip] leaves [s] alone exactly when [s] does not end in a byte of the
    set. *)
Lemma rstrip_id_iff {A} `{EqDecision A} (chars s : list A) :
  rstrip chars s = s ↔ ∀ x, last s = Some x → x ∉ chars.
Proof.
  induction s as [|x s IH]; [by split|].
  cbn [rstrip]. destruct s as [|y s].
  - cbn. case_bool_decide as Hx.
    + split; [done|]. intros Hl. by destruct (Hl x eq_refl).
    + split; [|done]. intros _ x' [= <-]. done.
  - change (last (x :: y :: s)) with (last (y :: s)).
    destruct (rstrip chars (y :: s)) as [|z r] eqn:E.
    + split.
      * case_bool_decide; discriminate.
      * intros Hl. exfalso. apply rstrip_nil_iff in E.
        destruct (last (y :: s)) as [l|] eqn:El.
        -- apply (Hl l eq_refl). apply last_Some in El as [s' El].
           rewrite El in E. apply Forall_app in E as [_ E]. by inversion E.
        -- by apply last_None in El.
    + rewrite <- IH. split; congruence.
Qed.

(** The piece of the body that carries the firmware, whatever the firmware:
    the part is recognised, its blank line is the one after the headers, and
    the payload is the firmware with [rstrip] applied to it. *)
Lemma firmware_piece_payload data :
  contains (name_tag "firmware") (file_piece "firmware" "firmware.bin" data) = true
  ∧ part_payload (file_piece "firmware" "firmware.bin" data)
    = Some (rstrip STRIP data).
Proof.
  unfold file_piece. split.
  - unfold contains. apply bool_decide_eq_true_2.
    assert (find (name_tag "firmware") (file_headers "firmware" "firmware.bin")
            = Some 34%nat) as Hf by (by vm_compute).
    rewrite (find_app _ _ _ _ Hf). eauto.
  - unfold part_payload.
    assert (find (CRLF ++ CRLF)
                 (file_headers "firmware" "firmware.bin" ++ CRLF ++ CRLF)
            = Some 114%nat) as Hf by (by vm_compute).
    replace (file_headers "firmware" "firmware.bin" ++ CRLF ++ CRLF ++ data ++ CRLF)
      with ((file_headers "firmware" "firmware.bin" ++ CRLF ++ CRLF) ++ data ++ CRLF)
      by (by rewrite <- !app_assoc).
    rewrite (find_app _ _ _ _ Hf). cbn [Nat.ltb Nat.leb].
    rewrite drop_app_length' by (by vm_compute).
    f_equal. apply rstrip_app_stripped. unfold STRIP, CRLF.
    repeat constructor; rewrite !elem_of_cons; tauto.
Qed.

(** So the stored firmware is the uploaded one exactly when the uploaded one
    does not end in a carriage return, a line feed or a dash. *)
Lemma firmware_piece_exact_iff data :
  part_payload (file_piece "firmware" "firmware.bin" data) = Some data
  ↔ ∀ x, last data = Some x → x ≠ CR ∧ x ≠ LF ∧ x ≠ DASH.
Proof.
  rewrite (proj2 (firmware_piece_payload data)).
  split.
  - intros [= Hid]. intros x Hx.
    pose proof (proj1 (rstrip_id_iff STRIP data) Hid x Hx) as Hx'.
    unfold STRIP in Hx'. rewrite !elem_of_cons, elem_of_nil in Hx'. tauto.
  - intros Hl. f_equal. apply (proj2 (rstrip_id_iff STRIP data)). intros x Hx.
    destruct (Hl x Hx) as (? & ? & ?). unfold STRIP.
    rewrite !elem_of_cons, elem_of_nil. tauto.
Qed.

(** ** The two writes *)

Lemma store_succeeds dir now st data fs :
  ∃ text,
    store dir now st data fs
    = Outcome (<[manifest_json dir := text]> (<[firmware_bin dir := data]> fs))
              (uploaded (MD5.hexdigest data) (length data))
              [LogOk (m_version (make_manifest now st data)) (length data)]
    ∧ UTF8.decode text
      = Some (Json.dumps_indent 2 (manifest_dict (make_manifest now st data))).
Proof.
  unfold store.
  destruct (text_bytes_dumps 2 (manifest_dict (make_manifest now st data)))
    as (text & -> & Hdec).
  by exists text.
Qed.

(** Only a reply with status 200 comes with a change on disk. *)
Lemma writes_only_on_200 dir now req fs :
  code (reply (do_POST dir now req fs)) ≠ 200 →
  files (do_POST dir now req fs) = fs.
Proof.
  unfold do_POST. destruct (negb _); [done|].
  destruct (parse req) as [st|e]; [|done].
  destruct (firmware_data st) as [[|x data]|]; [done| |done].
  destruct (store_succeeds dir now st (x :: data) fs) as (text & -> & _).
  cbn. done.
Qed.

(** One slot: after a second upload nothing of the first is left. *)
Lemma second_upload_replaces_first dir now1 now2 st1 st2 data1 data2 fs :
  files (store dir now2 st2 data2 (files (store dir now1 st1 data1 fs)))
  = files (store dir now2 st2 data2 fs).
Proof.
  destruct (store_succeeds dir now1 st1 data1 fs) as (text1 & -> & _).
  cbn [files]. unfold store.
  destruct (text_bytes_dumps 2 (manifest_dict (make_manifest now2 st2 data2)))
    as (text2 & -> & _).
  cbn [files]. apply map_eq. intros k. rewrite !lookup_insert.
  by repeat case_decide.
Qed.

(** The health probe does not look at anything. *)
Lemma health_is_ok req :
  path req = ustr "/health" →
  do_GET req = Response 200 (JsonObject [(ustr "status", JStr (ustr "ok"))]).
Proof. intros Hpath. unfold do_GET. by rewrite bool_decide_eq_true_2. Qed.

End UploadFacts.

Section UploadClaims.
Import Server Upload UploadFacts.

Context (FIRMWARE_DIR now : str).


End UploadClaims.

(* ===================================================================== *)
(** * Concrete runs                                                       *)
(* ===================================================================== *)

Section ConcreteUploads.
Import Server Upload UploadFacts Runs.


(** C1, on the code.  The client uploads a three-byte image that ends in a
    line feed.  The server answers 200, but what it stores, hashes and
    counts is the image without its last byte: [rstrip] took the line feed
    along with the line break that closes the part.  The digest and the
    size in the manifest and in the reply are those of two bytes, not of the
    three that were sent. *)
Theorem trailing_newline_is_stripped :
  let out := do_POST staging_dir clock upload_with_newline ∅ in
  length image_with_newline = 3%nat
  ∧ reply out = uploaded (MD5.hexdigest (bstr "ab")) 2
  ∧ files out !! firmware_bin staging_dir = Some (bstr "ab")
  ∧ (∃ d, read_manifest (files out) (manifest_json staging_dir) = Some d
          ∧ dict_get (ustr "size") d = Some (JInt 2)
          ∧ dict_get (ustr "md5") d = Some (JStr (MD5.hexdigest (bstr "ab"))))
  ∧ MD5.hexdigest (bstr "ab") ≠ MD5.hexdigest image_with_newline.
Proof.
  cbv zeta. split; [reflexivity|]. split; [by vm_compute|].
  split; [by vm_compute|]. split.
  - eexists. split; [by vm_compute|]. split; by vm_compute.
  - by vm_compute.
Qed.



End ConcreteUploads.

Section ConcreteDeployments.
Import Client UploadLoop LoopFacts Deploy Version Runs.

(** C2 at work: a network that times out twice and then answers, and one
    where nobody listens. *)
Lemma retry_policy_witness :
  (∃ tr, post_firmware_to_server flaky disk built staged project_url = (true, tr)
         ∧ posts tr = 3%nat)
  ∧ (∃ tr, post_firmware_to_server down disk built staged project_url = (false, tr)
           ∧ (HAS_REQUESTS down = true → is_Some (disk !! built) → posts tr = 3%nat)).
Proof.
  split.
  - apply (proj1 (retry_policy flaky disk built staged project_url)
             firmware (ustr "ok")); reflexivity.
  - apply (proj2 (retry_policy down disk built staged project_url)).
    intros k Hk. exact I.
Defined.

(** C3 at work: a timeout on the first attempt, a connection error on the
    second and on the last, and a request that breaks on the first. *)
Lemma exception_policy_witness :
  (∃ ok tl, upload_loop flaky disk built staged project_url (attempts_from 1)
            = (ok, sent project_url firmware staged 1
                   ++ [Print (LogTimeout 1); Print LogRetrying]
                   ++ sent project_url firmware staged 2 ++ tl))
  ∧ (∃ ok tl, upload_loop down disk built staged project_url (attempts_from 2)
              = (ok, sent project_url firmware staged 2
                     ++ [Print (LogConnectionError 2); Sleep 2; Print LogRetrying]
                     ++ sent project_url firmware staged 3 ++ tl))
  ∧ upload_loop down disk built staged project_url (attempts_from 3)
    = (false, sent project_url firmware staged 3
              ++ [Print (LogConnectionError 3)] ++ exhausted)
  ∧ (∃ tr, post_firmware_to_server broken disk built staged project_url = (false, tr)
           ∧ posts tr = 1%nat).
Proof.
  assert (∀ k, (1 ≤ k ≤ 3)%nat → (1 ≤ k ≤ max_retries)%nat) as Hk by (unfold max_retries; lia).
  split; [|split; [|split]].
  - apply (proj1 (exception_policy flaky disk built staged project_url firmware 1
                    eq_refl (Hk 1%nat ltac:(lia)))); [reflexivity|].
    unfold max_retries. lia.
  - apply (proj1 (proj2 (exception_policy down disk built staged project_url firmware 2
                           eq_refl (Hk 2%nat ltac:(lia))))); [reflexivity|].
    unfold max_retries. lia.
  - apply (proj1 (proj2 (exception_policy down disk built staged project_url firmware 3
                           eq_refl (Hk 3%nat ltac:(lia))))); reflexivity.
  - apply (proj2 (proj2 (exception_policy broken disk built staged project_url firmware 1
                           eq_refl (Hk 1%nat ltac:(lia))))); [reflexivity..|].
    intros j Hj. lia.
Defined.

(** C6 at work: a server that answers 201, one that answers 202, and one
    that answers 500 three times. *)
Lemma success_is_200_or_201_witness :
  upload_loop (answering 201) disk built staged project_url (attempts_from 1)
  = (true, sent project_url firmware staged 1
           ++ [Print (LogUploadOk (m_version staged) (m_size staged))])
  ∧ (∃ ok tl, upload_loop (answering 202) disk built staged project_url (attempts_from 1)
              = (ok, sent project_url firmware staged 1
                     ++ [Print (LogUploadFailed 202);
                         Print (LogResponse (take 200 (ustr "reply")));
                         Print LogRetrying]
                     ++ sent project_url firmware staged 2 ++ tl))
  ∧ (post_firmware_to_server (answering 500) disk built staged project_url).1 = false.
Proof.
  assert (∀ k, (1 ≤ k ≤ 3)%nat → (1 ≤ k ≤ max_retries)%nat) as Hk by (unfold max_retries; lia).
  split; [|split].
  - apply (proj1 (proj2 (success_is_200_or_201 (answering 201) disk built staged
                           project_url firmware 1 201 (ustr "reply")
                           eq_refl (Hk 1%nat ltac:(lia)) eq_refl))).
    by right.
  - apply (proj2 (proj2 (success_is_200_or_201 (answering 202) disk built staged
                           project_url firmware 1 202 (ustr "reply")
                           eq_refl (Hk 1%nat ltac:(lia)) eq_refl))); [done..|].
    unfold max_retries. lia.
  - apply (proj2 (proj2 (success_is_200_or_201 (answering 500) disk built staged
                           project_url firmware 3 500 (ustr "reply")
                           eq_refl (Hk 3%nat ltac:(lia)) eq_refl))); [done..|].
    intros j Hj. reflexivity.
Defined.

End ConcreteDeployments.

Section ConcreteHooks.
Import Client UploadLoop Deploy DeployFacts Version Runs.

(** C5, as stated, fails: with the project option and the environment
    variable set to different URLs the upload goes to the project's URL, in
    a single POST that the server answers. *)
Lemma upload_goes_to_project_url :
  project_options over_the_air !! "ota_server_url" = Some project_url
  ∧ with_environ_url !! "OTA_SERVER_URL" = Some environ_url
  ∧ project_url ≠ environ_url
  ∧ omap post_url (trace (deploy_firmware (answering 200) over_the_air
                            with_environ_url clock disk))
    = [project_url].
Proof. repeat split; by vm_compute. Qed.

(** C5 at work: a project with its own URL, and one that leaves it to the
    environment. *)
Lemma project_url_comes_first_witness :
  resolve_server_url over_the_air with_environ_url = project_url
  ∧ resolve_server_url plain with_environ_url = environ_url.
Proof.
  split.
  - apply (proj1 (project_url_comes_first (answering 200) over_the_air
                    with_environ_url clock disk) project_url);
      [reflexivity | discriminate].
  - apply (proj1 (proj2 (project_url_comes_first (answering 200) plain
                           with_environ_url clock disk))).
    left. reflexivity.
Defined.

(** C10 at work: an empty disk. *)
Lemma missing_firmware_returns_early_witness :
  deploy_firmware down over_the_air with_environ_url clock ∅
  = Run ∅ [Print (LogFirmwareNotFound built)] Returned.
Proof.
  apply (missing_firmware_returns_early down over_the_air with_environ_url clock ∅).
  reflexivity.
Defined.



End ConcreteHooks.

(* ===================================================================== *)
(** * The manifest read back                                              *)
(* ===================================================================== *)

Module JsonRoundTrip.
Import Json JsonText JsonFacts.
Local Open Scope N_scope.

Ltac nlia := zify; Z.to_euclidean_division_equations; lia.

Lemma hex_val_hex_digit d : d < 16 → hex_val (hex_digit d) = Some d.
Proof.
  intros Hd. unfold hex_val, hex_digit.
  destruct (N.ltb_spec d 10).
  - destruct (N.leb_spec 48 (48 + d)); [|lia].
    destruct (N.leb_spec (48 + d) 57); [|lia].
    cbn [andb]. f_equal. lia.
  - destruct (N.leb_spec 48 (87 + d)); [|lia].
    destruct (N.leb_spec (87 + d) 57); [lia|].
    destruct (N.leb_spec 97 (87 + d)); [|lia].
    destruct (N.leb_spec (87 + d) 102); [|lia].
    cbn [andb]. f_equal. lia.
Qed.

(** The four digits of [hex4 n] decode to [n]. *)
Lemma decode_hex4 n :
  n < 65536 →
  decode_uXXXX (hex_digit (n / 4096 mod 16)) (hex_digit (n / 256 mod 16))
               (hex_digit (n / 16 mod 16)) (hex_digit (n mod 16)) = Some n.
Proof.
  intros Hn. unfold decode_uXXXX.
  rewrite !hex_val_hex_digit by (apply N.mod_lt; lia). cbn.
  f_equal. nlia.
Qed.

Lemma land_mul_pow2 a k x : x < 2 ^ k → N.land (a * 2 ^ k) x = 0.
Proof.
  intros Hx. apply N.bits_inj_0. intros i. rewrite N.land_spec.
  destruct (N.lt_ge_cases i k) as [Hi|Hi].
  - by rewrite N.mul_pow2_bits_low.
  - destruct (N.eq_dec x 0) as [->|Hx0]; [by rewrite N.bits_0, andb_false_r|].
    rewrite (N.bits_above_log2 x i), andb_false_r; [done|].
    apply N.log2_lt_pow2 in Hx; lia.
Qed.

Lemma lor_mul_pow2 a k x : x < 2 ^ k → N.lor (a * 2 ^ k) x = a * 2 ^ k + x.
Proof.
  intros Hx. pose proof (land_mul_pow2 a k x Hx) as Hland.
  rewrite <- N.lxor_lor by done. symmetry. by apply N.add_nocarry_lxor.
Qed.

(** The surrogate pair written for a code point above the basic plane. *)
Lemma high_surrogate n :
  n < 0x100000 → N.lor 0xd800 (N.land (N.shiftr n 10) 0x3ff) = 0xd800 + n / 1024.
Proof.
  intros Hn. change 0x3ff with (N.ones 10). rewrite N.land_ones, N.shiftr_div_pow2.
  change 0xd800 with (54 * 2 ^ 10).
  rewrite lor_mul_pow2 by (apply N.mod_lt; discriminate).
  change (2 ^ 10) with 1024. nlia.
Qed.

Lemma low_surrogate n :
  N.lor 0xdc00 (N.land n 0x3ff) = 0xdc00 + n mod 1024.
Proof.
  change 0x3ff with (N.ones 10). rewrite N.land_ones.
  change 0xdc00 with (55 * 2 ^ 10).
  rewrite lor_mul_pow2 by (apply N.mod_lt; discriminate).
  reflexivity.
Qed.

Lemma combine_surrogates n :
  n < 0x100000 →
  0x10000 + N.lor (N.shiftl (0xd800 + n / 1024 - 0xd800) 10)
                  (0xdc00 + n mod 1024 - 0xdc00)
  = 0x10000 + n.
Proof.
  intros Hn.
  replace (0xd800 + n / 1024 - 0xd800) with (n / 1024) by nlia.
  replace (0xdc00 + n mod 1024 - 0xdc00) with (n mod 1024) by nlia.
  rewrite N.shiftl_mul_pow2.
  rewrite lor_mul_pow2 by (apply N.mod_lt; discriminate).
  change (2 ^ 10) with 1024. nlia.
Qed.

(** *** [scanstring], unfolded at the three kinds of input *)

Lemma scanstring_literal c s :
  c ≠ 34 → c ≠ 92 → 32 ≤ c → scanstring (c :: s) = push c (scanstring s).
Proof.
  intros H34 H92 H32. cbn [scanstring].
  apply N.eqb_neq in H34, H92. apply N.ltb_ge in H32.
  by rewrite H34, H92, H32.
Qed.

Lemma scanstring_u h1 h2 h3 h4 s :
  scanstring (92 :: 117 :: h1 :: h2 :: h3 :: h4 :: s)
  = match decode_uXXXX h1 h2 h3 h4 with
    | None => None
    | Some uni =>
        if (0xd800 <=? uni) && (uni <=? 0xdbff) then
          match s with
          | b1 :: b2 :: l1 :: l2 :: l3 :: l4 :: s4 =>
              if (b1 =? 92) && (b2 =? 117) then
                match decode_uXXXX l1 l2 l3 l4 with
                | None => None
                | Some uni2 =>
                    if (0xdc00 <=? uni2) && (uni2 <=? 0xdfff)
                    then push (0x10000 + N.lor (N.shiftl (uni - 0xd800) 10)
                                               (uni2 - 0xdc00))
                              (scanstring s4)
                    else push uni (scanstring s)
                end
              else push uni (scanstring s)
          | _ => push uni (scanstring s)
          end
        else push uni (scanstring s)
    end.
Proof. reflexivity. Qed.

(** Reading back what [escape_char] wrote for one character. *)
Lemma scanstring_escape_char c s :
  scalar c → scanstring (escape_char c ++ s) = push c (scanstring s).
Proof.
  intros Hc. unfold escape_char.
  destruct (N.eqb_spec c 34) as [->|H34]; [reflexivity|].
  destruct (N.eqb_spec c 92) as [->|H92]; [reflexivity|].
  destruct (N.eqb_spec c 10) as [->|H10]; [reflexivity|].
  destruct (N.eqb_spec c 13) as [->|H13]; [reflexivity|].
  destruct (N.eqb_spec c 9) as [->|H9]; [reflexivity|].
  destruct (N.eqb_spec c 8) as [->|H8]; [reflexivity|].
  destruct (N.eqb_spec c 12) as [->|H12]; [reflexivity|].
  destruct (N.leb_spec 32 c) as [H32|H32]; cbn [andb].
  { destruct (N.leb_spec c 126) as [H126|H126].
    - by apply scanstring_literal.
    - destruct (N.ltb_spec c 0x10000) as [Hbmp|Hbmp].
      + unfold hex4. cbn [app]. rewrite scanstring_u, decode_hex4 by done.
        assert ((0xd800 <=? c) && (c <=? 0xdbff) = false) as ->; [|done].
        apply andb_false_iff. rewrite N.leb_gt, N.leb_gt. unfold scalar in Hc. lia.
      + cbv zeta. unfold scalar in Hc.
        rewrite high_surrogate, low_surrogate by lia.
        unfold hex4. cbn [app]. rewrite scanstring_u.
        rewrite decode_hex4 by nlia.
        assert ((0xd800 <=? 0xd800 + (c - 0x10000) / 1024)
                && (0xd800 + (c - 0x10000) / 1024 <=? 0xdbff) = true) as ->.
        { apply andb_true_iff. rewrite !N.leb_le. nlia. }
        cbn [N.eqb Pos.eqb andb].
        rewrite decode_hex4 by nlia.
        assert ((0xdc00 <=? 0xdc00 + (c - 0x10000) mod 1024)
                && (0xdc00 + (c - 0x10000) mod 1024 <=? 0xdfff) = true) as ->.
        { apply andb_true_iff. rewrite !N.leb_le. nlia. }
        rewrite combine_surrogates by lia.
        by replace (0x10000 + (c - 0x10000)) with c by lia. }
  destruct (N.ltb_spec c 0x10000) as [Hbmp|Hbmp]; [|lia].
  unfold hex4. cbn [app]. rewrite scanstring_u, decode_hex4 by done.
  assert ((0xd800 <=? c) && (c <=? 0xdbff) = false) as ->; [|done].
  apply andb_false_iff. rewrite N.leb_gt, N.leb_gt. lia.
Qed.

(** Reading back an escaped string up to its closing quote. *)
Lemma scanstring_escape s rest :
  scalar_text s → scanstring (escape s ++ DQUOTE :: rest) = Some (s, rest).
Proof.
  induction 1 as [|c s Hc Hs IH]; [reflexivity|].
  unfold escape in *. cbn [map concat]. rewrite <- app_assoc.
  rewrite scanstring_escape_char by done. by rewrite IH.
Qed.

(** *** Numbers *)

Lemma scan_digits_uint d rest :
  no_digit_ahead rest → scan_digits (uint_digits d ++ rest) = (d, rest).
Proof.
  intros Hrest. induction d as [|d IH|d IH|d IH|d IH|d IH|d IH|d IH|d IH|d IH|d IH];
    cbn [uint_digits app scan_digits];
    [|change (is_digit _) with true; cbn iota; by rewrite IH..].
  destruct rest as [|c rest]; [done|]. cbn in *. by rewrite Hrest.
Qed.

(** The digits of a positive number do not start with a zero. *)
Lemma pos_to_uint_head p :
  ∃ c s, uint_digits (Pos.to_uint p) = c :: s ∧ c ≠ 48 ∧ is_digit c = true.
Proof.
  pose proof (DecimalPos.Unsigned.to_uint_nonzero p) as Hnz.
  pose proof (DecimalPos.Unsigned.to_uint_nonnil p) as Hnil.
  assert (Decimal.unorm (Pos.to_uint p) = Pos.to_uint p) as Hnorm.
  { rewrite <- (DecimalPos.Unsigned.to_of (Pos.to_uint p)).
    by rewrite DecimalPos.Unsigned.of_to. }
  destruct (Pos.to_uint p) as [|d|d|d|d|d|d|d|d|d|d];
    try (do 2 eexists; split; [reflexivity|split; [discriminate|reflexivity]]).
  - done.
  - exfalso. rewrite DecimalFacts.unorm_D0 in Hnorm. unfold Decimal.unorm in Hnorm.
    destruct (Decimal.nzhead d) eqn:Hd; try discriminate.
    + injection Hnorm as <-. by apply Hnz.
    + by apply (DecimalFacts.nzhead_nonzero d u).
Qed.

Lemma scan_nat_dump n rest :
  no_digit_ahead rest →
  scan_nat (uint_digits (N.to_uint n) ++ rest) = Some (n, rest).
Proof.
  intros Hrest. destruct n as [|p]; [reflexivity|].
  cbn [N.to_uint].
  destruct (pos_to_uint_head p) as (c & s & E & Hc & Hd).
  pose proof (scan_digits_uint (Pos.to_uint p) rest Hrest) as Hscan.
  rewrite E in *. cbn [app] in *. unfold scan_nat.
  apply N.eqb_neq in Hc. rewrite Hc, Hd, Hscan.
  f_equal. f_equal. apply (DecimalN.Unsigned.of_to (Npos p)).
Qed.

Lemma scan_int_dump n rest :
  no_digit_ahead rest → scan_int (dump_int n ++ rest) = Some (n, rest).
Proof.
  intros Hrest. destruct n as [|p|p]; cbn [dump_int Z.to_N].
  - reflexivity.
  - pose proof (scan_nat_dump (Npos p) rest Hrest) as Hscan.
    cbn [N.to_uint] in *.
    destruct (pos_to_uint_head p) as (c & s & E & Hc & Hd).
    rewrite E in *. cbn [app] in *. unfold scan_int.
    assert ((c =? 45) = false) as ->.
    { apply N.eqb_neq. intros ->. discriminate Hd. }
    by rewrite Hscan.
  - cbn [app scan_int]. change (45 =? 45) with true. cbn iota.
    by rewrite (scan_nat_dump (Npos p) rest Hrest).
Qed.

(** A written value starts with a quote, a digit or a minus sign. *)
Lemma dump_val_head v :
  ∃ c s, dump_val v = c :: s ∧ is_ws c = false.
Proof.
  destruct v as [s|[|p|p]]; try (do 2 eexists; split; reflexivity).
  cbn [dump_val dump_int Z.to_N N.to_uint].
  destruct (pos_to_uint_head p) as (c & s & -> & Hc & Hd).
  exists c, s. split; [done|].
  unfold is_digit in Hd. apply andb_true_iff in Hd as [H1%N.leb_le H2%N.leb_le].
  unfold is_ws. repeat (apply orb_false_iff; split); apply N.eqb_neq; lia.
Qed.

Lemma scan_value_dump v rest :
  (∀ s, v = JStr s → scalar_text s) →
  no_digit_ahead rest →
  scan_value (dump_val v ++ rest) = Some (v, rest).
Proof.
  intros Hv Hrest. destruct v as [s|n].
  - cbn [dump_val]. unfold dump_str. cbn [app scan_value].
    change (DQUOTE =? 34) with true. cbn iota.
    rewrite <- app_assoc. cbn [app].
    by rewrite scanstring_escape by auto.
  - cbn [dump_val]. pose proof (scan_int_dump n rest Hrest) as Hscan.
    destruct (dump_int n ++ rest) as [|c s] eqn:E.
    { by destruct n. }
    unfold scan_value.
    assert ((c =? 34) = false) as ->; [|by rewrite Hscan].
    apply N.eqb_neq. intros ->.
    destruct n as [|p|p]; [discriminate E| |discriminate E].
    destruct (pos_to_uint_head p) as (c' & s' & E' & Hc & Hd).
    cbn [dump_int Z.to_N N.to_uint] in E. rewrite E' in E.
    injection E as -> _. discriminate Hd.
Qed.

(** *** Objects *)

Lemma skip_ws_spaces n s : skip_ws (repeat SPACE n ++ s) = skip_ws s.
Proof. induction n as [|n IH]; [done|]. cbn [repeat app skip_ws]. exact IH. Qed.

Lemma skip_ws_stops c s : is_ws c = false → skip_ws (c :: s) = c :: s.
Proof. intros Hc. cbn [skip_ws]. by rewrite Hc. Qed.

Lemma scan_member_dump indent fuel kv tail :
  scalar_text kv.1 →
  (∀ s, kv.2 = JStr s → scalar_text s) →
  no_digit_ahead tail →
  scan_members (S fuel) (skip_ws (dump_member indent kv ++ tail))
  = after_member fuel kv tail.
Proof.
  destruct kv as [k v]. cbn [fst snd]. intros Hk Hv Htail.
  unfold dump_member, dump_str. cbn [fst snd].
  rewrite <- !app_assoc. cbn [app skip_ws].
  change (is_ws NEWLINE) with true. cbn iota.
  rewrite skip_ws_spaces, skip_ws_stops by done.
  cbn [scan_members]. change (DQUOTE =? 34) with true. cbn iota.
  rewrite scanstring_escape by done. cbn [mbind option_bind].
  rewrite skip_ws_stops by done. change (58 =? 58) with true. cbn iota.
  cbn [skip_ws]. change (is_ws SPACE) with true. cbn iota.
  destruct (dump_val_head v) as (c & s & E & Hc).
  rewrite E. cbn [app]. rewrite skip_ws_stops by done.
  change (c :: s ++ tail) with ((c :: s) ++ tail). rewrite <- E.
  rewrite scan_value_dump by done. reflexivity.
Qed.

Lemma scan_members_dump indent d rest fuel :
  d ≠ [] → scalar_dict d → (length d ≤ fuel)%nat →
  scan_members fuel (skip_ws (dump_members indent d ++ NEWLINE :: 125 :: rest))
  = Some (d, rest).
Proof.
  revert fuel. induction d as [|kv d IH]; intros fuel Hne Hd Hfuel; [done|].
  apply Forall_cons in Hd as [[Hk Hv] Hd].
  destruct fuel as [|fuel]; [cbn in Hfuel; lia|]. cbn [length] in Hfuel.
  destruct d as [|kv' d].
  - cbn [dump_members]. rewrite scan_member_dump by done.
    reflexivity.
  - change (dump_members indent (kv :: kv' :: d))
      with (dump_member indent kv ++ [44] ++ dump_members indent (kv' :: d)).
    rewrite <- !app_assoc. rewrite scan_member_dump by done.
    unfold after_member. cbn [app]. rewrite skip_ws_stops by done.
    change (44 =? 125) with false. change (44 =? 44) with true. cbn iota.
    rewrite IH by (done || lia). reflexivity.
Qed.

Lemma length_dump_members indent d :
  (length d ≤ length (dump_members indent d))%nat.
Proof.
  induction d as [|kv [|kv' d] IH]; [done| |].
  - cbn [dump_members]. unfold dump_member. rewrite length_app. cbn. lia.
  - change (dump_members indent (kv :: kv' :: d))
      with (dump_member indent kv ++ [44] ++ dump_members indent (kv' :: d)).
    rewrite !length_app. unfold dump_member at 1. rewrite length_app.
    cbn [length] in *. lia.
Qed.

(** What [json.dumps] wrote with an indent, [json.loads] reads back. *)
Theorem loads_dumps_indent indent d :
  scalar_dict d → loads (dumps_indent indent d) = Some d.
Proof.
  intros Hd. destruct d as [|kv d]; [reflexivity|].
  unfold dumps_indent, loads. cbn [app]. rewrite skip_ws_stops by done.
  unfold scan_object. change (123 =? 123) with true. cbn iota.
  assert (scan_members (length (dump_members indent (kv :: d) ++ [NEWLINE; 125]))
            (skip_ws (dump_members indent (kv :: d) ++ [NEWLINE; 125]))
          = Some (kv :: d, [])) as Hscan.
  { apply scan_members_dump; [done..|].
    rewrite length_app. pose proof (length_dump_members indent (kv :: d)). lia. }
  destruct (skip_ws (dump_members indent (kv :: d) ++ [NEWLINE; 125])) as [|c2 s2] eqn:E.
  { destruct (length _) in Hscan; discriminate Hscan. }
  assert ((c2 =? 125) = false) as ->.
  { apply N.eqb_neq. intros ->. revert E.
    destruct d as [|kv' d].
    - cbn [dump_members]. unfold dump_member, dump_str.
      rewrite <- !app_assoc. cbn [app skip_ws].
      change (is_ws NEWLINE) with true. cbn iota.
      rewrite skip_ws_spaces, skip_ws_stops by done. discriminate.
    - change (dump_members indent (kv :: kv' :: d))
        with (dump_member indent kv ++ [44] ++ dump_members indent (kv' :: d)).
      unfold dump_member at 1. unfold dump_str.
      rewrite <- !app_assoc. cbn [app skip_ws].
      change (is_ws NEWLINE) with true. cbn iota.
      rewrite skip_ws_spaces, skip_ws_stops by done. discriminate. }
  by rewrite Hscan.
Qed.

End JsonRoundTrip.

Module Digest.

Local Open Scope Z_scope.

Lemma le_bytes_range k n : Forall (λ x, 0 ≤ x < 256) (MD5.le_bytes k n).
Proof.
  revert n. induction k as [|k IH]; intros n; cbn [MD5.le_bytes]; constructor.
  - apply Z.mod_pos_bound. lia.
  - apply IH.
Qed.

Lemma digest_range data : Forall (λ x, 0 ≤ x < 256) (MD5.digest data).
Proof. unfold MD5.digest. cbv zeta. repeat apply Forall_app_2; apply le_bytes_range. Qed.

Lemma hex_digit_ascii d : 0 ≤ d < 16 → (MD5.hex_digit d < 128)%N.
Proof. intros Hd. unfold MD5.hex_digit. destruct (d <? 10); lia. Qed.

Lemma hex_byte_ascii x : 0 ≤ x < 256 → ascii_text (MD5.hex_byte x).
Proof.
  intros Hx. unfold MD5.hex_byte.
  repeat constructor; apply hex_digit_ascii.
  - split; [apply Z.div_pos; lia | apply Z.div_lt_upper_bound; lia].
  - apply Z.mod_pos_bound. lia.
Qed.

(** A digest is written in thirty-two ASCII characters. *)
Lemma hexdigest_ascii data : ascii_text (MD5.hexdigest data).
Proof.
  unfold MD5.hexdigest. pose proof (digest_range data) as Hr.
  induction Hr as [|x l Hx Hl IH]; cbn [map concat]; [constructor|].
  apply Forall_app_2; [by apply hex_byte_ascii | apply IH].
Qed.

(** ASCII text by inspection. *)
Lemma ascii_text_check s : forallb (λ c, (c <? 128)%N) s = true → ascii_text s.
Proof.
  intros Hs. apply Forall_forall. intros c Hc.
  apply list_elem_of_In in Hc. rewrite forallb_forall in Hs.
  apply N.ltb_lt. by apply Hs.
Qed.

Lemma ascii_scalar s : ascii_text s → scalar_text s.
Proof. intros Hs. eapply Forall_impl; [exact Hs|]. intros c Hc. left. cbn in Hc. lia. Qed.

End Digest.

Section RoundTripClaims.
Import Client Deploy DeployFacts JsonText JsonRoundTrip Digest.

Context (net : network) (env : build_env) (os_environ : environ)
        (now : str) (fs : filesystem).

(** A literal is text. *)
Ltac literal_text :=
  repeat first [apply Forall_nil_2 | apply Forall_cons_2; [left; reflexivity|]].

Lemma manifest_dict_scalar (m : manifest) :
  scalar_text (m_version m) → scalar_text (m_file m) → scalar_text (m_md5 m) →
  scalar_text (m_board m) → scalar_text (m_timestamp m) →
  scalar_dict (manifest_dict m).
Proof.
  intros Hversion Hfile Hmd5 Hboard Htime. unfold manifest_dict, scalar_dict.
  repeat first [apply Forall_nil_2 | apply Forall_cons_2];
    (split; [cbn [fst]; literal_text | cbn [snd]; intros s [=]; by subst s]).
Qed.

(** C9.  The manifest the staging step writes, read back from
    [manifest.json] (decoded and parsed), is the dict that was dumped: its
    [version], [md5], [size] and [board] are the staged values.  The staged
    version, board and timestamp are text, that is sequences of characters
    (code points that are no surrogates), as configuration values and the
    clock's ISO format are. *)
Theorem manifest_round_trip (data : bytes) :
  fs !! firmware_path env = Some data →
  scalar_text (get_firmware_version env) →
  scalar_text (default (ustr "unknown") (BOARD env)) →
  scalar_text now →
  let m := make_manifest env now data in
  ∃ d, read_manifest (files (deploy_firmware net env os_environ now fs))
                     (manifest_path env) = Some d
       ∧ d = manifest_dict m
       ∧ dict_get (ustr "version") d = Some (JStr (get_firmware_version env))
       ∧ dict_get (ustr "md5") d = Some (JStr (MD5.hexdigest data))
       ∧ dict_get (ustr "size") d = Some (JInt (Z.of_nat (length data)))
       ∧ dict_get (ustr "board") d
         = Some (JStr (default (ustr "unknown") (BOARD env))).
Proof.
  intros Hfile Hversion Hboard Hnow m. exists (manifest_dict m).
  split; [|repeat split].
  unfold deploy_firmware. rewrite Hfile. fold m.
  destruct (text_bytes_dumps 2 (manifest_dict m)) as (text & -> & Hdec).
  cbn [files]. unfold read_manifest.
  rewrite lookup_insert_eq. cbn [mbind option_bind]. rewrite Hdec. cbn [mbind option_bind].
  apply loads_dumps_indent, manifest_dict_scalar; cbn [m make_manifest m_version m_file m_md5 m_board m_timestamp];
    [done | literal_text | apply ascii_scalar, hexdigest_ascii | done |].
  apply Forall_app_2; [done | literal_text].
Qed.

End RoundTripClaims.

(** C9 at work: the manifest of a project that sets its version by a build
    flag. *)
Lemma manifest_round_trip_witness :
  ∃ d, read_manifest (Client.files (Client.deploy_firmware Runs.down Runs.flagged ∅
                                      Runs.clock Runs.disk))
                     (Client.manifest_path Runs.flagged) = Some d
       ∧ d = manifest_dict (Client.make_manifest Runs.flagged Runs.clock Runs.firmware)
       ∧ dict_get (ustr "version") d = Some (JStr (Client.get_firmware_version Runs.flagged))
       ∧ dict_get (ustr "md5") d = Some (JStr (MD5.hexdigest Runs.firmware))
       ∧ dict_get (ustr "size") d = Some (JInt (Z.of_nat (length Runs.firmware)))
       ∧ dict_get (ustr "board") d
         = Some (JStr (default (ustr "unknown") (Client.BOARD Runs.flagged))).
Proof.
  apply (manifest_round_trip Runs.down Runs.flagged ∅ Runs.clock Runs.disk Runs.firmware).
  - reflexivity.
  - apply Digest.ascii_scalar, Digest.ascii_text_check. vm_compute. reflexivity.
  - apply Digest.ascii_scalar, Digest.ascii_text_check. vm_compute. reflexivity.
  - apply Digest.ascii_scalar, Digest.ascii_text_check. vm_compute. reflexivity.
Defined.

(* ===================================================================== *)
(** * The upload as a whole: how much traffic, and when it succeeds       *)
(* ===================================================================== *)

Module TrafficFacts.
Import Client UploadLoop LoopFacts Traffic.

Lemma sleeps_app (tr1 tr2 : list event) :
  sleeps (tr1 ++ tr2) = (sleeps tr1 + sleeps tr2)%nat.
Proof. unfold sleeps. by rewrite filter_app, length_app. Qed.

Lemma posts_cons e (tr : list event) :
  posts (e :: tr) = ((if is_post e then 1 else 0) + posts tr)%nat.
Proof.
  unfold posts. rewrite filter_cons. destruct (is_post e).
  - by rewrite decide_True.
  - by rewrite decide_False by (by intros []).
Qed.

Lemma sleeps_cons e (tr : list event) :
  sleeps (e :: tr) = ((if is_sleep e then 1 else 0) + sleeps tr)%nat.
Proof.
  unfold sleeps. rewrite filter_cons. destruct (is_sleep e).
  - by rewrite decide_True.
  - by rewrite decide_False by (by intros []).
Qed.

(** Count the POSTs and the pauses of the literal pieces of a trace. *)
Ltac count :=
  repeat first [rewrite posts_app | rewrite sleeps_app
               | rewrite posts_cons | rewrite sleeps_cons];
  change (posts []) with 0%nat; change (sleeps []) with 0%nat;
  cbn [is_post is_sleep Nat.add].

(** Take a trace apart into its literal pieces. *)
Ltac pieces :=
  repeat first [apply Forall_app_2 | apply Forall_cons_2 | apply Forall_nil_2].

Section Loop.

Context (net : network) (fs : filesystem) (firmware_path : str)
        (m : manifest) (server_url : str).

Local Abbreviation loop := (upload_loop net fs firmware_path m server_url).
Local Abbreviation upload := (post_firmware_to_server net fs firmware_path m server_url).

(** One POST per attempt at most, and a pause only after an attempt that is
    not the last. *)
Lemma loop_traffic attempts :
  (posts (loop attempts).2 ≤ length attempts)%nat
  ∧ (sleeps (loop attempts).2
     ≤ length (filter (λ k, (k < max_retries)%nat) attempts))%nat
  ∧ Forall (λ e, is_sleep e = true → e = Sleep 2) (loop attempts).2.
Proof.
  induction attempts as [|k rest (IHp & IHs & IHe)].
  - cbn [upload_loop snd]. count. split; [cbn; lia|]. split; [cbn; lia|].
    pieces; by intros [=].
  - cbn [upload_loop]. rewrite filter_cons.
    destruct (fs !! firmware_path) as [data|].
    2:{ cbn [snd]. count. split; [cbn; lia|]. split; [cbn; lia|].
        pieces; by intros [=]. }
    destruct (post net k) as [status text|[]];
      repeat match goal with
        | |- context [if is_success ?c then _ else _] => destruct (is_success c)
        | |- context [(?a <? ?b)%nat] =>
            destruct (Nat.ltb_spec a b); [rewrite decide_True by done
                                         |rewrite decide_False by lia]
        | |- context [decide ?P] => destruct (decide P)
        end;
      unfold after; cbn [fst snd length]; count;
      (split; [cbn [length]; lia|split; [cbn [length]; lia|]]);
      pieces; try done; by intros [=].
Qed.

(** The firmware and the fields every POST of the loop carries. *)
Lemma loop_posts_the_form attempts data :
  fs !! firmware_path = Some data →
  Forall (λ e, is_post e = true → e = HttpPost server_url (form_of data m) timeout)
         (loop attempts).2.
Proof.
  intros Hfile. induction attempts as [|k rest IH].
  - cbn. pieces; by intros [=].
  - cbn [upload_loop]. rewrite Hfile.
    destruct (post net k) as [status text|[]];
      repeat match goal with
        | |- context [if ?c then _ else _] => destruct c
        end;
      unfold after; cbn [fst snd];
      pieces; try done; by intros [=].
Qed.

Lemma test_connection_no_post :
  Forall (λ e, is_post e = false ∧ is_sleep e = false) (test_connection net server_url).
Proof.
  unfold test_connection. destruct (socket_probe net); pieces; done.
Qed.

Lemma posts_none tr :
  Forall (λ e, is_post e = false ∧ is_sleep e = false) tr →
  posts tr = 0%nat ∧ sleeps tr = 0%nat.
Proof.
  induction 1 as [|e tr [Hp Hs] _ [IHp IHs]]; [done|].
  rewrite posts_cons, sleeps_cons, Hp, Hs. lia.
Qed.

(** The loop returns [True] only from an attempt that was answered with 200
    or 201, reached through retried attempts. *)
Lemma loop_true_accepted data n k :
  fs !! firmware_path = Some data →
  (k + n = S max_retries)%nat → (1 ≤ k)%nat →
  (loop (attempts_from k)).1 = true →
  ∃ k', (k ≤ k' ≤ max_retries)%nat ∧ accepted net k k'.
Proof.
  intros Hfile. revert k. induction n as [|n IH]; intros k Hn Hk.
  - assert (k = S max_retries) as -> by lia. discriminate.
  - assert (k ≤ max_retries)%nat as Hle by lia.
    rewrite attempts_from_next by lia. cbn [upload_loop]. rewrite Hfile.
    assert ((loop (attempts_from (S k))).1 = true →
            UploadLoop.retried (post net k) →
            ∃ k', (k ≤ k' ≤ max_retries)%nat ∧ accepted net k k') as Hnext.
    { intros Htrue Hretried.
      destruct (IH (S k)) as (k' & Hk' & status & text & Hpost & Hok & Hbefore);
        [lia | lia | done |].
      exists k'. split; [lia|]. exists status, text. split; [done|]. split; [done|].
      intros j Hj. destruct (decide (j = k)) as [->|]; [done|]. apply Hbefore. lia. }
    destruct (post net k) as [status text|[]] eqn:Hpost.
    + destruct (is_success status) eqn:Hok.
      * intros _. exists k. split; [lia|]. exists status, text.
        split; [done|]. split; [done|]. intros j Hj. lia.
      * destruct (k <? max_retries)%nat; [|discriminate].
        unfold after. cbn [fst]. intros Htrue. by apply Hnext.
    + destruct (k <? max_retries)%nat; unfold after; cbn [fst];
        intros Htrue; by apply Hnext.
    + destruct (k <? max_retries)%nat; unfold after; cbn [fst];
        intros Htrue; by apply Hnext.
    + discriminate.
Qed.

(** The traffic of a whole call. *)
Lemma upload_traffic :
  (posts upload.2 ≤ 3)%nat
  ∧ (sleeps upload.2 ≤ 2)%nat
  ∧ Forall (λ e, is_sleep e = true → e = Sleep 2) upload.2.
Proof.
  unfold post_firmware_to_server.
  destruct (HAS_REQUESTS net); cbn [negb].
  2:{ cbn [snd]. count. split; [lia|]. split; [lia|]. pieces; by intros [=]. }
  destruct (loop_traffic (seq 1 max_retries))
    as (Hp & Hs & He).
  destruct (posts_none _ test_connection_no_post) as [Hp0 Hs0].
  unfold after. cbn [fst snd].
  cbn [app]. split; [|split].
  - count. rewrite Hp0. change (length (seq 1 max_retries)) with 3%nat in Hp. lia.
  - count. rewrite Hs0.
    change (length (filter _ (seq 1 max_retries))) with 2%nat in Hs. lia.
  - repeat apply Forall_cons_2; try (by intros [=]).
    apply Forall_app_2; [|done].
    eapply Forall_impl; [apply test_connection_no_post|].
    intros e [_ He'] Hs'. congruence.
Qed.

End Loop.

End TrafficFacts.

Section TrafficProperties.
Import Client UploadLoop LoopFacts Traffic TrafficFacts.

Context (net : network) (fs : filesystem) (firmware_path : str)
        (m : manifest) (server_url : str).

Local Abbreviation upload := (post_firmware_to_server net fs firmware_path m server_url).

(** X1.  Whatever the network does, one call of [post_firmware_to_server]
    makes at most three POSTs and pauses at most twice, each time for two
    seconds. *)
Theorem upload_traffic_is_bounded :
  (posts upload.2 ≤ 3)%nat
  ∧ (sleeps upload.2 ≤ 2)%nat
  ∧ Forall (λ e, is_sleep e = true → e = Sleep 2) upload.2.
Proof. apply upload_traffic. Qed.

(** X2.  [post_firmware_to_server] returns [True] exactly when [requests]
    is installed, the firmware file can be read, and one of the three
    attempts is answered with status 200 or 201 after every attempt before
    it was retried (a timeout, a connection error, or another status).  The
    accepted attempt is the last one made: with it at number [k], the call
    has made [k] POSTs. *)
Theorem upload_succeeds_iff :
  (upload.1 = true ↔
   HAS_REQUESTS net = true ∧ is_Some (fs !! firmware_path)
   ∧ ∃ k, (1 ≤ k ≤ 3)%nat ∧ accepted net 1 k)
  ∧ (∀ k, HAS_REQUESTS net = true → is_Some (fs !! firmware_path) →
          (1 ≤ k ≤ 3)%nat → accepted net 1 k →
          upload.1 = true ∧ posts upload.2 = k).
Proof.
  assert (∀ k, HAS_REQUESTS net = true → is_Some (fs !! firmware_path) →
               (1 ≤ k ≤ 3)%nat → accepted net 1 k →
               upload.1 = true ∧ posts upload.2 = k) as Hthere.
  { intros k Hreq [data Hfile] Hk (status & text & Hpost & Hok & Hbefore).
    destruct (reach net fs firmware_path m server_url k data)
      as (evs & -> & Hposts); [done..|].
    rewrite attempts_from_next by done.
    erewrite loop_success by eauto.
    unfold after. cbn [fst snd]. split; [done|].
    rewrite posts_app, Hposts.
    assert (posts (sent server_url data m k
                   ++ [Print (LogUploadOk (m_version m) (m_size m))]) = 1%nat) as ->
      by reflexivity.
    lia. }
  split; [|exact Hthere]. split.
  - intros Htrue.
    destruct (HAS_REQUESTS net) eqn:Hreq.
    2:{ unfold post_firmware_to_server in Htrue. rewrite Hreq in Htrue. discriminate. }
    rewrite upload_runs_loop in Htrue by done.
    unfold after in Htrue. cbn [fst] in Htrue.
    destruct (fs !! firmware_path) as [data|] eqn:Hfile.
    2:{ rewrite attempts_from_next in Htrue by (unfold max_retries; lia).
        rewrite loop_unreadable in Htrue by done. discriminate. }
    split; [done|]. split; [eauto|].
    destruct (loop_true_accepted net fs firmware_path m server_url data 3 1)
      as (k & Hk & Hacc); [done | reflexivity | lia | done |].
    exists k. split; [exact Hk | done].
  - intros (Hreq & Hfile & k & Hk & Hacc). by destruct (Hthere k).
Qed.

End TrafficProperties.

(* ===================================================================== *)
(** * The upload hook: what is staged, and what is sent                   *)
(* ===================================================================== *)

Module HookFacts.
Import Client UploadLoop LoopFacts Deploy DeployFacts Traffic TrafficFacts.

(** The build output is neither the manifest nor, unless it is the staging
    copy itself, touched by the staging step. *)
Lemma firmware_path_ne_manifest_path env : firmware_path env ≠ manifest_path env.
Proof.
  unfold firmware_path, manifest_path, joinpath. intros H%(f_equal (@rev N)).
  rewrite !rev_app_distr in H. discriminate H.
Qed.

Lemma staged_keeps_build (env : build_env) (data text : bytes) (fs : filesystem) :
  fs !! firmware_path env = Some data →
  <[manifest_path env := text]> (<[dest_firmware env := data]> fs) !! firmware_path env
  = Some data.
Proof.
  intros Hfile.
  rewrite lookup_insert_ne by (symmetry; apply firmware_path_ne_manifest_path).
  destruct (decide (dest_firmware env = firmware_path env)) as [->|Hne].
  - apply lookup_insert_eq.
  - by rewrite lookup_insert_ne.
Qed.

(** The hook on an existing build, with the manifest's text named. *)
Lemma deploy_firmware_staged net env os_environ now fs data :
  fs !! firmware_path env = Some data →
  ∃ text,
    UTF8.decode text
    = Some (Json.dumps_indent 2 (manifest_dict (make_manifest env now data)))
    ∧ deploy_firmware net env os_environ now fs
      = let m := make_manifest env now data in
        let fs2 := <[manifest_path env := text]> (<[dest_firmware env := data]> fs) in
        Run fs2
            ([Print LogBanner; Print (LogMode (flash_method env os_environ));
              Print LogBanner; Print (LogVersion (m_version m));
              Print (LogBoard (m_board m)); Print (LogSize (m_size m));
              Print (LogMd5 (m_md5 m))]
             ++ (if bool_decide (flash_method env os_environ = ustr "ota") then
                   match resolve_server_url env os_environ with
                   | [] => [Print LogNoServerUrl]
                   | server_url =>
                       (post_firmware_to_server net fs2 (firmware_path env) m
                          server_url).2
                   end
                 else [])
             ++ [Print LogBanner])
            Returned.
Proof.
  intros Hfile. unfold deploy_firmware. rewrite Hfile.
  destruct (text_bytes_dumps 2 (manifest_dict (make_manifest env now data)))
    as (text & -> & Hdec).
  by exists text.
Qed.


Lemma upload_posts_the_form net fs path m server_url data :
  fs !! path = Some data →
  Forall (λ e, is_post e = true → e = HttpPost server_url (form_of data m) timeout)
         (post_firmware_to_server net fs path m server_url).2.
Proof.
  intros Hfile. unfold post_firmware_to_server.
  destruct (HAS_REQUESTS net); cbn [negb].
  - unfold after. cbn [fst snd app].
    repeat apply Forall_cons_2; try (by intros [=]).
    apply Forall_app_2; [|by apply loop_posts_the_form].
    eapply Forall_impl; [apply test_connection_no_post|].
    intros e [He _] Hp. congruence.
  - cbn. pieces; by intros [=].
Qed.


End HookFacts.

Section HookProperties.
Import Client UploadLoop LoopFacts Deploy DeployFacts Traffic TrafficFacts HookFacts.

Context (net : network) (env : build_env) (os_environ : environ)
        (now : str) (fs : filesystem).

Local Abbreviation hook := (deploy_firmware net env os_environ now fs).


(** X4.  Every POST [deploy_firmware] makes goes to the resolved URL with a
    timeout of 120 seconds and carries the bytes of the build output, the
    MD5 digest of exactly these bytes, their number in decimal, and the
    version and board of the manifest that was staged. *)
Theorem uploads_what_was_built (data : bytes) :
  fs !! firmware_path env = Some data →
  Forall (λ e, is_post e = true →
               e = HttpPost (resolve_server_url env os_environ)
                     {| form_firmware := data;
                        form_version := get_firmware_version env;
                        form_md5 := MD5.hexdigest data;
                        form_size := Json.dump_int (Z.of_nat (length data));
                        form_board := default (ustr "unknown") (BOARD env) |}
                     120)
         (trace hook).
Proof.
  intros Hfile.
  destruct (deploy_firmware_staged net env os_environ now fs data Hfile)
    as (text & Hdec & ->).
  cbn [trace]. apply Forall_app_2; [pieces; by intros [=]|].
  apply Forall_app_2; [|pieces; by intros [=]].
  destruct (bool_decide _); [|constructor].
  destruct (resolve_server_url env os_environ) as [|c url] eqn:Hurl.
  { pieces; by intros [=]. }
  apply (upload_posts_the_form net _ (firmware_path env)
           (make_manifest env now data) (c :: url) data).
  by apply staged_keeps_build.
Qed.


End HookProperties.

Section ConcreteTraffic.
Import Client UploadLoop LoopFacts Deploy Traffic Runs.

(** X2 at work: two timeouts, then the server answers the third POST. *)
Lemma upload_succeeds_iff_witness :
  (post_firmware_to_server flaky disk built staged project_url).1 = true
  ∧ posts (post_firmware_to_server flaky disk built staged project_url).2 = 3%nat.
Proof.
  apply (proj2 (upload_succeeds_iff flaky disk built staged project_url) 3%nat).
  - reflexivity.
  - by exists firmware.
  - lia.
  - exists 200, (ustr "ok"). split; [reflexivity|]. split; [reflexivity|].
    intros j Hj. assert (j = 1 ∨ j = 2)%nat as [-> | ->] by lia; exact I.
Defined.


(** X4 at work: the one POST of an upload that is accepted at once. *)
Lemma uploads_what_was_built_witness :
  Forall (λ e, is_post e = true →
               e = HttpPost (resolve_server_url over_the_air ∅)
                     {| form_firmware := firmware;
                        form_version := get_firmware_version over_the_air;
                        form_md5 := MD5.hexdigest firmware;
                        form_size := Json.dump_int (Z.of_nat (length firmware));
                        form_board := default (ustr "unknown") (BOARD over_the_air) |}
                     120)
         (trace (deploy_firmware (answering 200) over_the_air ∅ clock disk)).
Proof.
  apply (uploads_what_was_built (answering 200) over_the_air ∅ clock disk firmware).
  reflexivity.
Defined.


End ConcreteTraffic.

(* ===================================================================== *)
(** * The health URL, the version, and the upload method                  *)
(* ===================================================================== *)

Module TextFacts.
Import Client Version VersionFacts Spelling.
Local Open Scope N_scope.

(** ** [rsplit] *)

Lemma before_last_none sep s :
  Forall (λ c, c ≠ sep) s → before_last sep s = None.
Proof.
  induction 1 as [|c s Hc Hs IH]; [done|]. cbn [before_last]. rewrite IH.
  by apply N.eqb_neq in Hc as ->.
Qed.

Lemma before_last_app sep base leaf :
  Forall (λ c, c ≠ sep) leaf → before_last sep (base ++ sep :: leaf) = Some base.
Proof.
  intros Hleaf. induction base as [|c base IH]; cbn [app before_last].
  - rewrite before_last_none by done. by rewrite N.eqb_refl.
  - by rewrite IH.
Qed.

(** ** The expression's group *)

Lemma take_while_Forall p s : Forall (λ c, p c = true) (Re.take_while p s).
Proof.
  induction s as [|c s IH]; cbn [Re.take_while]; [constructor|].
  destruct (p c) eqn:Hc; by constructor.
Qed.




(** ** [strip] *)

Lemma take_drop_while p s : s = Re.take_while p s ++ Re.drop_while p s.
Proof.
  induction s as [|c s IH]; [done|]. cbn [Re.take_while Re.drop_while].
  destruct (p c); [|done]. cbn [app]. by rewrite <- IH.
Qed.

(** What [strip] takes away is white space. *)
Lemma strip_padded s : padded (strip s) s.
Proof.
  unfold strip.
  exists (Re.take_while is_space s),
         (rev (Re.take_while is_space (rev (Re.drop_while is_space s)))).
  split; [|split].
  - rewrite <- rev_app_distr, <- take_drop_while, rev_involutive.
    apply take_drop_while.
  - apply take_while_Forall.
  - apply Forall_rev, take_while_Forall.
Qed.

Lemma drop_while_all p s : Forall (λ c, p c = true) s → Re.drop_while p s = [].
Proof. induction 1 as [|c s Hc _ IH]; [done|]. cbn. by rewrite Hc. Qed.

(** Padding goes, and a word that starts and ends in something else than
    white space stays. *)
Lemma strip_pad pre s post :
  Forall (λ c, is_space c = true) pre → Forall (λ c, is_space c = true) post →
  (∀ c, head s = Some c → is_space c = false) →
  (∀ c, last s = Some c → is_space c = false) →
  strip (pre ++ s ++ post) = s.
Proof.
  intros Hpre Hpost Hhead Hlast. unfold strip.
  destruct s as [|c s].
  { cbn [app]. by rewrite (drop_while_all _ (pre ++ post)) by (by apply Forall_app_2). }
  rewrite drop_while_app; [|done|cbn; by apply Hhead].
  rewrite rev_app_distr.
  destruct (rev (c :: s)) as [|l r] eqn:E.
  { apply (f_equal (@length N)) in E. rewrite length_rev in E. discriminate. }
  rewrite drop_while_app; [|by apply Forall_rev|].
  - by rewrite <- E, rev_involutive.
  - apply Hlast. rewrite <- (rev_involutive (c :: s)), E. cbn [rev].
    apply last_snoc.
Qed.

(** ** [lower] *)

Lemma lower_cons c s : lower (c :: s) = lower_char c ++ lower s.
Proof. reflexivity. Qed.

(** The lower case of a character, by the branch [lower_char] takes. *)
Lemma lower_char_cases c :
  (65 ≤ c ≤ 90 ∧ lower_char c = [c + 32])
  ∨ (c = 0x130 ∧ lower_char c = [105; 0x307])
  ∨ (c = 0x212a ∧ lower_char c = [107])
  ∨ (¬ 65 ≤ c ≤ 90 ∧ c ≠ 0x130 ∧ c ≠ 0x212a ∧ lower_char c = [c]).
Proof.
  unfold lower_char.
  destruct (N.leb_spec 65 c), (N.leb_spec c 90); cbn [andb];
    try (left; split; [lia|done]);
    (destruct (N.eqb_spec c 0x130); [right; left; by split|]);
    (destruct (N.eqb_spec c 0x212a); [right; right; left; by split|]);
    right; right; right; repeat split; (lia || done).
Qed.

(** The strings whose lower case is a given word of small letters. *)
Lemma lower_spells word s :
  small_letters word → (lower s = word ↔ spells word s).
Proof.
  intros Hword. revert s. induction Hword as [|x word Hx Hword IH]; intros s.
  - split.
    + destruct s as [|c s]; [constructor|]. rewrite lower_cons.
      destruct (lower_char_cases c) as [[_ ->]|[[_ ->]|[[_ ->]|(_ & _ & _ & ->)]]];
        discriminate.
    + by inversion 1.
  - split.
    + destruct s as [|c s]; [discriminate|]. rewrite lower_cons.
      destruct (lower_char_cases c)
        as [[Hc ->]|[[Hc ->]|[[Hc ->]|(Hc1 & Hc2 & Hc3 & ->)]]];
        cbn [app]; intros [= Hhead Htail].
      * constructor; [right; left; by split | by apply IH].
      * subst x. destruct word as [|y word]; [discriminate|].
        injection Htail as <- _. inversion Hword as [|?? Hy _]. lia.
      * constructor; [right; right; by split | by apply IH].
      * constructor; [by left | by apply IH].
    + inversion 1 as [|c ? s' ? Hc Hs]; subst. rewrite lower_cons.
      apply IH in Hs as ->.
      destruct (lower_char_cases c)
        as [[Hc' ->]|[[Hc' ->]|[[Hc' ->]|(Hc1 & Hc2 & Hc3 & ->)]]];
        destruct Hc as [->|[[? <-]|[-> ->]]]; cbn [app]; try done; lia.
Qed.

(** A character that stands for a small letter is no white space. *)
Lemma folds_not_space c x : (97 ≤ x ≤ 122) → folds c x → is_space c = false.
Proof.
  intros Hx [->|[[Hc <-]|[-> ->]]]; unfold is_space;
    repeat match goal with
      | |- context [?a <=? ?b] => destruct (N.leb_spec a b); try lia
      | |- context [?a =? ?b] => destruct (N.eqb_spec a b); try lia
      end; reflexivity.
Qed.

(** [normalize] gives a word of small letters exactly for the strings that
    spell it, in any mix of cases, with white space around. *)
Lemma normalize_spells word v :
  small_letters word →
  (SelectUpload.normalize v = word ↔ ∃ s, padded s v ∧ spells word s).
Proof.
  intros Hword. unfold SelectUpload.normalize. split.
  - intros Hlow. exists (strip v). split; [apply strip_padded|].
    by apply lower_spells.
  - intros (s & (pre & post & -> & Hpre & Hpost) & Hs).
    rewrite strip_pad; [by apply lower_spells|done|done| |].
    + intros c Hc. destruct Hs as [|c' x s' word' Hf _]; [done|].
      injection Hc as ->. inversion Hword; subst. by eapply folds_not_space.
    + intros c Hc. apply last_Some in Hc as [s' ->].
      apply Forall2_app_inv_l in Hs as (w1 & w2 & _ & Hlast & ->).
      inversion Hlast as [|?? ?? Hf Hnil]; subst. inversion Hnil; subst.
      apply Forall_app in Hword as [_ Hword]. inversion Hword; subst.
      by eapply folds_not_space.
Qed.

End TextFacts.

Section TextProperties.
Import Client Version VersionFacts Spelling TextFacts.

(** X6.  The health check goes to the upload URL with its last path
    segment replaced by [health]; a URL without any slash gets [/health]
    appended. *)
Theorem health_url_replaces_last_segment (base leaf : str) :
  Forall (λ c, c ≠ 47%N) leaf →
  health_url (base ++ ustr "/" ++ leaf) = base ++ ustr "/health"
  ∧ health_url leaf = leaf ++ ustr "/health".
Proof.
  intros Hleaf. unfold health_url. split.
  - change (ustr "/" ++ leaf) with (47%N :: leaf).
    by rewrite before_last_app.
  - by rewrite before_last_none.
Qed.


(** X8.  [normalize] ignores case and the white space around the value,
    and nothing else: its result is a given word of small letters exactly
    for the values that spell that word, in any mix of capitals and small
    letters, with white space before and after. *)
Theorem normalize_ignores_case_and_padding (word v : str) :
  small_letters word →
  (SelectUpload.normalize v = word ↔ ∃ s, padded s v ∧ spells word s).
Proof. apply normalize_spells. Qed.

(** X9.  The flash method of [deploy_firmware]: the [FLASH_METHOD]
    environment variable wins over the [flash_method] project option, even
    when it is empty; without it a non-empty project option counts, and
    without both the method is [serial].  The value is normalized as in
    [select_upload.py], so the run uploads exactly when the value spells
    [ota], in any mix of cases, with white space around. *)
Theorem flash_method_resolution (env : build_env) (os_environ : environ) :
  let raw := getenv os_environ "FLASH_METHOD"
               (str_or (GetProjectOption env "flash_method" (ustr "serial"))
                       (ustr "serial")) in
  (∀ v, os_environ !! "FLASH_METHOD" = Some v → raw = v)
  ∧ (os_environ !! "FLASH_METHOD" = None →
     ∀ v, project_options env !! "flash_method" = Some v → v ≠ [] → raw = v)
  ∧ (os_environ !! "FLASH_METHOD" = None →
     project_options env !! "flash_method" = None
     ∨ project_options env !! "flash_method" = Some [] →
     raw = ustr "serial")
  ∧ flash_method env os_environ = SelectUpload.normalize raw
  ∧ (flash_method env os_environ = ustr "ota"
     ↔ ∃ s, padded s raw ∧ spells (ustr "ota") s).
Proof.
  cbn zeta. unfold getenv, GetProjectOption. split; [|split; [|split; [|split]]].
  - by intros v ->.
  - intros -> v -> Hv. by destruct v.
  - by intros -> [-> | ->].
  - reflexivity.
  - apply (normalize_spells (ustr "ota")). repeat constructor; discriminate.
Qed.

(** X10.  The two hooks agree.  [select_upload.py] takes the upload away
    from PlatformIO (it replaces the upload protocol and command) exactly
    when [deploy_firmware] finds the method to be [ota]; for every other
    value, known or not, it replaces nothing and only prints a line. *)
Theorem hooks_agree_on_the_method (env : build_env) (os_environ : environ) :
  SelectUpload.method env os_environ = flash_method env os_environ
  ∧ (SelectUpload.Replace "UPLOAD_PROTOCOL" (ustr "custom")
       ∈ SelectUpload.select_upload env os_environ
     ↔ flash_method env os_environ = ustr "ota")
  ∧ (flash_method env os_environ = ustr "ota"
     ∨ ∃ line, SelectUpload.select_upload env os_environ = [SelectUpload.Say line]).
Proof.
  split; [reflexivity|].
  unfold SelectUpload.select_upload. cbn zeta.
  change (SelectUpload.method env os_environ) with (flash_method env os_environ).
  destruct (decide (flash_method env os_environ = ustr "ota")) as [Hota|Hno].
  - rewrite bool_decide_eq_true_2 by done. split; [|by left].
    split; [done|]. intros _. apply list_elem_of_here.
  - rewrite bool_decide_eq_false_2 by done.
    destruct (bool_decide _); (split; [|right; eauto]);
      (split; [|done]); intros Hin; apply list_elem_of_singleton in Hin; discriminate.
Qed.

End TextProperties.

Section ConcreteText.
Import Client Version Spelling Runs.

(** X6 at work: the URL of the project. *)
Lemma health_url_replaces_last_segment_witness :
  health_url (ustr "http://192.168.1.10:8081" ++ ustr "/" ++ ustr "upload")
  = ustr "http://192.168.1.10:8081" ++ ustr "/health"
  ∧ health_url (ustr "upload") = ustr "upload" ++ ustr "/health".
Proof.
  apply (health_url_replaces_last_segment (ustr "http://192.168.1.10:8081")
           (ustr "upload")).
  repeat constructor; discriminate.
Defined.


(** X8 at work: a value as it may come from a shell. *)
Lemma normalize_ignores_case_and_padding_witness :
  SelectUpload.normalize (ustr " OtA" ++ [10%N]) = ustr "ota".
Proof.
  apply (proj2 (normalize_ignores_case_and_padding (ustr "ota") (ustr " OtA" ++ [10%N])
                  ltac:(repeat constructor; discriminate))).
  exists (ustr "OtA"). split.
  - exists (ustr " "), [10%N]. split; [reflexivity|]. split; repeat constructor.
  - constructor; [right; left; split; [split|]; by vm_compute|].
    constructor; [left; reflexivity|].
    constructor; [right; left; split; [split|]; by vm_compute|].
    constructor.
Defined.

(** X9 at work: the environment variable against a project that asks for
    an upload over the air. *)
Lemma flash_method_resolution_witness :
  getenv {[ "FLASH_METHOD" := ustr "Serial" ]} "FLASH_METHOD"
    (str_or (GetProjectOption over_the_air "flash_method" (ustr "serial"))
            (ustr "serial"))
  = ustr "Serial".
Proof.
  apply (proj1 (flash_method_resolution over_the_air
                  {[ "FLASH_METHOD" := ustr "Serial" ]}) (ustr "Serial")).
  reflexivity.
Defined.

End ConcreteText.

(* ===================================================================== *)
(** * The server: every request                                           *)
(* ===================================================================== *)

Module HandlerFacts.
Import Server Upload UploadFacts Stored.

(** ** The library functions *)

(** Without an occurrence of the separator there is one piece. *)
Lemma split_from_not_found {A} `{EqDecision A} (sep cur hay : list A) :
  find sep hay = None → split_from sep 0 cur hay = [rev cur ++ hay].
Proof.
  revert cur. induction hay as [|x hay IH]; intros cur; cbn [find split_from].
  - intros _. by rewrite app_nil_r.
  - destruct (starts_with sep (x :: hay)); [done|].
    destruct (find sep hay); [done|]. intros _.
    rewrite IH by done. cbn [rev]. by rewrite <- app_assoc.
Qed.

Lemma split_not_found {A} `{EqDecision A} (sep hay : list A) :
  contains sep hay = false → split sep hay = [hay].
Proof.
  unfold contains, split. intros Hc%bool_decide_eq_false.
  apply split_from_not_found. destruct (find sep hay); [|done].
  destruct Hc. eauto.
Qed.

(** What [rstrip] leaves does not end in a byte of the set. *)
Lemma rstrip_last {A} `{EqDecision A} (chars s : list A) x :
  last (rstrip chars s) = Some x → x ∉ chars.
Proof.
  induction s as [|y s IH]; [done|]. cbn [rstrip].
  destruct (rstrip chars s) as [|z r] eqn:E.
  - case_bool_decide as Hy; [done|]. by intros [= <-].
  - change (last (y :: z :: r)) with (last (z :: r)). exact IH.
Qed.

Lemma byte_val_range b : 0 ≤ byte_val b < 256.
Proof.
  unfold byte_val. pose proof (Byte.to_N_bounded b) as Hb. lia.
Qed.

Lemma between_spec lo x hi : UTF8.between lo x hi = true ↔ lo ≤ x ≤ hi.
Proof. unfold UTF8.between. rewrite andb_true_iff, !Z.leb_le. tauto. Qed.

(** Decoded text is made of characters: the decoder lets no surrogate and
    nothing above U+10FFFF through. *)
Lemma decode_scalar l s : UTF8.decode l = Some s → scalar_text s.
Proof.
  remember (length l) as n eqn:Hn. revert l s Hn.
  induction n as [n IH] using lt_wf_ind. intros l s Hn.
  destruct l as [|b0 l1]; [intros [= <-]; constructor|].
  cbn [UTF8.decode]. cbn zeta.
  pose proof (byte_val_range b0) as H0.
  assert (∀ (l' : bytes) (c : Z) s',
            (length l' < n)%nat → scalar (Z.to_N c) →
            (Z.to_N c ::.) <$> UTF8.decode l' = Some s' → scalar_text s') as Hstep.
  { intros l' c s' Hl Hc Hs'. destruct (UTF8.decode l') as [t|] eqn:Ht; [|done].
    injection Hs' as <-. constructor; [done|]. by eapply (IH (length l')). }
  destruct (Z.ltb_spec (byte_val b0) 0x80) as [Hlt|Hge].
  { apply Hstep; [subst n; cbn; lia|]. left. lia. }
  destruct (UTF8.between 0xc2 (byte_val b0) 0xdf) eqn:E2.
  { apply between_spec in E2. destruct l1 as [|b1 l2]; [done|].
    destruct (UTF8.between 0x80 (byte_val b1) 0xbf) eqn:E21; [|done].
    apply between_spec in E21.
    apply Hstep; [subst n; cbn; lia|]. left. lia. }
  destruct (UTF8.between 0xe0 (byte_val b0) 0xef) eqn:E3.
  { apply between_spec in E3. destruct l1 as [|b1 [|b2 l3]]; [done..|].
    destruct (UTF8.between _ (byte_val b1) _) eqn:E31; [|done].
    destruct (UTF8.between 0x80 (byte_val b2) 0xbf) eqn:E32; [|done].
    apply between_spec in E31, E32. cbn [andb].
    apply Hstep; [subst n; cbn; lia|].
    destruct (Z.eqb_spec (byte_val b0) 0xe0), (Z.eqb_spec (byte_val b0) 0xed);
      unfold scalar; lia. }
  destruct (UTF8.between 0xf0 (byte_val b0) 0xf4) eqn:E4; [|done].
  apply between_spec in E4. destruct l1 as [|b1 [|b2 [|b3 l4]]]; [done..|].
  destruct (UTF8.between _ (byte_val b1) _) eqn:E41; [|done].
  destruct (UTF8.between 0x80 (byte_val b2) 0xbf) eqn:E42; [|done].
  destruct (UTF8.between 0x80 (byte_val b3) 0xbf) eqn:E43; [|done].
  apply between_spec in E41, E42, E43. cbn [andb].
  apply Hstep; [subst n; cbn; lia|].
  destruct (Z.eqb_spec (byte_val b0) 0xf0), (Z.eqb_spec (byte_val b0) 0xf4);
    unfold scalar; lia.
Qed.

(** ** What the scan of the parts keeps *)

Lemma part_payload_stripped part raw :
  part_payload part = Some raw → stripped raw.
Proof.
  unfold part_payload. destruct (find _ part) as [idx|]; [|done].
  destruct (0 <? idx)%nat; [|done]. intros [= <-] x Hx.
  by eapply rstrip_last.
Qed.

Lemma scan_field_tidy part field st st' :
  tidy st → scan_field part field st = Ok st' → tidy st'.
Proof.
  intros [Hfw Hform]. unfold scan_field.
  destruct (contains _ part); [|by intros [= <-]].
  destruct (part_payload part) as [raw|]; [|by intros [= <-]].
  destruct (UTF8.decode raw) as [text|] eqn:Hdec; [|done].
  intros [= <-]. split; [done|]. cbn [form_data].
  apply map_Forall_insert_2; [|done]. by eapply decode_scalar.
Qed.

Lemma scan_part_tidy st part st' :
  tidy st → scan_part st part = Ok st' → tidy st'.
Proof.
  intros Hst. unfold scan_part.
  destruct (contains _ part).
  - destruct (part_payload part) as [raw|] eqn:Hraw; intros [= <-]; [|done].
    destruct Hst as [_ Hform]. split; [|done]. intros data [= <-].
    by eapply part_payload_stripped.
  - destruct (scan_field part "version" st) as [st1|] eqn:H1; [|done]. cbn.
    intros H2. eapply scan_field_tidy; [|exact H2]. by eapply scan_field_tidy.
Qed.

Lemma scan_parts_tidy parts st st' :
  tidy st → scan_parts parts st = Ok st' → tidy st'.
Proof.
  revert st. induction parts as [|part parts IH]; intros st Hst; cbn [scan_parts].
  - by intros [= <-].
  - destruct (scan_part st part) as [st1|] eqn:H1; [|done]. cbn.
    apply IH. by eapply scan_part_tidy.
Qed.

Lemma parse_tidy req st : parse req = Ok st → tidy st.
Proof.
  unfold parse.
  destruct (content_length req); cbn; try done;
    (destruct (boundary_of _); cbn; [|done]);
    apply scan_parts_tidy; (split; [done|apply map_Forall_empty]).
Qed.

(** ** The handler, case by case *)

Lemma firmware_bin_ne_manifest_json dir : firmware_bin dir ≠ manifest_json dir.
Proof. unfold firmware_bin, manifest_json. intros H%app_inv_head. discriminate H. Qed.

(** A reply with status 200 comes from the two writes. *)
Lemma do_POST_200 dir now req fs :
  code (reply (do_POST dir now req fs)) = 200 →
  ∃ st x data text,
    parse req = Ok st ∧ firmware_data st = Some (x :: data)
    ∧ UTF8.decode text
      = Some (Json.dumps_indent 2 (manifest_dict (make_manifest now st (x :: data))))
    ∧ do_POST dir now req fs
      = Outcome (<[manifest_json dir := text]> (<[firmware_bin dir := x :: data]> fs))
                (uploaded (MD5.hexdigest (x :: data)) (length (x :: data)))
                [LogOk (m_version (make_manifest now st (x :: data)))
                       (length (x :: data))].
Proof.
  unfold do_POST. destruct (negb _); [done|].
  destruct (parse req) as [st|e] eqn:Hparse; [|done].
  destruct (firmware_data st) as [[|x data]|] eqn:Hfw; [done| |done].
  destruct (store_succeeds dir now st (x :: data) fs) as (text & -> & Hdec).
  intros _. by exists st, x, data, text.
Qed.

(** The status codes of [do_POST]. *)
Lemma do_POST_codes dir now req fs :
  let c := code (reply (do_POST dir now req fs)) in
  (c = 200 ∨ c = 400 ∨ c = 404 ∨ c = 500)
  ∧ (c = 404 ↔ path req ≠ ustr "/upload").
Proof.
  cbn zeta. unfold do_POST. case_bool_decide as Hpath; cbn [negb].
  - assert (∀ c, (c = 200 ∨ c = 400 ∨ c = 404 ∨ c = 500) → c ≠ 404 →
                 (c = 200 ∨ c = 400 ∨ c = 404 ∨ c = 500)
                 ∧ (c = 404 ↔ path req ≠ ustr "/upload")) as Hgo.
    { intros c Hc Hne. split; [done|]. split; [done|]. by intros []. }
    destruct (parse req) as [st|e]; [|apply Hgo; cbn; [tauto|done]].
    destruct (firmware_data st) as [[|x data]|]; [apply Hgo; cbn; [tauto|done]|
                                                 |apply Hgo; cbn; [tauto|done]].
    destruct (store_succeeds dir now st (x :: data) fs) as (text & -> & _).
    apply Hgo; cbn; [tauto|done].
  - cbn. split; [tauto|]. done.
Qed.

End HandlerFacts.

Section HandlerProperties.
Import Server Upload UploadFacts Stored HandlerFacts.

Context (FIRMWARE_DIR now : str).

Local Abbreviation do_POST := (Server.do_POST FIRMWARE_DIR now).
Local Abbreviation firmware_bin := (Server.firmware_bin FIRMWARE_DIR).
Local Abbreviation manifest_json := (Server.manifest_json FIRMWARE_DIR).

(** X11.  The answers of the handler.  A POST is answered with 200, 400,
    404 or 500, and with 404 exactly when its path is not [/upload]; a GET
    is answered with 200 exactly for [/health] and with 404 otherwise.
    Whatever the request, no file other than [firmware.bin] and
    [manifest.json] in the staging directory is touched. *)
Theorem handler_status_codes (req : request) (fs : filesystem) :
  let posted := code (reply (do_POST req fs)) in
  let got := code (do_GET req) in
  (posted = 200 ∨ posted = 400 ∨ posted = 404 ∨ posted = 500)
  ∧ (posted = 404 ↔ path req ≠ ustr "/upload")
  ∧ (got = 200 ∨ got = 404)
  ∧ (got = 200 ↔ path req = ustr "/health")
  ∧ (∀ p, p ≠ firmware_bin → p ≠ manifest_json →
          files (do_POST req fs) !! p = fs !! p).
Proof.
  cbn zeta.
  destruct (do_POST_codes FIRMWARE_DIR now req fs) as [Hcodes H404].
  split; [done|]. split; [done|]. split; [|split].
  - unfold do_GET. case_bool_decide; cbn; tauto.
  - unfold do_GET. case_bool_decide; cbn; split; done.
  - intros p Hp1 Hp2.
    destruct (decide (code (reply (do_POST req fs)) = 200)) as [H200|Hno].
    + destruct (do_POST_200 _ _ _ _ H200) as (st & x & data & text & _ & _ & _ & ->).
      cbn [files]. by rewrite !lookup_insert_ne.
    + by rewrite writes_only_on_200.
Qed.

(** X12.  Headers the handler cannot use end in a 500, with nothing
    written: a [Content-Length] that is no integer raises [ValueError], and
    after that a [Content-Type] without [boundary=] in it (or none at all)
    raises [IndexError]; the body is not looked at in either case. *)
Theorem malformed_headers_get_500 (req : request) (fs : filesystem) :
  path req = ustr "/upload" →
  (content_length req = LengthInvalid →
   do_POST req fs = Outcome fs (Response 500 (ErrorOf ValueError)) [LogErr ValueError])
  ∧ (content_length req ≠ LengthInvalid →
     contains (ustr "boundary=") (default [] (content_type req)) = false →
     do_POST req fs = Outcome fs (Response 500 (ErrorOf IndexError)) [LogErr IndexError]).
Proof.
  intros Hpath. unfold Server.do_POST. rewrite Hpath, bool_decide_eq_true_2 by done.
  cbn [negb]. unfold parse. split.
  - by intros ->.
  - intros Hlen Hnone. unfold boundary_of. rewrite split_not_found by done.
    destruct (content_length req); done.
Qed.

(** X13.  The handler reads [Content-Length] bytes and no more.  Without
    the header, or with a length of zero, nothing is read, and a request
    with a boundary is answered 400 whatever was sent as its body; and the
    bytes that follow the first [Content-Length] bytes play no part. *)
Theorem content_length_bounds_the_body (req : request) (fs : filesystem)
    (boundary : bytes) :
  path req = ustr "/upload" →
  boundary_of (default [] (content_type req)) = Ok boundary →
  (content_length req = LengthMissing ∨ content_length req = LengthInt 0 →
   do_POST req fs = Outcome fs no_firmware [])
  ∧ (∀ body extra,
       content_length req = LengthInt (Z.of_nat (length body)) →
       rfile req = body ++ extra →
       do_POST req fs
       = do_POST {| path := path req; content_type := content_type req;
                    content_length := content_length req; rfile := body |} fs).
Proof.
  intros Hpath Hboundary. split.
  - intros Hlen. unfold Server.do_POST. rewrite Hpath, bool_decide_eq_true_2 by done.
    cbn [negb]. unfold parse. rewrite Hboundary.
    assert (read 0 (rfile req) = []) as Hread by (unfold read; cbn; by rewrite take_0).
    destruct Hlen as [-> | ->]; cbn; rewrite ?Hread; reflexivity.
  - intros body extra Hlen Hrfile. unfold Server.do_POST. cbn [path].
    assert (parse req
            = parse {| path := path req; content_type := content_type req;
                       content_length := content_length req; rfile := body |}) as ->;
      [|done].
    unfold parse. cbn [content_type content_length rfile].
    rewrite Hlen, Hrfile. cbn. rewrite Hboundary. cbn.
    unfold read.
    assert ((Z.of_nat (length body) <? 0) = false) as -> by (apply Z.ltb_ge; lia).
    rewrite Nat2Z.id. by rewrite take_app_length, firstn_all.
Qed.

(** X14.  After every upload that is answered with 200 the staging
    directory is consistent: [firmware.bin] holds a non-empty image, and the
    manifest read back from [manifest.json] names [firmware.bin] and gives
    the MD5 digest and the size of exactly the stored bytes, which are also
    the digest and the size in the reply. *)
Theorem stored_manifest_describes_stored_firmware (req : request) (fs : filesystem) :
  scalar_text now →
  code (reply (do_POST req fs)) = 200 →
  ∃ data d,
    data ≠ []
    ∧ files (do_POST req fs) !! firmware_bin = Some data
    ∧ reply (do_POST req fs) = uploaded (MD5.hexdigest data) (length data)
    ∧ read_manifest (files (do_POST req fs)) manifest_json = Some d
    ∧ dict_get (ustr "file") d = Some (JStr (ustr "firmware.bin"))
    ∧ dict_get (ustr "md5") d = Some (JStr (MD5.hexdigest data))
    ∧ dict_get (ustr "size") d = Some (JInt (Z.of_nat (length data))).
Proof.
  intros Hnow H200.
  destruct (do_POST_200 _ _ _ _ H200) as (st & x & data & text & Hparse & Hfw & Hdec & ->).
  exists (x :: data), (manifest_dict (make_manifest now st (x :: data))).
  cbn [files reply]. split; [done|]. split.
  { rewrite lookup_insert_ne by (symmetry; apply firmware_bin_ne_manifest_json).
    apply lookup_insert_eq. }
  split; [done|]. split; [|repeat split].
  unfold read_manifest. rewrite lookup_insert_eq. cbn [mbind option_bind].
  rewrite Hdec. cbn [mbind option_bind].
  destruct (parse_tidy req st Hparse) as [_ Hform].
  assert (∀ field dflt, scalar_text dflt →
                        scalar_text (default dflt (form_data st !! field))) as Htext.
  { intros field dflt Hd. destruct (form_data st !! field) as [text'|] eqn:E; [|done].
    by apply (Hform field). }
  apply JsonRoundTrip.loads_dumps_indent, manifest_dict_scalar;
    cbn [make_manifest m_version m_file m_md5 m_board m_timestamp].
  - apply Htext. by apply Digest.ascii_scalar, Digest.ascii_text_check.
  - by apply Digest.ascii_scalar, Digest.ascii_text_check.
  - apply Digest.ascii_scalar, Digest.hexdigest_ascii.
  - apply Htext. by apply Digest.ascii_scalar, Digest.ascii_text_check.
  - apply Forall_app_2; [done|]. by apply Digest.ascii_scalar, Digest.ascii_text_check.
Qed.

(** X15.  What the server stores never ends in a carriage return, a line
    feed or a dash, and is never empty: after an upload answered with 200,
    [firmware.bin] holds the payload with every such byte taken off its
    end. *)
Theorem stored_firmware_is_stripped (req : request) (fs : filesystem) :
  code (reply (do_POST req fs)) = 200 →
  ∃ data, files (do_POST req fs) !! firmware_bin = Some data
          ∧ data ≠ []
          ∧ ∀ x, last data = Some x → x ≠ CR ∧ x ≠ LF ∧ x ≠ DASH.
Proof.
  intros H200.
  destruct (do_POST_200 _ _ _ _ H200) as (st & x & data & text & Hparse & Hfw & _ & ->).
  exists (x :: data). cbn [files]. split; [|split; [done|]].
  { rewrite lookup_insert_ne by (symmetry; apply firmware_bin_ne_manifest_json).
    apply lookup_insert_eq. }
  destruct (parse_tidy req st Hparse) as [Hstripped _].
  intros y Hy. pose proof (Hstripped _ Hfw y Hy) as Hno.
  unfold STRIP in Hno. rewrite !elem_of_cons, elem_of_nil in Hno. tauto.
Qed.

(** X16.  The server keeps no history.  The reply to a request does not
    depend on what is on disk, and an upload that is answered with 200
    leaves the disk as it would have left it without the request before:
    the one slot holds the last accepted upload and nothing of an earlier
    one. *)
Theorem uploads_do_not_accumulate (now' : str) (earlier req : request)
    (fs fs' : filesystem) :
  reply (do_POST req fs) = reply (do_POST req fs')
  ∧ printed (do_POST req fs) = printed (do_POST req fs')
  ∧ (code (reply (do_POST req fs)) = 200 →
     files (do_POST req (files (Server.do_POST FIRMWARE_DIR now' earlier fs)))
     = files (do_POST req fs)).
Proof.
  assert (∀ fs1 fs2, reply (do_POST req fs1) = reply (do_POST req fs2)
                     ∧ printed (do_POST req fs1) = printed (do_POST req fs2)) as Hsame.
  { intros fs1 fs2. unfold Server.do_POST. destruct (negb _); [done|].
    destruct (parse req) as [st|e]; [|done].
    destruct (firmware_data st) as [[|x data]|]; [done| |done].
    destruct (store_succeeds FIRMWARE_DIR now st (x :: data) fs1) as (t1 & -> & _).
    by destruct (store_succeeds FIRMWARE_DIR now st (x :: data) fs2) as (t2 & -> & _). }
  destruct (Hsame fs fs') as [Hreply Hprinted].
  split; [done|]. split; [done|]. intros H200.
  unfold Server.do_POST at 1 3. destruct (negb (bool_decide (path req = _))) eqn:Hpath.
  { unfold Server.do_POST in H200. rewrite Hpath in H200. discriminate. }
  destruct (do_POST_200 _ _ _ _ H200) as (st & x & data & text & -> & -> & _ & _).
  destruct (decide (code (reply (Server.do_POST FIRMWARE_DIR now' earlier fs)) = 200))
    as [Hfirst|Hfirst].
  - destruct (do_POST_200 _ _ _ _ Hfirst)
      as (st1 & x1 & data1 & text1 & _ & _ & _ & ->).
    cbn [files].
    pose proof (second_upload_replaces_first FIRMWARE_DIR now' now st1 st
                  (x1 :: data1) (x :: data) fs) as Hsecond.
    destruct (store_succeeds FIRMWARE_DIR now' st1 (x1 :: data1) fs)
      as (text1' & Hstore & _).
    rewrite Hstore in Hsecond. cbn [files] in Hsecond.
    unfold store in *.
    destruct (text_bytes_dumps 2 (manifest_dict (make_manifest now st (x :: data))))
      as (t & Ht & _).
    rewrite Ht in *. cbn [files] in *.
    apply map_eq. intros k. rewrite !lookup_insert. by repeat case_decide.
  - by rewrite writes_only_on_200.
Qed.

End HandlerProperties.

Section ConcreteRequests.
Import Server Upload Stored Runs Cases.

(** X12 at work: a JSON document posted to [/upload]. *)
Lemma malformed_headers_get_500_witness :
  do_POST staging_dir clock upload_as_json staged_before
  = Outcome staged_before (Response 500 (ErrorOf IndexError)) [LogErr IndexError].
Proof.
  apply (proj2 (malformed_headers_get_500 staging_dir clock upload_as_json
                  staged_before eq_refl)).
  - discriminate.
  - reflexivity.
Defined.

(** X13 at work: a complete form, sent without its length. *)
Lemma content_length_bounds_the_body_witness :
  do_POST staging_dir clock upload_without_length staged_before
  = Outcome staged_before no_firmware [].
Proof.
  apply (proj1 (content_length_bounds_the_body staging_dir clock upload_without_length
                  staged_before (bstr "XYZ") eq_refl ltac:(by vm_compute))).
  left. reflexivity.
Defined.

(** X14 at work: the image that ends in a line feed. *)
Lemma stored_manifest_describes_stored_firmware_witness :
  ∃ data d,
    data ≠ []
    ∧ files (do_POST staging_dir clock upload_with_newline ∅) !! firmware_bin staging_dir
      = Some data
    ∧ reply (do_POST staging_dir clock upload_with_newline ∅)
      = uploaded (MD5.hexdigest data) (length data)
    ∧ read_manifest (files (do_POST staging_dir clock upload_with_newline ∅))
                    (manifest_json staging_dir) = Some d
    ∧ dict_get (ustr "file") d = Some (JStr (ustr "firmware.bin"))
    ∧ dict_get (ustr "md5") d = Some (JStr (MD5.hexdigest data))
    ∧ dict_get (ustr "size") d = Some (JInt (Z.of_nat (length data))).
Proof.
  apply (stored_manifest_describes_stored_firmware staging_dir clock
           upload_with_newline ∅).
  - apply Digest.ascii_scalar, Digest.ascii_text_check. by vm_compute.
  - by vm_compute.
Defined.

(** X15 at work: the same upload. *)
Lemma stored_firmware_is_stripped_witness :
  ∃ data, files (do_POST staging_dir clock upload_with_newline ∅)
          !! firmware_bin staging_dir = Some data
          ∧ data ≠ []
          ∧ ∀ x, last data = Some x → x ≠ CR ∧ x ≠ LF ∧ x ≠ DASH.
Proof.
  apply (stored_firmware_is_stripped staging_dir clock upload_with_newline ∅).
  by vm_compute.
Defined.

(** X16 at work: two uploads in a row. *)
Lemma uploads_do_not_accumulate_witness :
  files (do_POST staging_dir later second_upload
           (files (do_POST staging_dir clock upload_with_newline staged_before)))
  = files (do_POST staging_dir later second_upload staged_before).
Proof.
  apply (proj2 (proj2 (uploads_do_not_accumulate staging_dir later clock
                         upload_with_newline second_upload staged_before ∅))).
  by vm_compute.
Defined.

End ConcreteRequests.

(* ===================================================================== *)
(** * From the client's form to the server's disk                         *)
(* ===================================================================== *)

Module FormFacts.
Import Server Upload UploadFacts Stored HandlerFacts Form.

(** ** [split] at known places *)

Lemma split_from_skip {A} `{EqDecision A} (sep cur hay : list A) skip :
  split_from sep skip cur hay = split_from sep 0 cur (drop skip hay).
Proof.
  revert skip. induction hay as [|x hay IH]; intros [|skip]; try reflexivity.
  cbn [split_from drop]. apply IH.
Qed.

(** A piece that is followed by the separator, and in which the separator
    does not occur, is cut off as it is. *)
Lemma split_from_piece {A} `{EqDecision A} (sep cur p rest : list A) :
  sep ≠ [] →
  find sep (p ++ sep) = Some (length p) →
  split_from sep 0 cur (p ++ sep ++ rest)
  = (rev cur ++ p) :: split_from sep 0 [] rest.
Proof.
  intros Hsep. revert cur. induction p as [|y p IH]; intros cur Hfind.
  - destruct sep as [|x sep]; [done|]. cbn [app split_from].
    change (x :: sep ++ rest) with ((x :: sep) ++ rest).
    rewrite VersionFacts.starts_with_app. rewrite app_nil_r.
    rewrite split_from_skip.
    replace (length (x :: sep) - 1)%nat with (length sep) by (cbn [length]; lia).
    by rewrite drop_app_length.
  - cbn [app find length] in Hfind.
    destruct (starts_with sep (y :: p ++ sep)) eqn:Hhere; [done|].
    destruct (find sep (p ++ sep)) as [i|] eqn:Hi; [|done].
    injection Hfind as ->.
    cbn [app split_from].
    assert (starts_with sep (y :: p ++ sep ++ rest) = false) as ->.
    { change (y :: p ++ sep ++ rest) with ((y :: p) ++ sep ++ rest).
      rewrite app_assoc, starts_with_app_l; [done|].
      rewrite length_app. lia. }
    rewrite IH by done. cbn [rev]. by rewrite <- app_assoc.
Qed.

Lemma split_pieces {A} `{EqDecision A} (sep : list A) (ps : list (list A)) last :
  sep ≠ [] →
  Forall (λ p, find sep (p ++ sep) = Some (length p)) ps →
  find sep last = None →
  split sep (concat (map (λ p, p ++ sep) ps) ++ last) = ps ++ [last].
Proof.
  intros Hsep Hps Hlast. unfold split. induction Hps as [|p ps Hp _ IH].
  - cbn [map concat app]. by rewrite split_from_not_found.
  - cbn [map concat]. rewrite <- !app_assoc.
    rewrite split_from_piece by done. cbn [rev app]. by rewrite IH.
Qed.

(** ** Where a needle cannot be *)

Lemma starts_with_elem {A} `{EqDecision A} (needle hay : list A) x :
  starts_with needle hay = true → x ∈ needle → x ∈ hay.
Proof.
  revert hay. induction needle as [|y needle IH]; intros [|h hay] Hs Hx;
    cbn in Hs; try done.
  - by apply elem_of_nil in Hx.
  - apply andb_true_iff in Hs as [Hy%bool_decide_eq_true Hs]. subst h.
    apply elem_of_cons in Hx as [->|Hx]; [apply list_elem_of_here|].
    apply list_elem_of_further. by apply IH.
Qed.

(** A needle that ends in [q] does not reach into a tail without [q]. *)
Lemma starts_with_absent {A} `{EqDecision A} (needle hay tail : list A) q :
  last needle = Some q → q ∉ tail →
  starts_with needle (hay ++ tail) = starts_with needle hay.
Proof.
  intros Hq Htail. revert needle Hq. induction hay as [|h hay IH]; intros needle Hq.
  - cbn [app]. destruct needle as [|x needle]; [done|].
    change (starts_with (x :: needle) []) with false.
    apply not_true_is_false. intros Hs. apply Htail.
    eapply starts_with_elem; [exact Hs|]. apply last_Some in Hq as [l' ->].
    apply elem_of_app. right. apply list_elem_of_here.
  - destruct needle as [|x needle]; [done|]. cbn [app starts_with].
    destruct needle as [|x' needle]; [done|].
    rewrite IH; [done|]. exact Hq.
Qed.

Lemma find_absent {A} `{EqDecision A} (needle hay tail : list A) q :
  last needle = Some q → q ∉ tail →
  find needle (hay ++ tail) = find needle hay.
Proof.
  intros Hq Htail. induction hay as [|h hay IH].
  - cbn [app]. assert (starts_with needle [] = false) as Hnil.
    { destruct needle; [done|reflexivity]. }
    cbn [find]. rewrite Hnil.
    assert (∀ t, q ∉ t → find needle t = None) as Hnone; [|by apply Hnone].
    induction t as [|y t IHt]; intros Ht.
    + cbn [find]. by rewrite Hnil.
    + cbn [find].
      assert (starts_with needle (y :: t) = false) as ->.
      { apply not_true_is_false. intros Hs. apply Ht.
        eapply starts_with_elem; [exact Hs|]. apply last_Some in Hq as [l' ->].
        apply elem_of_app. right. apply list_elem_of_here. }
      rewrite IHt; [done|]. intros Hin. apply Ht. by apply list_elem_of_further.
  - cbn [app find].
    change (h :: hay ++ tail) with ((h :: hay) ++ tail).
    rewrite (starts_with_absent needle (h :: hay) tail q) by done.
    by rewrite IH.
Qed.

Lemma contains_absent {A} `{EqDecision A} (needle hay tail : list A) q :
  last needle = Some q → q ∉ tail →
  contains needle (hay ++ tail) = contains needle hay.
Proof. intros Hq Htail. unfold contains. by erewrite find_absent. Qed.

(** ** The pieces of the client's form, one by one *)

Lemma unquoted_tail value : unquoted value → QUOTE ∉ value ++ CRLF.
Proof.
  unfold unquoted. intros Hv [Hin|Hin]%elem_of_app; [done|].
  unfold CRLF in Hin. rewrite !elem_of_cons, elem_of_nil in Hin.
  destruct Hin as [Hin|[Hin|[]]]; discriminate Hin.
Qed.

(** The tags of a text piece are those of its header line. *)
Lemma text_piece_tag name value field :
  unquoted value →
  contains (name_tag field) (text_piece name value)
  = contains (name_tag field) (CRLF ++ disposition name ++ CRLF ++ CRLF).
Proof.
  intros Hv. unfold text_piece.
  replace (CRLF ++ disposition name ++ CRLF ++ CRLF ++ value ++ CRLF)
    with ((CRLF ++ disposition name ++ CRLF ++ CRLF) ++ value ++ CRLF)
    by (by rewrite <- !app_assoc).
  apply (contains_absent _ _ _ QUOTE); [|by apply unquoted_tail].
  unfold name_tag. rewrite !app_assoc. apply last_snoc.
Qed.

(** The payload of a text piece whose name has no line break in it. *)
Lemma text_piece_payload name value idx :
  find (CRLF ++ CRLF) (CRLF ++ disposition name ++ CRLF ++ CRLF) = Some (S idx) →
  length (CRLF ++ disposition name ++ CRLF ++ CRLF) = (S idx + 4)%nat →
  part_payload (text_piece name value) = Some (rstrip STRIP value).
Proof.
  intros Hfind Hlen. unfold part_payload, text_piece.
  replace (CRLF ++ disposition name ++ CRLF ++ CRLF ++ value ++ CRLF)
    with ((CRLF ++ disposition name ++ CRLF ++ CRLF) ++ value ++ CRLF)
    by (by rewrite <- !app_assoc).
  rewrite (find_app _ _ _ _ Hfind). cbn [Nat.ltb Nat.leb].
  rewrite drop_app_length' by done.
  f_equal. apply rstrip_app_stripped. unfold STRIP, CRLF.
  repeat constructor; rewrite !elem_of_cons; tauto.
Qed.

(** A piece that is neither the firmware nor one of the two text fields
    leaves the state of the scan as it is. *)
Lemma scan_part_other st part :
  contains (name_tag "firmware") part = false →
  contains (name_tag "version") part = false →
  contains (name_tag "board") part = false →
  scan_part st part = Ok st.
Proof.
  intros Hf Hv Hb. unfold scan_part, scan_field. by rewrite Hf, Hv, Hb.
Qed.

Lemma scan_part_text st name value text :
  name = "version" ∨ name = "board" →
  unquoted value →
  UTF8.decode (rstrip STRIP value) = Some text →
  scan_part st (text_piece name value)
  = Ok (Parsed (firmware_data st) (<[name := text]> (form_data st))).
Proof.
  intros Hname Hv Hdec. unfold scan_part, scan_field.
  rewrite !(text_piece_tag name value) by done.
  destruct Hname as [-> | ->].
  - assert (part_payload (text_piece "version" value) = Some (rstrip STRIP value))
      as Hp by (by apply (text_piece_payload "version" value 47)).
    change (contains (name_tag "firmware") _) with false.
    change (contains (name_tag "version") _) with true.
    change (contains (name_tag "board") _) with false.
    cbn iota. rewrite Hp, Hdec. reflexivity.
  - assert (part_payload (text_piece "board" value) = Some (rstrip STRIP value))
      as Hp by (by apply (text_piece_payload "board" value 45)).
    change (contains (name_tag "firmware") _) with false.
    change (contains (name_tag "version") _) with false.
    change (contains (name_tag "board") _) with true.
    cbn iota. cbn [mbind result_bind]. rewrite Hp, Hdec. reflexivity.
Qed.

Lemma scan_part_ignored st name value :
  name = "md5" ∨ name = "size" →
  unquoted value →
  scan_part st (text_piece name value) = Ok st.
Proof.
  intros Hname Hv. apply scan_part_other; rewrite text_piece_tag by done;
    by destruct Hname as [-> | ->].
Qed.

Lemma scan_part_firmware st data :
  scan_part st (file_piece "firmware" "firmware.bin" data)
  = Ok (Parsed (Some (rstrip STRIP data)) (form_data st)).
Proof.
  destruct (firmware_piece_payload data) as [Htag Hp].
  unfold scan_part. by rewrite Htag, Hp.
Qed.

(** Where [find] finds the needle, it is. *)
Lemma find_Some_starts {A} `{EqDecision A} (needle hay : list A) i :
  find needle hay = Some i → starts_with needle (drop i hay) = true.
Proof.
  revert i. induction hay as [|y hay IH]; intros i; cbn [find].
  - destruct (starts_with needle []) eqn:E; [|done]. by intros [= <-].
  - destruct (starts_with needle (y :: hay)) eqn:E; [by intros [= <-]|].
    destruct (find needle hay) as [j|]; [|done]. intros [= <-]. by apply IH.
Qed.

Lemma concat_shift {A} (s : list A) (ps : list (list A)) (rest : list A) :
  concat (map (λ p, s ++ p) ps) ++ s ++ rest
  = s ++ concat (map (λ p, p ++ s) ps) ++ rest.
Proof.
  induction ps as [|p ps IH]; [done|]. cbn [map concat].
  rewrite <- !app_assoc. by rewrite IH.
Qed.

(** The body of the client's form, cut at the separators. *)
Lemma multipart_split boundary fields data :
  plain_boundary boundary →
  Forall (delimited boundary) (pieces fields data) →
  split (separator boundary) (multipart boundary fields (Some data))
  = [] :: pieces fields data ++ [bstr "--" ++ CRLF].
Proof.
  intros Hplain Hpieces.
  assert (multipart boundary fields (Some data)
          = concat (map (λ p, p ++ separator boundary) ([] :: pieces fields data))
            ++ (bstr "--" ++ CRLF)) as ->.
  { unfold multipart, pieces, file_part, closing.
    rewrite (map_ext (λ kv, text_part boundary kv.1 kv.2)
               (λ kv, separator boundary ++ text_piece kv.1 kv.2))
      by (intros kv; unfold text_part, separator; by rewrite <- app_assoc).
    rewrite <- (map_map (λ kv, text_piece kv.1 kv.2) (λ p, separator boundary ++ p)).
    cbn [map concat]. rewrite map_app, concat_app. cbn [map concat app].
    rewrite app_nil_r.
    replace (bstr "--" ++ boundary ++ file_piece "firmware" "firmware.bin" data)
      with (separator boundary ++ file_piece "firmware" "firmware.bin" data)
      by (unfold separator; by rewrite <- app_assoc).
    replace (bstr "--" ++ boundary ++ bstr "--" ++ CRLF)
      with (separator boundary ++ bstr "--" ++ CRLF)
      by (unfold separator; by rewrite <- app_assoc).
    rewrite <- !app_assoc.
    exact (concat_shift (separator boundary) _ _). }
  change ([] :: pieces fields data ++ [bstr "--" ++ CRLF])
    with (([] :: pieces fields data) ++ [bstr "--" ++ CRLF]).
  apply split_pieces.
  - by destruct boundary.
  - constructor; [|exact Hpieces]. cbn [app length].
    apply VersionFacts.find_starts_with.
    pose proof (VersionFacts.starts_with_app (separator boundary) []) as Hs.
    by rewrite app_nil_r in Hs.
  - destruct boundary as [|b0 boundary]; [done|]. cbn in Hplain.
    unfold separator.
    destruct (find (bstr "--" ++ b0 :: boundary) (bstr "--" ++ CRLF)) as [i|] eqn:E;
      [|done].
    exfalso. pose proof (find_bound _ _ _ E) as Hb.
    rewrite !length_app in Hb. cbn [length bstr list_byte_of_string CRLF] in Hb.
    apply find_Some_starts in E.
    assert (i = 0 ∨ i = 1)%nat as [-> | ->] by lia; cbn in E.
    + rewrite !andb_true_iff in E.
      destruct E as (_ & _ & Hcr%bool_decide_eq_true & _). by apply Hplain.
    + rewrite !andb_true_iff in E.
      destruct E as (_ & Hcr%bool_decide_eq_true & _). discriminate Hcr.
Qed.

End FormFacts.

Section FormProperties.
Import Server Upload UploadFacts Stored HandlerFacts Form FormFacts.

Context (FIRMWARE_DIR now : str).

Local Abbreviation do_POST := (Server.do_POST FIRMWARE_DIR now).
Local Abbreviation firmware_bin := (Server.firmware_bin FIRMWARE_DIR).
Local Abbreviation manifest_json := (Server.manifest_json FIRMWARE_DIR).

(** X17.  The client's form, as the server reads it.  Take a POST to
    [/upload] whose body is the multipart encoding of the fields [version],
    [md5], [size] and [board] and of the file [firmware], with a boundary
    that occurs in none of the parts and values without a double quote.
    The server stores the firmware with its trailing carriage returns, line
    feeds and dashes taken off, under the version and the board that were
    sent (their text, stripped in the same way), with the digest and the
    size of what it stored; the [md5] and [size] fields of the form are not
    looked at.  So a firmware that does not end in one of these three bytes
    is stored as it was sent, and one that consists of them only is refused
    with 400. *)
Theorem client_form_is_stored (req : request) (fs : filesystem)
    (boundary version md5 size board data : bytes) (ver brd : str) :
  path req = ustr "/upload" →
  boundary_of (default [] (content_type req)) = Ok boundary →
  rfile req = multipart boundary (client_fields version md5 size board) (Some data) →
  content_length req = LengthInt (Z.of_nat (length (rfile req))) →
  plain_boundary boundary →
  Forall (delimited boundary) (pieces (client_fields version md5 size board) data) →
  Forall unquoted [version; md5; size; board] →
  UTF8.decode (rstrip STRIP version) = Some ver →
  UTF8.decode (rstrip STRIP board) = Some brd →
  let stored := rstrip STRIP data in
  let m := {| m_version := ver; m_file := ustr "firmware.bin";
              m_md5 := MD5.hexdigest stored; m_size := Z.of_nat (length stored);
              m_board := brd; m_timestamp := now ++ ustr "Z" |} in
  (stored ≠ [] →
   reply (do_POST req fs) = uploaded (MD5.hexdigest stored) (length stored)
   ∧ files (do_POST req fs) !! firmware_bin = Some stored
   ∧ ∃ text, files (do_POST req fs) !! manifest_json = Some text
             ∧ UTF8.decode text = Some (Json.dumps_indent 2 (manifest_dict m)))
  ∧ (stored = [] → do_POST req fs = Outcome fs no_firmware [])
  ∧ ((∀ x, last data = Some x → x ≠ CR ∧ x ≠ LF ∧ x ≠ DASH) → stored = data).
Proof.
  intros Hpath Hboundary Hrfile Hlen Hplain Hpieces Hquotes Hver Hbrd. cbv zeta.
  apply Forall_cons in Hquotes as [Hq1 Hquotes].
  apply Forall_cons in Hquotes as [Hq2 Hquotes].
  apply Forall_cons in Hquotes as [Hq3 Hquotes].
  apply Forall_cons in Hquotes as [Hq4 _].
  assert (parse req = Ok (scanned ver brd (rstrip STRIP data))) as Hparse.
  { unfold parse. rewrite Hlen, Hboundary. cbn [mbind result_bind].
    assert (read (Z.of_nat (length (rfile req))) (rfile req) = rfile req) as ->.
    { unfold read.
      assert ((Z.of_nat (length (rfile req)) <? 0) = false) as ->
        by (apply Z.ltb_ge; lia).
      by rewrite Nat2Z.id, firstn_all. }
    rewrite Hrfile. fold (separator boundary).
    rewrite multipart_split by done.
    unfold pieces, client_fields. cbn [map app fst snd scan_parts].
    rewrite scan_part_other by reflexivity. cbn [mbind result_bind].
    rewrite (scan_part_text _ "version" version ver) by (done || by left).
    cbn [mbind result_bind].
    rewrite (scan_part_ignored _ "md5") by (done || by left).
    cbn [mbind result_bind].
    rewrite (scan_part_ignored _ "size") by (done || by right).
    cbn [mbind result_bind].
    rewrite (scan_part_text _ "board" board brd) by (done || by right).
    cbn [mbind result_bind].
    rewrite scan_part_firmware. cbn [mbind result_bind].
    rewrite scan_part_other by reflexivity. reflexivity. }
  split; [|split].
  - intros Hne. unfold Server.do_POST.
    rewrite Hpath, bool_decide_eq_true_2 by done. cbn [negb].
    rewrite Hparse.
    change (firmware_data (scanned ver brd (rstrip STRIP data)))
      with (Some (rstrip STRIP data)).
    destruct (rstrip STRIP data) as [|x stored] eqn:Hstored; [done|]. cbn iota.
    destruct (store_succeeds FIRMWARE_DIR now (scanned ver brd (x :: stored))
                (x :: stored) fs) as (text & -> & Hdec).
    cbn [reply files]. split; [done|]. split.
    + rewrite lookup_insert_ne by (symmetry; apply firmware_bin_ne_manifest_json).
      apply lookup_insert_eq.
    + exists text. split; [apply lookup_insert_eq|]. exact Hdec.
  - intros Hnil. unfold Server.do_POST.
    rewrite Hpath, bool_decide_eq_true_2 by done. cbn [negb].
    rewrite Hparse.
    change (firmware_data (scanned ver brd (rstrip STRIP data)))
      with (Some (rstrip STRIP data)).
    by rewrite Hnil.
  - intros Hlast. apply (proj2 (rstrip_id_iff STRIP data)). intros x Hx.
    destruct (Hlast x Hx) as (? & ? & ?). unfold STRIP.
    rewrite !elem_of_cons, elem_of_nil. tauto.
Qed.

End FormProperties.

Section ConcreteForms.
Import Server Upload Stored Form Runs Forms.

(** X17 at work: the image of the build, sent as the client sends it. *)
Lemma client_form_is_stored_witness :
  reply (do_POST staging_dir clock image_upload ∅)
  = uploaded (MD5.hexdigest firmware) (length firmware)
  ∧ files (do_POST staging_dir clock image_upload ∅) !! firmware_bin staging_dir
    = Some firmware.
Proof.
  pose proof (client_form_is_stored staging_dir clock image_upload ∅
                (bstr "XYZ") (bstr "1.2.3") (bstr "dc6f9e808a395298c3b395c9b972586f")
                (bstr "14") (bstr "esp32dev") firmware
                (ustr "1.2.3") (ustr "esp32dev")) as Hform.
  cbv zeta in Hform.
  destruct Hform as (Hstored & _ & _).
  - reflexivity.
  - by vm_compute.
  - reflexivity.
  - reflexivity.
  - intros [=].
  - unfold pieces, client_fields. cbn [map app].
    repeat first [apply Forall_nil_2 | apply Forall_cons_2]; by vm_compute.
  - repeat first [apply Forall_nil_2 | apply Forall_cons_2];
      intros Hin; vm_compute in Hin;
      repeat (apply elem_of_cons in Hin as [Hin|Hin]; [discriminate Hin|]);
      by apply elem_of_nil in Hin.
  - by vm_compute.
  - by vm_compute.
  - assert (rstrip STRIP firmware = firmware) as Hid by (by vm_compute).
    rewrite Hid in Hstored.
    destruct Hstored as (Hreply & Hfile & _); [discriminate|]. by split.
Defined.

End ConcreteForms.

(* ===================================================================== *)
(** * More on the two programs: probes, log lines, defaults               *)
(* ===================================================================== *)

Module MoreFacts.
Import Server Upload UploadFacts Stored HandlerFacts.

(** A part without the tag of a field leaves that field as it is. *)
Lemma scan_field_other part field other st st' :
  field ≠ other →
  scan_field part field st = Ok st' →
  form_data st' !! other = form_data st !! other.
Proof.
  intros Hne. unfold scan_field.
  destruct (contains _ part); [|by intros [= <-]].
  destruct (part_payload part); [|by intros [= <-]].
  destruct (UTF8.decode _); [|done]. intros [= <-]. cbn [form_data].
  by rewrite lookup_insert_ne.
Qed.

Lemma scan_field_untagged part field st st' :
  contains (name_tag field) part = false →
  scan_field part field st = Ok st' → st' = st.
Proof. intros Hno. unfold scan_field. rewrite Hno. by intros [= <-]. Qed.

Lemma scan_part_untagged st part st' field :
  field = "version" ∨ field = "board" →
  contains (name_tag field) part = false →
  scan_part st part = Ok st' →
  form_data st' !! field = form_data st !! field.
Proof.
  intros Hfield Hno. unfold scan_part.
  destruct (contains (name_tag "firmware") part).
  { destruct (part_payload part); by intros [= <-]. }
  destruct (scan_field part "version" st) as [st1|] eqn:H1; [|done].
  cbn [mbind result_bind]. intros H2.
  destruct Hfield as [-> | ->].
  - apply scan_field_untagged in H1 as ->; [|done].
    by apply (scan_field_other part "board" "version" st st').
  - apply scan_field_untagged in H2 as ->; [|done].
    by apply (scan_field_other part "version" "board" st st1).
Qed.

Lemma scan_parts_untagged parts st st' field :
  field = "version" ∨ field = "board" →
  Forall (λ part, contains (name_tag field) part = false) parts →
  scan_parts parts st = Ok st' →
  form_data st' !! field = form_data st !! field.
Proof.
  intros Hfield Hparts. revert st.
  induction Hparts as [|part parts Hpart _ IH]; intros st; cbn [scan_parts].
  - by intros [= <-].
  - destruct (scan_part st part) as [st1|] eqn:H1; [|done]. cbn [mbind result_bind].
    intros H2. rewrite (IH st1 H2). by eapply scan_part_untagged.
Qed.

End MoreFacts.

Section MoreProperties.
Import Client UploadLoop LoopFacts Server Upload UploadFacts Stored HandlerFacts MoreFacts.

(** X18.  The two connection tests are for the log only.  Whether the
    socket probe and the health check succeed or fail, the upload goes on:
    the result of [post_firmware_to_server], its POSTs and everything else
    that follows the tests are the same. *)
Theorem probes_are_informational (net : network) (fs : filesystem)
    (firmware_path : str) (m : manifest) (server_url : str)
    (probe : probe_result) (health : option Z) :
  HAS_REQUESTS net = true →
  let net' := {| HAS_REQUESTS := true; socket_probe := probe;
                 health_status := health; post := post net |} in
  ∃ ok rest,
    post_firmware_to_server net fs firmware_path m server_url
    = (ok, [Print (LogUploading server_url); Print LogPython]
           ++ test_connection net server_url ++ rest)
    ∧ post_firmware_to_server net' fs firmware_path m server_url
      = (ok, [Print (LogUploading server_url); Print LogPython]
             ++ test_connection net' server_url ++ rest).
Proof.
  intros Hreq net'.
  assert (∀ attempts, upload_loop net' fs firmware_path m server_url attempts
                      = upload_loop net fs firmware_path m server_url attempts) as Hloop.
  { induction attempts as [|k attempts IH]; [done|].
    cbn [upload_loop]. rewrite IH. reflexivity. }
  unfold post_firmware_to_server. rewrite Hreq. cbn [negb HAS_REQUESTS net'].
  rewrite Hloop. unfold after. cbn [fst snd].
  destruct (upload_loop net fs firmware_path m server_url (seq 1 max_retries))
    as [ok rest].
  exists ok, rest. cbn [fst snd]. by rewrite <- !app_assoc.
Qed.

Context (FIRMWARE_DIR now : str).

Local Abbreviation do_POST := (Server.do_POST FIRMWARE_DIR now).
Local Abbreviation firmware_bin := (Server.firmware_bin FIRMWARE_DIR).
Local Abbreviation manifest_json := (Server.manifest_json FIRMWARE_DIR).

(** X19.  What the server prints goes with what it answers: an [OK] line
    with the size of the stored firmware exactly for a reply with status
    200, an [ERR] line with the exception, which is also the error of the
    reply, exactly for status 500, and nothing for 400 and 404. *)
Theorem handler_log_matches_reply (req : request) (fs : filesystem) :
  let out := do_POST req fs in
  (code (reply out) = 200 ↔
   ∃ version data, files out !! firmware_bin = Some data
                   ∧ printed out = [LogOk version (length data)])
  ∧ (code (reply out) = 500 ↔
     ∃ e, reply out = Response 500 (ErrorOf e) ∧ printed out = [LogErr e])
  ∧ (code (reply out) = 400 ∨ code (reply out) = 404 ↔ printed out = []).
Proof.
  cbn zeta.
  destruct (decide (code (reply (do_POST req fs)) = 200)) as [H200|Hno].
  { destruct (do_POST_200 _ _ _ _ H200) as (st & x & data & text & _ & _ & _ & Hout).
    rewrite Hout. cbn [files reply printed code uploaded]. split; [|split].
    - split; [|done]. intros _. eexists _, (x :: data). split; [|reflexivity].
      rewrite lookup_insert_ne by (symmetry; apply firmware_bin_ne_manifest_json).
      apply lookup_insert_eq.
    - split; [done|]. by intros (e & [=] & _).
    - split; [by intros [|]|done]. }
  revert Hno. unfold Server.do_POST. destruct (negb _).
  { cbn. intros _. split; [|split].
    - split; [done|]. by intros (? & ? & _ & [=]).
    - split; [done|]. by intros (? & _ & [=]).
    - split; [done|]. intros _. by right. }
  destruct (parse req) as [st|e].
  2:{ cbn. intros _. split; [|split].
      - split; [done|]. by intros (? & ? & _ & [=]).
      - split; [|done]. intros _. by exists e.
      - split; [by intros [|]|done]. }
  assert (code (reply (Outcome fs no_firmware [])) ≠ 200 →
          (code (reply (Outcome fs no_firmware [])) = 200 ↔
           ∃ version data, files (Outcome fs no_firmware []) !! firmware_bin = Some data
                           ∧ printed (Outcome fs no_firmware [])
                             = [LogOk version (length data)])
          ∧ (code (reply (Outcome fs no_firmware [])) = 500 ↔
             ∃ e, reply (Outcome fs no_firmware []) = Response 500 (ErrorOf e)
                  ∧ printed (Outcome fs no_firmware []) = [LogErr e])
          ∧ (code (reply (Outcome fs no_firmware [])) = 400
             ∨ code (reply (Outcome fs no_firmware [])) = 404
             ↔ printed (Outcome fs no_firmware []) = [])) as Hnone.
  { cbn. intros _. split; [|split].
    - split; [done|]. by intros (? & ? & _ & [=]).
    - split; [done|]. by intros (? & [=] & _).
    - split; [done|]. intros _. by left. }
  destruct (firmware_data st) as [[|x data]|]; [exact Hnone| |exact Hnone].
  destruct (store_succeeds FIRMWARE_DIR now st (x :: data) fs) as (text & -> & _).
  cbn. done.
Qed.

(** X20.  A form that comes without a [version] part is stored under the
    version [0.0.0], and one without a [board] part under the board
    [unknown]: after an upload answered with 200 whose body has no part
    with the field's name, the manifest read back from [manifest.json] has
    the default. *)
Theorem missing_fields_get_defaults (req : request) (fs : filesystem)
    (boundary : bytes) :
  scalar_text now →
  boundary_of (default [] (content_type req)) = Ok boundary →
  code (reply (do_POST req fs)) = 200 →
  ∃ d, read_manifest (files (do_POST req fs)) manifest_json = Some d
       ∧ (Forall (λ part, contains (name_tag "version") part = false)
                 (body_parts req boundary) →
          dict_get (ustr "version") d = Some (JStr (ustr "0.0.0")))
       ∧ (Forall (λ part, contains (name_tag "board") part = false)
                 (body_parts req boundary) →
          dict_get (ustr "board") d = Some (JStr (ustr "unknown"))).
Proof.
  intros Hnow Hboundary H200.
  destruct (do_POST_200 _ _ _ _ H200) as (st & x & data & text & Hparse & Hfw & Hdec & ->).
  exists (manifest_dict (make_manifest now st (x :: data))). cbn [files].
  assert (scan_parts (body_parts req boundary) (Parsed None ∅) = Ok st) as Hscan.
  { revert Hparse. unfold parse, body_parts. rewrite Hboundary.
    by destruct (content_length req). }
  split; [|split].
  - unfold read_manifest. rewrite lookup_insert_eq. cbn [mbind option_bind].
    rewrite Hdec. cbn [mbind option_bind].
    destruct (parse_tidy req st Hparse) as [_ Hform].
    assert (∀ field dflt, scalar_text dflt →
                          scalar_text (default dflt (form_data st !! field))) as Htext.
    { intros field dflt Hd. destruct (form_data st !! field) as [t|] eqn:E; [|done].
      by apply (Hform field). }
    apply JsonRoundTrip.loads_dumps_indent, manifest_dict_scalar;
      cbn [make_manifest m_version m_file m_md5 m_board m_timestamp].
    + apply Htext. by apply Digest.ascii_scalar, Digest.ascii_text_check.
    + by apply Digest.ascii_scalar, Digest.ascii_text_check.
    + apply Digest.ascii_scalar, Digest.hexdigest_ascii.
    + apply Htext. by apply Digest.ascii_scalar, Digest.ascii_text_check.
    + apply Forall_app_2; [done|]. by apply Digest.ascii_scalar, Digest.ascii_text_check.
  - intros Hnone.
    pose proof (scan_parts_untagged _ _ _ "version" (or_introl eq_refl) Hnone Hscan)
      as Hfield.
    cbn [form_data] in Hfield. rewrite lookup_empty in Hfield.
    unfold manifest_dict, make_manifest. cbn [m_version]. by rewrite Hfield.
  - intros Hnone.
    pose proof (scan_parts_untagged _ _ _ "board" (or_intror eq_refl) Hnone Hscan)
      as Hfield.
    cbn [form_data] in Hfield. rewrite lookup_empty in Hfield.
    unfold manifest_dict, make_manifest. cbn [m_board]. by rewrite Hfield.
Qed.

End MoreProperties.

Section ConcreteMore.
Import Client UploadLoop Server Upload Runs Cases Forms.

(** X18 at work: the network that times out twice, with both tests
    failing. *)
Lemma probes_are_informational_witness :
  ∃ ok rest,
    post_firmware_to_server flaky disk built staged project_url
    = (ok, [Print (LogUploading project_url); Print LogPython]
           ++ test_connection flaky project_url ++ rest)
    ∧ post_firmware_to_server
        {| HAS_REQUESTS := true; socket_probe := Refused; health_status := None;
           post := post flaky |} disk built staged project_url
      = (ok, [Print (LogUploading project_url); Print LogPython]
             ++ test_connection
                  {| HAS_REQUESTS := true; socket_probe := Refused;
                     health_status := None; post := post flaky |} project_url
             ++ rest).
Proof.
  apply (probes_are_informational flaky disk built staged project_url Refused None).
  reflexivity.
Defined.

(** X20 at work: the image posted alone. *)
Lemma missing_fields_get_defaults_witness :
  ∃ d, read_manifest (files (do_POST staging_dir clock bare_upload ∅))
                     (manifest_json staging_dir) = Some d
       ∧ (Forall (λ part, contains (name_tag "version") part = false)
                 (body_parts bare_upload (bstr "XYZ")) →
          dict_get (ustr "version") d = Some (JStr (ustr "0.0.0")))
       ∧ (Forall (λ part, contains (name_tag "board") part = false)
                 (body_parts bare_upload (bstr "XYZ")) →
          dict_get (ustr "board") d = Some (JStr (ustr "unknown"))).
Proof.
  apply (missing_fields_get_defaults staging_dir clock bare_upload ∅ (bstr "XYZ")).
  - apply Digest.ascii_scalar, Digest.ascii_text_check. by vm_compute.
  - by vm_compute.
  - by vm_compute.
Defined.

End ConcreteMore.

(* ===================================================================== *)
(** * The reply on the wire                                               *)
(* ===================================================================== *)

Module ReplyFacts.
Import Json JsonText JsonFacts JsonRoundTrip.
Local Open Scope N_scope.

Lemma dump_members_flat_ascii d : ascii_text (dump_members_flat d).
Proof.
  induction d as [|kv [|kv' d] IH]; [constructor | |].
  - cbn [dump_members_flat]. unfold SPACE.
    repeat (apply dump_str_ascii || apply dump_val_ascii
            || apply Forall_app_2 || apply Forall_cons_2 || apply Forall_nil_2); lia.
  - change (ascii_text (dump_str kv.1 ++ [58; SPACE] ++ dump_val kv.2 ++ [44; SPACE]
                        ++ dump_members_flat (kv' :: d))).
    unfold SPACE.
    repeat (apply dump_str_ascii || apply dump_val_ascii || apply IH
            || apply Forall_app_2 || apply Forall_cons_2 || apply Forall_nil_2); lia.
Qed.

Lemma dumps_ascii d : ascii_text (dumps d).
Proof.
  unfold dumps.
  repeat (apply dump_members_flat_ascii || apply Forall_app_2
          || apply Forall_cons_2 || apply Forall_nil_2); lia.
Qed.

(** One member of a flat document, read back. *)
Lemma scan_member_flat fuel kv tail :
  scalar_text kv.1 →
  (∀ s, kv.2 = JStr s → scalar_text s) →
  no_digit_ahead tail →
  scan_members (S fuel) (dump_str kv.1 ++ [58; SPACE] ++ dump_val kv.2 ++ tail)
  = after_member fuel kv tail.
Proof.
  destruct kv as [k v]. cbn [fst snd]. intros Hk Hv Htail.
  unfold dump_str. rewrite <- !app_assoc. cbn [app].
  cbn [scan_members]. change (DQUOTE =? 34) with true. cbn iota.
  rewrite scanstring_escape by done. cbn [mbind option_bind].
  rewrite skip_ws_stops by done. change (58 =? 58) with true. cbn iota.
  cbn [skip_ws]. change (is_ws SPACE) with true. cbn iota.
  destruct (dump_val_head v) as (c & s & E & Hc).
  rewrite E. cbn [app]. rewrite skip_ws_stops by done.
  change (c :: s ++ tail) with ((c :: s) ++ tail). rewrite <- E.
  rewrite scan_value_dump by done. reflexivity.
Qed.

Lemma scan_members_flat d rest fuel :
  d ≠ [] → scalar_dict d → (length d ≤ fuel)%nat →
  scan_members fuel (dump_members_flat d ++ 125 :: rest) = Some (d, rest).
Proof.
  revert fuel. induction d as [|kv d IH]; intros fuel Hne Hd Hfuel; [done|].
  apply Forall_cons in Hd as [[Hk Hv] Hd].
  destruct fuel as [|fuel]; [cbn in Hfuel; lia|]. cbn [length] in Hfuel.
  destruct d as [|kv' d].
  - cbn [dump_members_flat]. rewrite <- !app_assoc.
    rewrite scan_member_flat by done. reflexivity.
  - change (dump_members_flat (kv :: kv' :: d))
      with (dump_str kv.1 ++ [58; SPACE] ++ dump_val kv.2 ++ [44; SPACE]
            ++ dump_members_flat (kv' :: d)).
    rewrite <- !app_assoc. rewrite scan_member_flat by done.
    unfold after_member. cbn [app]. rewrite skip_ws_stops by done.
    change (44 =? 125) with false. change (44 =? 44) with true. cbn iota.
    cbn [skip_ws]. change (is_ws SPACE) with true. cbn iota.
    assert (skip_ws (dump_members_flat (kv' :: d) ++ 125 :: rest)
            = dump_members_flat (kv' :: d) ++ 125 :: rest) as ->.
    { destruct d; cbn [dump_members_flat]; unfold dump_str; by rewrite <- !app_assoc. }
    rewrite IH by (done || lia). reflexivity.
Qed.

Lemma length_dump_members_flat d : (length d ≤ length (dump_members_flat d))%nat.
Proof.
  induction d as [|kv [|kv' d] IH]; [done| |].
  - cbn [dump_members_flat]. unfold dump_str. rewrite !length_app. cbn. lia.
  - change (dump_members_flat (kv :: kv' :: d))
      with (dump_str kv.1 ++ [58; SPACE] ++ dump_val kv.2 ++ [44; SPACE]
            ++ dump_members_flat (kv' :: d)).
    rewrite !length_app. cbn [length] in *. lia.
Qed.

(** What [json.dumps] wrote on one line, [json.loads] reads back. *)
Lemma loads_dumps d : scalar_dict d → loads (dumps d) = Some d.
Proof.
  intros Hd. destruct d as [|kv d]; [reflexivity|].
  unfold dumps, loads. cbn [app]. rewrite skip_ws_stops by done.
  unfold scan_object. change (123 =? 123) with true. cbn iota.
  assert (skip_ws (dump_members_flat (kv :: d) ++ [125])
          = dump_members_flat (kv :: d) ++ [125]) as Hskip.
  { destruct d; cbn [dump_members_flat]; unfold dump_str; by rewrite <- !app_assoc. }
  rewrite Hskip.
  assert (scan_members (length (dump_members_flat (kv :: d) ++ [125]))
            (dump_members_flat (kv :: d) ++ [125]) = Some (kv :: d, [])) as Hscan.
  { apply scan_members_flat; [done..|].
    rewrite length_app. pose proof (length_dump_members_flat (kv :: d)). lia. }
  destruct (dump_members_flat (kv :: d) ++ [125]) as [|c2 s2] eqn:E.
  { discriminate Hscan. }
  assert ((c2 =? 125) = false) as ->.
  { apply N.eqb_neq. intros ->. revert E.
    destruct d; cbn [dump_members_flat]; unfold dump_str;
      rewrite <- !app_assoc; discriminate. }
  by rewrite Hscan.
Qed.

End ReplyFacts.

Section ReplyProperties.
Import Server Reply JsonText ReplyFacts.

(** X21.  [_json] never raises, and what it sends can be read: the body is
    ASCII, the [Content-Length] header is the number of its bytes, and for
    data whose keys and strings are text the body, decoded and parsed by
    [json.loads], is the data again. *)
Theorem reply_body_reads_back (code : Z) (data : jdict) :
  ∃ sent text,
    _json code data = Ok sent
    ∧ status sent = code
    ∧ headers sent = [("Content-Type", ustr "application/json");
                      ("Content-Length", Json.dump_int (Z.of_nat (length (wfile sent))))]
    ∧ UTF8.decode (wfile sent) = Some text
    ∧ ascii_text text
    ∧ length (wfile sent) = length text
    ∧ (scalar_dict data → Json.loads text = Some data).
Proof.
  destruct (encode_ascii _ (dumps_ascii data)) as (body & Henc & Hdec & Hlen).
  unfold _json. rewrite Henc. cbn [or_raise mbind result_bind].
  eexists _, (Json.dumps data). split; [reflexivity|].
  cbn [status headers wfile]. repeat split; try done.
  - apply dumps_ascii.
  - apply loads_dumps.
Qed.

End ReplyProperties.

Section ConcreteReplies.
Import Server Reply JsonText Runs.

(** X21 at work: the reply to an upload. *)
Lemma reply_body_reads_back_witness :
  ∃ sent text,
    _json 200 (reply_dict (λ _, []) (body (uploaded (MD5.hexdigest firmware) 14)))
    = Ok sent
    ∧ UTF8.decode (wfile sent) = Some text
    ∧ Json.loads text
      = Some (reply_dict (λ _, []) (body (uploaded (MD5.hexdigest firmware) 14))).
Proof.
  destruct (reply_body_reads_back 200
              (reply_dict (λ _, []) (body (uploaded (MD5.hexdigest firmware) 14))))
    as (sent & text & Hsent & _ & _ & Hdec & _ & _ & Hloads).
  exists sent, text. split; [done|]. split; [done|]. apply Hloads.
  repeat first [apply Forall_nil_2 | apply Forall_cons_2];
    (split; [apply Digest.ascii_scalar, Digest.ascii_text_check; by vm_compute|]);
    cbn [snd]; intros s [=]; subst s;
    first [apply Digest.ascii_scalar, Digest.hexdigest_ascii
          | apply Digest.ascii_scalar, Digest.ascii_text_check; by vm_compute].
Defined.

End ConcreteReplies.

(* ===================================================================== *)
(** * The inspector: responses, tails and the monitor                     *)
(* ===================================================================== *)

Module InspectorFacts.
Import Client Inspector Serial TextFacts.

(** ** [split] and [join] *)

Lemma join_cons sep piece pieces :
  pieces ≠ [] → join sep (piece :: pieces) = piece ++ sep ++ join sep pieces.
Proof. by destruct pieces. Qed.

Lemma split_from_nonempty {A} `{EqDecision A} (sep cur hay : list A) skip :
  split_from sep skip cur hay ≠ [].
Proof.
  revert skip cur. induction hay as [|x hay IH]; intros skip cur; cbn [split_from];
    [done|].
  destruct skip; [|apply IH]. destruct (starts_with sep (x :: hay)); [done|apply IH].
Qed.

Lemma starts_with_take {A} `{EqDecision A} (needle hay : list A) :
  starts_with needle hay = true → hay = needle ++ drop (length needle) hay.
Proof.
  revert hay. induction needle as [|x needle IH]; intros [|y hay] Hs; cbn in Hs;
    try done.
  apply andb_true_iff in Hs as [->%bool_decide_eq_true Hs].
  cbn [length drop app]. f_equal. by apply IH.
Qed.

(** Joining the pieces with the separator gives the text back. *)
Lemma join_split_from sep cur hay :
  sep ≠ [] → join sep (split_from sep 0 cur hay) = rev cur ++ hay.
Proof.
  intros Hsep. remember (length hay) as n eqn:Hn. revert cur hay Hn.
  induction n as [n IH] using lt_wf_ind. intros cur hay Hn.
  destruct hay as [|x hay]; [by cbn; rewrite app_nil_r|].
  cbn [split_from]. destruct (starts_with sep (x :: hay)) eqn:Hs.
  - rewrite join_cons by apply split_from_nonempty.
    rewrite FormFacts.split_from_skip.
    rewrite (IH (length (drop (length sep - 1) hay))); [|subst n; cbn; rewrite length_drop; lia|done].
    cbn [rev app]. f_equal.
    apply starts_with_take in Hs.
    destruct sep as [|s sep]; [done|].
    replace (length (s :: sep) - 1)%nat with (length sep) by (cbn [length]; lia).
    cbn [length drop app] in Hs |- *. symmetry. exact Hs.
  - rewrite (IH (length hay)); [|subst n; cbn; lia|done].
    cbn [rev]. by rewrite <- app_assoc.
Qed.

Lemma join_split sep s : sep ≠ [] → join sep (split sep s) = s.
Proof. intros Hsep. unfold split. by rewrite join_split_from. Qed.

(** ** Lines *)

Lemma strip_frame payload :
  trimmed payload → strip (frame payload) = RESPONSE_PREFIX ++ payload.
Proof.
  intros Hp. unfold frame.
  rewrite app_assoc.
  apply (strip_pad [] (RESPONSE_PREFIX ++ payload) NL).
  - constructor.
  - repeat constructor.
  - intros c. unfold RESPONSE_PREFIX. cbn. by intros [= <-].
  - intros c. destruct (last payload) as [p|] eqn:Hl.
    + apply last_Some in Hl as [payload' ->].
      rewrite app_assoc, last_snoc. intros [= <-]. apply Hp. apply last_snoc.
    + apply last_None in Hl as ->. rewrite app_nil_r. cbn. by intros [= <-].
Qed.

Lemma read_response_frames payloads rest response_lines found_response :
  Forall trimmed payloads →
  payloads ≠ [] ∨ found_response = true →
  read_response (map frame payloads ++ (RESPONSE_END ++ NL) :: rest)
                response_lines found_response
  = Some (join NL (response_lines ++ payloads)).
Proof.
  intros Hp. revert response_lines found_response.
  induction Hp as [|p payloads Hp _ IH]; intros acc found Hfound.
  - destruct Hfound as [Hne | ->]; [done|]. cbn [map app read_response].
    by rewrite app_nil_r.
  - cbn [map app read_response]. rewrite strip_frame by done.
    rewrite VersionFacts.starts_with_app.
    rewrite drop_app_length. rewrite IH by (by right).
    by rewrite <- app_assoc.
Qed.

Lemma read_response_noise before raw after response_lines found_response :
  noise raw →
  read_response (before ++ raw :: after) response_lines found_response
  = read_response (before ++ after) response_lines found_response.
Proof.
  intros [Hprefix Hend]. revert response_lines found_response.
  induction before as [|l before IH]; intros acc found; cbn [app read_response].
  - rewrite Hprefix. by rewrite bool_decide_eq_false_2.
  - by rewrite !IH.
Qed.

Lemma read_response_no_end incoming response_lines found_response :
  Forall (λ raw, strip raw ≠ RESPONSE_END) incoming →
  read_response incoming response_lines found_response = None.
Proof.
  intros Hno. revert response_lines found_response.
  induction Hno as [|raw incoming Hraw _ IH]; intros acc found; [done|].
  cbn [read_response]. rewrite !IH.
  rewrite bool_decide_eq_false_2 by done. by destruct (starts_with _ _).
Qed.

(** ** The monitor *)

Lemma monitor_loop_grow appended last_content :
  last_content ≠ [] →
  concat (map written (monitor_loop (grow last_content appended) last_content))
  = all_appended appended.
Proof.
  revert last_content. induction appended as [|[a|] appended IH]; intros last Hlast.
  - reflexivity.
  - cbn [grow monitor_loop]. unfold all_appended. cbn [omap id concat].
    fold (all_appended appended).
    destruct last as [|c0 last']; [done|]. cbn [app].
    change (c0 :: last' ++ a) with ((c0 :: last') ++ a).
    destruct a as [|a0 a'].
    + rewrite app_nil_r, bool_decide_eq_true_2 by done. by rewrite IH.
    + rewrite bool_decide_eq_false_2.
      2:{ intros Heq%(f_equal (@length N)). rewrite length_app in Heq. cbn in Heq. lia. }
      rewrite drop_app_length. cbn [map concat written]. rewrite IH; [done|].
      discriminate.
  - cbn [grow monitor_loop]. unfold all_appended. cbn [omap]. by apply IH.
Qed.

End InspectorFacts.

Section InspectorProperties.
Import Client Inspector Serial InspectorFacts.

(** X22.  The framing of a response.  [send_command] returns the payloads
    of the response lines, joined by line breaks, as soon as the end marker
    follows them; lines that are neither response lines nor the end marker
    (the log of the firmware on the same port) are skipped wherever they
    stand; and without an end marker nothing is returned, however many
    response lines came. *)
Theorem response_framing :
  (∀ payloads rest,
     Forall trimmed payloads → payloads ≠ [] →
     send_command true (map frame payloads ++ (RESPONSE_END ++ NL) :: rest)
     = Some (join NL payloads))
  ∧ (∀ before raw after,
       noise raw →
       send_command true (before ++ raw :: after)
       = send_command true (before ++ after))
  ∧ (∀ incoming,
       Forall (λ raw, strip raw ≠ RESPONSE_END) incoming →
       send_command true incoming = None)
  ∧ (∀ incoming, send_command false incoming = None).
Proof.
  unfold send_command. split; [|split; [|split]].
  - intros payloads rest Hp Hne. by rewrite read_response_frames by (done || by left).
  - intros before raw after Hnoise. by apply read_response_noise.
  - intros incoming Hno. by apply read_response_no_end.
  - done.
Qed.

(** X23.  What [tail_file] shows.  For a positive number of lines it is
    the last so many lines of the file, and the whole file when it has no
    more lines than that, character for character.  Zero lines also shows
    the whole file, and a negative number leaves out that many lines at the
    beginning: the slice [all_lines[-lines:]] starts at the front then. *)
Theorem tail_shows_the_last_lines (content : str) (lines : Z) :
  let all_lines := split NL content in
  (1 ≤ lines →
   last_lines lines all_lines
   = drop (length all_lines - Z.to_nat lines) all_lines
   ∧ length (last_lines lines all_lines)
     = Nat.min (Z.to_nat lines) (length all_lines))
  ∧ (Z.of_nat (length all_lines) ≤ lines → tail_text content lines = content)
  ∧ tail_text content 0 = content
  ∧ (lines < 0 →
     last_lines lines all_lines = drop (Z.to_nat (- lines)) all_lines).
Proof.
  cbn zeta. unfold tail_text, last_lines. cbn zeta.
  assert (1 ≤ length (split NL content))%nat as Hlen.
  { pose proof (split_from_nonempty NL [] content 0) as Hne. unfold split.
    destruct (split_from NL 0 [] content); [done|cbn; lia]. }
  split; [|split; [|split]].
  - intros Hlines.
    assert ((- lines <? 0) = true) as -> by (apply Z.ltb_lt; lia).
    assert (Z.to_nat (Z.max (Z.of_nat (length (split NL content)) - lines) 0)
            = (length (split NL content) - Z.to_nat lines)%nat) as -> by lia.
    split; [done|]. rewrite length_drop. lia.
  - intros Hall.
    assert ((- lines <? 0) = true) as -> by (apply Z.ltb_lt; lia).
    assert (Z.to_nat (Z.max (Z.of_nat (length (split NL content)) - lines) 0) = 0%nat)
      as -> by lia.
    rewrite drop_0. by apply join_split.
  - change (- 0 <? 0) with false. cbn iota. rewrite Z.min_l by lia.
    change (Z.to_nat 0) with 0%nat. rewrite drop_0. by apply join_split.
  - intros Hneg.
    assert ((- lines <? 0) = false) as -> by (apply Z.ltb_ge; lia).
    destruct (Z.le_ge_cases (- lines) (Z.of_nat (length (split NL content))))
      as [Hle|Hge].
    + by rewrite Z.min_l.
    + rewrite Z.min_r by done. rewrite Nat2Z.id.
      rewrite !drop_ge; (done || lia).
Qed.

(** X24.  The monitor prints what is appended, once.  While the file only
    grows, the monitor writes its first content followed by a line break,
    and after that exactly the text that each poll finds appended; a poll
    that fails or finds nothing new prints nothing and loses nothing. *)
Theorem monitor_prints_what_is_appended (first : str) (appended : list (option str)) :
  first ≠ [] →
  concat (map written (monitor_loop (Some first :: grow first appended) []))
  = first ++ NL ++ all_appended appended.
Proof.
  intros Hfirst. destruct first as [|c first']; [done|].
  cbn [monitor_loop]. rewrite bool_decide_eq_false_2 by done.
  cbn [map concat written]. rewrite monitor_loop_grow by done.
  by rewrite <- app_assoc.
Qed.

End InspectorProperties.

Section ConcreteSessions.
Import Client Inspector Serial Sessions.

(** X22 at work: a listing of two files, with a line of the firmware's log
    after it. *)
Lemma response_framing_witness :
  send_command true (map frame listing ++ (RESPONSE_END ++ NL) :: [ustr "[wifi] up"])
  = Some (join NL listing).
Proof.
  apply (proj1 response_framing listing [ustr "[wifi] up"]).
  - repeat first [apply Forall_nil_2 | apply Forall_cons_2];
      intros c [= <-]; reflexivity.
  - discriminate.
Defined.

(** X23 at work: the last two lines of three. *)
Lemma tail_shows_the_last_lines_witness :
  last_lines 2 (split NL log_file)
  = drop (length (split NL log_file) - Z.to_nat 2) (split NL log_file)
  ∧ length (last_lines 2 (split NL log_file))
    = Nat.min (Z.to_nat 2) (length (split NL log_file)).
Proof.
  apply (proj1 (tail_shows_the_last_lines log_file 2)). lia.
Defined.

(** X24 at work: a log that gets two more lines. *)
Lemma monitor_prints_what_is_appended_witness :
  concat (map written (monitor_loop (Some (ustr "boot" ++ NL)
                                     :: grow (ustr "boot" ++ NL) growth) []))
  = (ustr "boot" ++ NL) ++ NL ++ all_appended growth.
Proof.
  apply (monitor_prints_what_is_appended (ustr "boot" ++ NL) growth). discriminate.
Defined.

End ConcreteSessions.
(* ===================================================================== *)
(** * The general properties on concrete runs                             *)
(* ===================================================================== *)

Section ConcreteGeneral.
Import Client UploadLoop Traffic Server Upload Runs Cases.

(** X1 at work: a network on which nobody listens. *)
Lemma upload_traffic_is_bounded_witness :
  (posts (post_firmware_to_server down disk built staged project_url).2 ≤ 3)%nat
  ∧ (sleeps (post_firmware_to_server down disk built staged project_url).2 ≤ 2)%nat
  ∧ Forall (λ e, is_sleep e = true → e = Sleep 2)
           (post_firmware_to_server down disk built staged project_url).2.
Proof. apply (upload_traffic_is_bounded down disk built staged project_url). Defined.

(** X10 at work: a project that uploads over the air. *)
Lemma hooks_agree_on_the_method_witness :
  SelectUpload.method over_the_air ∅ = flash_method over_the_air ∅
  ∧ (SelectUpload.Replace "UPLOAD_PROTOCOL" (ustr "custom")
       ∈ SelectUpload.select_upload over_the_air ∅
     ↔ flash_method over_the_air ∅ = ustr "ota")
  ∧ (flash_method over_the_air ∅ = ustr "ota"
     ∨ ∃ line, SelectUpload.select_upload over_the_air ∅ = [SelectUpload.Say line]).
Proof. apply (hooks_agree_on_the_method over_the_air ∅). Defined.

(** X11 at work: a document that is no form, posted to a server that holds
    an image. *)
Lemma handler_status_codes_witness :
  (code (reply (do_POST staging_dir clock upload_as_json staged_before)) = 200
   ∨ code (reply (do_POST staging_dir clock upload_as_json staged_before)) = 400
   ∨ code (reply (do_POST staging_dir clock upload_as_json staged_before)) = 404
   ∨ code (reply (do_POST staging_dir clock upload_as_json staged_before)) = 500)
  ∧ (code (reply (do_POST staging_dir clock upload_as_json staged_before)) = 404
     ↔ path upload_as_json ≠ ustr "/upload")
  ∧ (code (do_GET upload_as_json) = 200 ∨ code (do_GET upload_as_json) = 404)
  ∧ (code (do_GET upload_as_json) = 200 ↔ path upload_as_json = ustr "/health")
  ∧ (∀ p, p ≠ firmware_bin staging_dir → p ≠ manifest_json staging_dir →
          files (do_POST staging_dir clock upload_as_json staged_before) !! p
          = staged_before !! p).
Proof. apply (handler_status_codes staging_dir clock upload_as_json staged_before). Defined.

(** X19 at work: the same request. *)
Lemma handler_log_matches_reply_witness :
  (code (reply (do_POST staging_dir clock upload_as_json staged_before)) = 200 ↔
   ∃ version data,
     files (do_POST staging_dir clock upload_as_json staged_before)
     !! firmware_bin staging_dir = Some data
     ∧ printed (do_POST staging_dir clock upload_as_json staged_before)
       = [LogOk version (length data)])
  ∧ (code (reply (do_POST staging_dir clock upload_as_json staged_before)) = 500 ↔
     ∃ e, reply (do_POST staging_dir clock upload_as_json staged_before)
          = Response 500 (ErrorOf e)
          ∧ printed (do_POST staging_dir clock upload_as_json staged_before)
            = [LogErr e])
  ∧ (code (reply (do_POST staging_dir clock upload_as_json staged_before)) = 400
     ∨ code (reply (do_POST staging_dir clock upload_as_json staged_before)) = 404
     ↔ printed (do_POST staging_dir clock upload_as_json staged_before) = []).
Proof.
  apply (handler_log_matches_reply staging_dir clock upload_as_json staged_before).
Defined.

End ConcreteGeneral.

Section InspectorCallers.
Import Client Inspector Serial InspectorFacts.

(** X25.  An empty answer counts as a failure.  Every caller of
    [send_command] tests the response with [if response:], so a response
    that is complete but empty (one response line without a payload, as for
    an empty file) is taken like no response at all; any other complete
    response is taken as a success. *)
Theorem empty_response_counts_as_failure (payloads : list str) (rest : list str) :
  Forall trimmed payloads → payloads ≠ [] →
  (truthy (send_command true (map frame payloads ++ (RESPONSE_END ++ NL) :: rest))
   = false
   ↔ payloads = [[]]).
Proof.
  intros Hp Hne. unfold send_command.
  rewrite read_response_frames by (done || by left). cbn [app].
  destruct payloads as [|p [|q payloads]]; [done| |].
  - cbn [join truthy]. destruct p; split; (done || by intros [=]).
  - rewrite join_cons by done. split; [|done].
    destruct p; cbn; discriminate.
Qed.

End InspectorCallers.

Section ConcreteCallers.
Import Client Inspector Serial.

(** X25 at work: the content of an empty file. *)
Lemma empty_response_counts_as_failure_witness :
  truthy (send_command true (map frame [[]] ++ (RESPONSE_END ++ NL) :: [])) = false.
Proof.
  apply (proj2 (empty_response_counts_as_failure [[]] []
                  ltac:(repeat constructor; by intros c [=]) ltac:(discriminate))).
  reflexivity.
Defined.

End ConcreteCallers.

(* ===================================================================== *)
(** * A form with more than one firmware part                             *)
(* ===================================================================== *)

Module DuplicateFacts.
Import Server Upload UploadFacts.



End DuplicateFacts.

Section DuplicateProperties.
Import Server Upload UploadFacts DuplicateFacts.

Context (FIRMWARE_DIR now : str).

Local Abbreviation do_POST := (Server.do_POST FIRMWARE_DIR now).
Local Abbreviation firmware_bin := (Server.firmware_bin FIRMWARE_DIR).


End DuplicateProperties.

Section ConcreteDuplicates.
Import Server Upload UploadFacts Runs Duplicates.


End ConcreteDuplicates.
